(** * Extraction reconciliation pipeline: a shallow embedding

    The development follows the Python sources module by module:

    - [app/data/reference_data.py]      (static catalogue and its accessors)
    - [app/utils/supplier_utils.py]     (fuzzy supplier matcher)
    - [app/utils/supplier_assignment.py](document-level supplier)
    - [app/utils/barcode_generator.py]  (barcodes and reference lines)
    - [app/utils/json_utils.py]         (sanitizer and numeric recovery)
    - [app/extractors/extraction_agent.py] (page cleaner)
    - [app/extractors/gemini_extractor.py] (cross-page post-processor)
    - [app/utils/recovery_system.py]    (sanitizer of the recovery system)
    - [app/utils/category_mapper.py]    (category mapper)

    Python [str] values are lists of code points, Python [float] values are
    Rocq's primitive binary64 floats, Python [int] values are [Z].  A Python
    exception that leaves a function is the result [None] of the embedded
    function (an [option] in the source's return position is always noted).

    Part I holds the definitions, Part II the theorems. *)

From Stdlib Require Import ZArith NArith List String Ascii Bool Lia Floats.
From Stdlib Require Import Permutation DecimalString Sorted.
Import ListNotations.

Set Warnings "-inexact-float,-register-all".
Set Implicit Arguments.

Open Scope Z_scope.

(* ================================================================== *)
(** * Part I: definitions *)
(* ================================================================== *)

(** ** Python strings *)

Module Py.

(** A [str] is its sequence of code points. *)
Definition str := list N.

Fixpoint utf8_go (bs : list N) (need : nat) (acc : N) : str :=
  match bs with
  | [] => []
  | b :: tl =>
      match need with
      | O =>
          if (b <? 128)%N then b :: utf8_go tl 0 0%N
          else if (b <? 224)%N then utf8_go tl 1 (b mod 32)%N
          else if (b <? 240)%N then utf8_go tl 2 (b mod 16)%N
          else utf8_go tl 3 (b mod 8)%N
      | S O => (acc * 64 + b mod 64)%N :: utf8_go tl 0 0%N
      | S n => utf8_go tl n (acc * 64 + b mod 64)%N
      end
  end.

(** [u "text"] is the Python literal ["text"]: the literal's UTF-8 bytes
    decoded into code points. *)
Definition u (s : string) : str :=
  utf8_go (map N_of_ascii (list_ascii_of_string s)) 0 0%N.

Fixpoint eqb (a b : str) : bool :=
  match a, b with
  | [], [] => true
  | x :: a', y :: b' => (x =? y)%N && eqb a' b'
  | _, _ => false
  end.

(** [len(s)] *)
Definition len (s : str) : Z := Z.of_nat (List.length s).

(** [s.startswith(p)] *)
Fixpoint startswith (p s : str) : bool :=
  match p, s with
  | [], _ => true
  | _ :: _, [] => false
  | x :: p', y :: s' => (x =? y)%N && startswith p' s'
  end.

(** [needle in hay] for two strings *)
Fixpoint contains (needle hay : str) : bool :=
  startswith needle hay ||
  match hay with
  | [] => false
  | _ :: hay' => contains needle hay'
  end.

(** [x in xs] for a list (or the values of a dict) of strings *)
Definition mem (x : str) (xs : list str) : bool := existsb (eqb x) xs.

(** [c.isspace()]: the code points Python's [str] treats as white space. *)
Definition isspace (c : N) : bool :=
  ((9 <=? c) && (c <=? 13) || (28 <=? c) && (c <=? 32) || (c =? 133) ||
   (c =? 160) || (c =? 5760) || (8192 <=? c) && (c <=? 8202) ||
   (c =? 8232) || (c =? 8233) || (c =? 8239) || (c =? 8287) ||
   (c =? 12288))%N.

Fixpoint lstrip (s : str) : str :=
  match s with
  | [] => []
  | c :: s' => if isspace c then lstrip s' else s
  end.

(** [s.strip()] *)
Definition strip (s : str) : str := rev (lstrip (rev (lstrip s))).

Fixpoint split_go (s : str) (cur : str) : list str :=
  match s with
  | [] => match cur with [] => [] | _ => [rev cur] end
  | c :: s' =>
      if isspace c
      then match cur with
           | [] => split_go s' []
           | _ => rev cur :: split_go s' []
           end
      else split_go s' (c :: cur)
  end.

(** [s.split()] (no separator: runs of white space, no empty tokens) *)
Definition split (s : str) : list str := split_go s [].

(** [s.isdigit()] restricted to what the catalogue needs is not used; the
    predicate below is the plain property "every character is one of 0-9". *)
Definition is_ascii_digit (c : N) : bool := ((48 <=? c) && (c <=? 57))%N.
Definition all_digits (s : str) : bool := forallb is_ascii_digit s.

Definition zeros (n : nat) : str := repeat 48%N n.

(** [s.zfill(width)]: pads on the left, after a leading sign; never cuts. *)
Definition zfill (width : nat) (s : str) : str :=
  let pad := zeros (width - List.length s) in
  match s with
  | c :: s' => if ((c =? 43) || (c =? 45))%N then c :: pad ++ s' else pad ++ s
  | [] => pad
  end.

(** [str(n)] for an [int] *)
Definition str_of_Z (z : Z) : str :=
  map N_of_ascii (list_ascii_of_string (NilZero.string_of_int (Z.to_int z))).

(** [str(x)] where [x] is a string or [None] *)
Definition str_of_opt (o : option str) : str :=
  match o with Some s => s | None => u "None" end.

(** Truth value of a string-or-[None]: [None] and [""] are false. *)
Definition truthy (o : option str) : bool :=
  match o with Some (_ :: _) => true | _ => false end.

(** [a < b] on strings (code point order), for [list.sort]. *)
Fixpoint ltb (a b : str) : bool :=
  match a, b with
  | _, [] => false
  | [], _ :: _ => true
  | x :: a', y :: b' => (x <? y)%N || ((x =? y)%N && ltb a' b')
  end.

End Py.

Definition pystr := Py.str.
Definition u := Py.u.

(** ** Python numbers *)

(** A JSON number: a Python [int] or a Python [float]. *)
Inductive pynum :=
| PInt (z : Z)
| PFloat (f : float).

Module Num.

(** [float(n)] for an [int]: correctly rounded; [None] is [OverflowError]. *)
Definition float_of_Z (z : Z) : option float :=
  let f := SF2Prim (binary_normalize prec emax z 0 false) in
  if PrimFloat.is_infinity f then None else Some f.

Definition to_float (n : pynum) : option float :=
  match n with
  | PInt z => float_of_Z z
  | PFloat f => Some f
  end.

Definition is_finite (f : float) : bool :=
  negb (PrimFloat.is_nan f) && negb (PrimFloat.is_infinity f).

(** [math.isnan(x) or math.isinf(x)] *)
Definition non_finite (f : float) : bool :=
  PrimFloat.is_nan f || PrimFloat.is_infinity f.

(** [n <= 0] and [n > 0]: an [int] compares exactly, a [float] as IEEE. *)
Definition le0 (n : pynum) : bool :=
  match n with
  | PInt z => z <=? 0
  | PFloat f => PrimFloat.leb f 0%float
  end.

Definition gt0 (n : pynum) : bool :=
  match n with
  | PInt z => 0 <? z
  | PFloat f => PrimFloat.ltb 0%float f
  end.

(** Truth value of a number: zero is false, NaN is true. *)
Definition truthy (n : pynum) : bool :=
  match n with
  | PInt z => negb (z =? 0)
  | PFloat f => negb (PrimFloat.eqb f 0%float)
  end.

(** The exact value of a finite float that is a whole number
    ([x.is_integer()] and then [int(x)]); [None] when it is not one. *)
Definition integral_value (f : float) : option Z :=
  match Prim2SF f with
  | S754_zero _ => Some 0
  | S754_finite s m e =>
      let v := if (0 <=? e) then Some (Z.pos m * 2 ^ e)
               else if (Z.pos m mod 2 ^ (- e) =? 0)
                    then Some (Z.pos m / 2 ^ (- e)) else None in
      option_map (fun z => if s then - z else z) v
  | _ => None
  end.

End Num.

(** ** The Python runtime

    Builtins and standard-library functions the sources call and that are
    not re-implemented here.  Every theorem of Part II holds for any
    runtime; [Sample.runtime] (below) is only used to evaluate examples. *)

Record Runtime := {
  (** [s.upper()] *)
  upper : pystr -> pystr;
  (** [re.sub(pattern, repl, s)]; the flag is [flags=re.IGNORECASE] *)
  re_sub : pystr -> pystr -> bool -> pystr -> pystr;
  (** [re.match(pattern, s)] and then [.group(1)]; [None]: no match *)
  re_match_group1 : pystr -> pystr -> option pystr;
  (** [difflib.SequenceMatcher(None, a, b).ratio()] *)
  seq_ratio : pystr -> pystr -> float;
  (** [round(x, ndigits)] on a float *)
  round_nd : float -> Z -> float;
  (** [sum(xs)] of floats, starting from the int [0] *)
  fsum : list float -> float;
  (** [sum(xs)] of numbers; [None] is an exception ([OverflowError]) *)
  nsum : list pynum -> option pynum;
  (** [float(s)] for a string; [None] is [ValueError] *)
  float_of_str : pystr -> option float
}.

(** ** List helpers *)

(** The values that are not [None], in order. *)
Fixpoint keep_some (A : Type) (l : list (option A)) : list A :=
  match l with
  | [] => []
  | Some x :: l' => x :: keep_some l'
  | None :: l' => keep_some l'
  end.

(** A loop whose rounds may raise: all results, or [None] when one
    round raises. *)
Fixpoint all_some (A : Type) (l : list (option A)) : option (list A) :=
  match l with
  | [] => Some []
  | Some x :: l' => option_map (cons x) (all_some l')
  | None :: _ => None
  end.

(** Truth value of a list. *)
Definition non_empty (A : Type) (l : list A) : bool :=
  match l with [] => false | _ => true end.

(** ** Dictionaries in insertion order *)

Module Dict.
Section Assoc.
Variable V : Type.

Fixpoint get (k : pystr) (d : list (pystr * V)) : option V :=
  match d with
  | [] => None
  | (k', v) :: d' => if Py.eqb k k' then Some v else get k d'
  end.

(** [d[k] = v]: an existing key keeps its position. *)
Fixpoint set (k : pystr) (v : V) (d : list (pystr * V)) : list (pystr * V) :=
  match d with
  | [] => [(k, v)]
  | (k', v') :: d' =>
      if Py.eqb k k' then (k, v) :: d' else (k', v') :: set k v d'
  end.

Definition values (d : list (pystr * V)) : list V := map snd d.
End Assoc.

(** [{v: k for k, v in d.items()}] *)
Definition invert (d : list (pystr * pystr)) : list (pystr * pystr) :=
  fold_left (fun acc kv => set (snd kv) (fst kv) acc) d [].
End Dict.

(** ** app/data/reference_data.py *)

Module ReferenceData.

Definition table (l : list (string * string)) : list (pystr * pystr) :=
  map (fun kv => (u (fst kv), u (snd kv))) l.

Definition COLOR_MAP : list (pystr * pystr) := Eval vm_compute in table
  [ ("001", "Branco"); ("002", "Vermelho"); ("003", "Verde");
    ("004", "Castanho"); ("005", "Amarelo"); ("006", "Lilás");
    ("007", "Rosa"); ("008", "Azul"); ("009", "Laranja");
    ("010", "Preto"); ("011", "Cinza"); ("012", "Bege");
    ("013", "Camel"); ("014", "Coral"); ("015", "Chocolate");
    ("016", "Creme"); ("017", "Dourado"); ("018", "Gelo");
    ("019", "Grená"); ("020", "Turquesa"); ("021", "Prata");
    ("022", "Púrpura"); ("023", "Roxo"); ("024", "Violeta");
    ("025", "Salmão"); ("026", "Bronze"); ("027", "Cereja");
    ("028", "Fucsia"); ("029", "Marfim"); ("030", "Tijolo") ]%string.

Definition COLOR_CODE_MAP : list (pystr * pystr) :=
  Eval vm_compute in Dict.invert COLOR_MAP.

Definition SIZE_MAP : list (pystr * pystr) := Eval vm_compute in table
  [ ("XS", "001"); ("S", "002"); ("M", "003"); ("L", "004"); ("XL", "005");
    ("XXL", "006"); ("XXXL", "007"); ("31", "008"); ("32", "009");
    ("33", "010"); ("34", "011"); ("35", "012"); ("36", "013");
    ("37", "014"); ("38", "015"); ("39", "016"); ("40", "017");
    ("42", "018"); ("44", "019"); ("46", "020"); ("48", "021");
    ("50", "022"); ("52", "023"); ("54", "024"); ("56", "025");
    ("58", "026"); ("2", "027"); ("4", "028"); ("6", "029"); ("8", "030");
    ("10", "031"); ("12", "032"); ("14", "033"); ("16", "034");
    ("TU", "035"); ("28", "036"); ("29", "037"); ("30", "038");
    ("26", "039"); ("27", "040"); ("39-40", "041"); ("41-42", "042");
    ("43-44", "043"); ("41", "044"); ("43", "045") ]%string.

Definition CATEGORIES : list pystr := Eval vm_compute in map u
  [ "CAMISAS"; "CASACOS"; "VESTIDOS"; "BLUSAS"; "CALÇAS"; "CALÇÃO";
    "MALHAS"; "SAIAS"; "T-SHIRTS"; "POLOS"; "JEANS"; "SWEATSHIRTS";
    "BLAZERS E FATOS"; "BLUSÕES E PARKAS"; "CALÇADO"; "TOP";
    "ACESSÓRIOS" ]%string.

(** One entry of [SUPPLIER_DATA]: ["nome"] and ["marcacao"] (a float or
    [None]). *)
Record supplier_entry := { nome : pystr; marcacao : option float }.

Definition entry (code name : string) (m : option float)
  : pystr * supplier_entry :=
  (u code, {| nome := u name; marcacao := m |}).

Definition SUPPLIER_DATA : list (pystr * supplier_entry) :=
  Eval vm_compute in
  [ entry "01" "GANT" (Some 1.65%float);
    entry "02" "HUGO BOSS" (Some 2.73%float);
    entry "03" "VANDOMA- António M. Sousa" (Some 4.0%float);
    entry "04" "ESCORPION" (Some 2.6%float);
    entry "05" "MAXMARA" (Some 2.6%float);
    entry "06" "MARELLA" (Some 2.7%float);
    entry "07" "PAUL & SHARK- DAMA" (Some 2.5%float);
    entry "08" "MARCOTEX" (Some 2.7%float);
    entry "09" "FLORENTINO COLECCION" (Some 2.6%float);
    entry "10" "MEYER- HOSEN" (Some 2.7%float);
    entry "11" "DECENIO" (Some 2.5%float);
    entry "12" "MIGUEL BELLIDO" (Some 3.0%float);
    entry "13" "LINDENMANN" (Some 3.0%float);
    entry "15" "TOMMY HILFIGER" (Some 2.45%float);
    entry "17" "LEBEK FASHION" (Some 3.0%float);
    entry "18" "NAULOVER" (Some 2.6%float);
    entry "20" "DIELMAR" (Some 2.6%float);
    entry "22" "RALPH LAUREN" (Some 2.7%float);
    entry "23" "LVX" None;
    entry "24" "LIU.JO" (Some 2.6%float);
    entry "25" "PENNYBLACK" (Some 2.6%float);
    entry "26" "CB BENNETT" (Some 3.0%float);
    entry "27" "TOMMY HILFIGER- ACESS" None;
    entry "28" "REFIVE" None;
    entry "29" "MICHAELA LOUISA" None;
    entry "30" "COCCINELLE" (Some 2.61%float);
    entry "31" "LOVE MOSCHINO- SINV" (Some 2.6%float);
    entry "32" "BOUTIQUE MOSCHINO-AEFFE" (Some 2.6%float);
    entry "33" "TWINSET- ANDRÉ COSTA" (Some 2.5%float);
    entry "35" "MORPHOPOLIS OFICINA DE ARQUITECTURA" None ].

(** [{k: v["nome"] for k, v in SUPPLIER_DATA.items()}] *)
Definition SUPPLIER_MAP : list (pystr * pystr) :=
  Eval vm_compute in map (fun kv => (fst kv, nome (snd kv))) SUPPLIER_DATA.

Definition SUPPLIER_CODE_MAP : list (pystr * pystr) :=
  Eval vm_compute in Dict.invert SUPPLIER_MAP.

(** The test of the partial searches: [a in b or b in a]. *)
Definition either_contains (a b : pystr) : bool :=
  Py.contains a b || Py.contains b a.

(** [for k, v in d.items(): if test(k): return v] and then [return None] *)
Definition first_value (A : Type) (test : pystr -> bool)
    (d : list (pystr * A)) : option A :=
  option_map snd (find (fun kv => test (fst kv)) d).

Section Accessors.
Variable rt : Runtime.

Definition get_color_name (color_code : pystr) : pystr :=
  match Dict.get color_code COLOR_MAP with
  | Some name => name
  | None => color_code
  end.

Definition get_color_code (color_name : pystr) : option pystr :=
  let color_name_upper := upper rt color_name in
  match Dict.get color_name COLOR_CODE_MAP with
  | Some code => Some code
  | None =>
      first_value
        (fun name => either_contains (upper rt name) color_name_upper)
        COLOR_CODE_MAP
  end.

Definition get_size_code (size : pystr) : option pystr :=
  let size_upper := upper rt size in
  match Dict.get size_upper SIZE_MAP with
  | Some code => Some code
  | None =>
      first_value (fun s => Py.eqb (upper rt s) size_upper) SIZE_MAP
  end.

Definition get_category (category_name : pystr) : option pystr :=
  let category_upper := upper rt category_name in
  if Py.mem category_upper CATEGORIES then Some category_upper
  else find (fun category => either_contains category category_upper)
            CATEGORIES.

Definition get_supplier_code (supplier_name : pystr) : option pystr :=
  let supplier_upper := upper rt supplier_name in
  match Dict.get supplier_name SUPPLIER_CODE_MAP with
  | Some code => Some code
  | None =>
      first_value
        (fun name => either_contains (upper rt name) supplier_upper)
        SUPPLIER_CODE_MAP
  end.

(** [get_markup]: the code is padded to two characters when it has one. *)
Definition get_markup (supplier_code : pystr) : option float :=
  let code_str :=
    if (Py.len supplier_code =? 1) then Py.zfill 2 supplier_code
    else supplier_code in
  match Dict.get code_str SUPPLIER_DATA with
  | Some e => marcacao e
  | None => None
  end.
End Accessors.

End ReferenceData.

(** ** app/utils/supplier_utils.py *)

Module SupplierUtils.
Import ReferenceData.

Definition UNIDENTIFIED_SUPPLIER : pystr := u "Fornecedor não identificado".

(** The company suffixes removed by [normalize_supplier_name], as the
    regular expressions of the source (raw strings). *)
Definition suffixes : list pystr := Eval vm_compute in map u
  [ "\bS\.p\.A\.?\b"; "\bS\.A\.?\b"; "\bS\.L\.?\b"; "\bLtd\.?\b";
    "\bLtda\.?\b"; "\bInc\.?\b"; "\bLLC\.?\b"; "\bGmbH\.?\b";
    "\bCo\.?\b"; "\bCorp\.?\b"; "\bB\.V\.?\b"; "\bA\.G\.?\b" ]%string.

(** [set(tokens)]: the distinct tokens (first occurrences). *)
Fixpoint dedup (l : list pystr) : list pystr :=
  match l with
  | [] => []
  | x :: l' => x :: filter (fun y => negb (Py.eqb x y)) (dedup l')
  end.

(** [len(xs)] of a collection as a float operand of a true division. *)
Definition float_of_nat (n : nat) : float :=
  SF2Prim (binary_normalize prec emax (Z.of_nat n) 0 false).

(** [min(a, b)] and [max(a, b)] as the builtins evaluate them on two
    arguments: the first one is kept unless the second is strictly
    smaller (larger). *)
Definition py_min (a b : float) : float := if PrimFloat.ltb b a then b else a.
Definition py_max (a b : float) : float := if PrimFloat.ltb a b then b else a.

(** The inner test of the "significant tokens" loops. *)
Definition significant_pair (t1 t2 : pystr) : bool :=
  Py.eqb t1 t2
  || ((4 <=? Py.len t1) && Py.contains t1 t2)
  || ((4 <=? Py.len t2) && Py.contains t2 t1).

Definition significant_tokens (tokens1 tokens2 : list pystr) : bool :=
  existsb (fun t1 => (4 <=? Py.len t1) && existsb (significant_pair t1) tokens2)
          tokens1.

Definition set_similarity (tokens1 tokens2 : list pystr) : float :=
  match tokens1, tokens2 with
  | [], _ | _, [] => 0%float
  | _, _ =>
      let common_tokens := filter (fun t => Py.mem t tokens2) tokens1 in
      (float_of_nat (List.length common_tokens)
       / float_of_nat (Nat.max (List.length tokens1) (List.length tokens2)))%float
  end.

Section Matcher.
Variable rt : Runtime.

Definition normalize_supplier_name (name : pystr) : pystr :=
  match name with
  | [] => []
  | _ =>
      let result := upper rt name in
      let result :=
        fold_left (fun r suffix => re_sub rt suffix (u "") true r)
                  suffixes result in
      let result := re_sub rt (u "[^\w\s]") (u " ") false result in
      Py.strip (re_sub rt (u "\s+") (u " ") false result)
  end.

Definition calculate_similarity_score (str1 str2 : pystr) : float :=
  let seq_similarity := seq_ratio rt str1 str2 in
  let tokens1 := dedup (Py.split str1) in
  let tokens2 := dedup (Py.split str2) in
  let token_bonus :=
    if significant_tokens tokens1 tokens2 then 0.2%float else 0%float in
  let final_score :=
    (seq_similarity * 0.4 + set_similarity tokens1 tokens2 * 0.4
     + token_bonus)%float in
  py_min final_score 1%float.

(** The score of one catalogue entry inside the loop of
    [find_most_similar_supplier]: the similarity score, raised to 0.7
    once for each token of at least four characters of the candidate
    that is a token of the entry. *)
Definition entry_score (normalized_supplier supplier : pystr) : float :=
  let score := calculate_similarity_score normalized_supplier supplier in
  let tokens2 := Py.split supplier in
  fold_left
    (fun score token =>
       if (4 <=? Py.len token) && Py.mem token tokens2
       then py_max score 0.7%float else score)
    (Py.split normalized_supplier) score.

(** One round of the loop: entries whose normalised name is empty are
    skipped; a strictly better score replaces the best match. *)
Definition best_step (normalized_supplier : pystr)
    (best : option pystr * float) (known : pystr) : option pystr * float :=
  match normalize_supplier_name known with
  | [] => best
  | supplier =>
      let score := entry_score normalized_supplier supplier in
      if PrimFloat.ltb (snd best) score then (Some known, score) else best
  end.

Definition find_most_similar_supplier (normalized_supplier : pystr)
  : option pystr * float :=
  match normalized_supplier with
  | [] => (None, 0%float)
  | _ =>
      let known_suppliers := Dict.values SUPPLIER_MAP in
      match find (fun supplier =>
                    Py.eqb (normalize_supplier_name supplier)
                           normalized_supplier) known_suppliers with
      | Some supplier => (Some supplier, 1%float)
      | None =>
          fold_left (best_step normalized_supplier) known_suppliers
                    (None, 0%float)
      end
  end.

(** [match_supplier_name]; the argument is a string or [None]. *)
Definition match_supplier_name (extracted_supplier : option pystr) : pystr :=
  match extracted_supplier with
  | None => UNIDENTIFIED_SUPPLIER
  | Some extracted =>
      match Py.strip extracted with
      | [] => UNIDENTIFIED_SUPPLIER
      | _ =>
          if Py.mem extracted (Dict.values SUPPLIER_MAP) then extracted
          else
            match normalize_supplier_name extracted with
            | [] => extracted
            | normalized_extracted =>
                let '(best_match, similarity) :=
                  find_most_similar_supplier normalized_extracted in
                if Py.truthy best_match && PrimFloat.ltb 0.3%float similarity
                then Py.str_of_opt best_match
                else extracted
            end
      end
  end.

Definition get_normalized_supplier (supplier_name : option pystr)
  : pystr * option pystr :=
  let normalized_name := match_supplier_name supplier_name in
  let supplier_code :=
    option_map fst
      (find (fun kv => Py.eqb (nome (snd kv)) normalized_name)
            SUPPLIER_DATA) in
  if Py.truthy supplier_code then (normalized_name, supplier_code)
  else (normalized_name, get_supplier_code rt normalized_name).
End Matcher.

End SupplierUtils.

(** ** app/utils/supplier_assignment.py, [determine_best_supplier] *)

Module SupplierAssignment.
Import ReferenceData SupplierUtils.

(** The two entries of [context_info] the core reads; [None] is a missing
    key or the value [None]. *)
Record context_info := { ctx_supplier : option pystr; ctx_brand : option pystr }.

Definition UNIDENTIFIED_BRAND : pystr := u "Marca não identificada".
Definition DEFAULT_MARKUP : float := 2.73%float.

Inductive source := supplier_context | brand_context.

Definition opt_eqb (a b : option pystr) : bool :=
  match a, b with
  | Some x, Some y => Py.eqb x y
  | None, None => true
  | _, _ => false
  end.

Definition candidates (ctx : context_info) : list (source * pystr) :=
  let supplier_from_context := ctx_supplier ctx in
  let brand_from_context := ctx_brand ctx in
  (match supplier_from_context with
   | Some s =>
       if Py.truthy (Some s) && negb (Py.mem s [u ""; UNIDENTIFIED_SUPPLIER])
       then [(supplier_context, s)] else []
   | None => []
   end)
  ++
  (match brand_from_context with
   | Some b =>
       if Py.truthy (Some b) && negb (Py.mem b [u ""; UNIDENTIFIED_BRAND])
          && negb (opt_eqb brand_from_context supplier_from_context)
       then [(brand_context, b)] else []
   | None => []
   end).

(** The state of the evaluation loop: best match, its code, its score. *)
Record best := { best_match : option pystr;
                 best_supplier_code : option pystr;
                 best_score : float }.

Section Determine.
Variable rt : Runtime.

Definition evaluate (b : best) (c : source * pystr) : best :=
  let '(src, candidate) := c in
  let matched_supplier := match_supplier_name rt (Some candidate) in
  let supplier_code := get_supplier_code rt matched_supplier in
  if Py.truthy supplier_code
     && Py.mem matched_supplier (Dict.values SUPPLIER_MAP)
  then
    let score :=
      if Py.eqb matched_supplier candidate then 1.0%float else 0.8%float in
    let score :=
      match src with
      | supplier_context => (score + 0.1)%float
      | brand_context => score
      end in
    if PrimFloat.ltb (best_score b) score
    then {| best_match := Some matched_supplier;
            best_supplier_code := supplier_code;
            best_score := score |}
    else b
  else b.

(** Returns [(supplier_name, supplier_code, markup)]. *)
Definition determine_best_supplier (ctx : context_info)
  : pystr * option pystr * option float :=
  match candidates ctx with
  | [] => (UNIDENTIFIED_SUPPLIER, None, None)
  | (first :: _) as cands =>
      let b := fold_left evaluate cands
                 {| best_match := None; best_supplier_code := None;
                    best_score := 0%float |} in
      let '(final_supplier, supplier_code, markup) :=
        if Py.truthy (best_match b)
        then (Py.str_of_opt (best_match b), best_supplier_code b,
              match best_supplier_code b with
              | Some code =>
                  if Py.truthy (Some code) then get_markup code else None
              | None => None
              end)
        else (snd first, None, None) in
      (final_supplier, supplier_code,
       match markup with
       | Some m => if PrimFloat.eqb m 0%float then Some DEFAULT_MARKUP
                   else Some m
       | None => Some DEFAULT_MARKUP
       end)
  end.
End Determine.

End SupplierAssignment.

(** ** The data model: products, colours, sizes, reference lines

    The dictionaries of the pipeline, as records.  An [option] field is
    [None] when the key is missing or holds [None] (the sources read
    these keys with [dict.get] and a truth test, which does not tell the
    two apart); where the sources do tell them apart the field says so:
    the reference builders read ["color_code"] and ["color_name"] with
    [color.get(k, "")], so these two keys are three-valued. *)

(** A size entry has both keys: the cleaner drops an entry that lacks
    one of them. *)
Record size_info := {
  size : pystr;
  quantity : pynum
}.

(** A key whose value is a string when it is one: the key is missing,
    holds [None], or holds a string. *)
Inductive key :=
| Missing
| Null
| Text (text : pystr).

(** [d.get(k)] *)
Definition key_get (k : key) : option pystr :=
  match k with
  | Text text => Some text
  | Missing | Null => None
  end.

(** [d.get(k, "")]: the default stands in for a missing key only. *)
Definition key_get_default (k : key) : option pystr :=
  match k with
  | Missing => Some (u "")
  | Null => None
  | Text text => Some text
  end.

Record color := {
  color_code_key : key;
  color_name_key : key;
  sizes : list size_info;
  unit_price : option float;
  sales_price : option float;
  subtotal : option float;
  (** [None]: no ["supplier"] key; [Some None]: the key holds [None] *)
  color_supplier : option (option pystr)
}.

(** [color.get("color_code")] and [color.get("color_name")] *)
Definition color_code (c : color) : option pystr := key_get (color_code_key c).
Definition color_name (c : color) : option pystr := key_get (color_name_key c).

(** A reference line.  [ref_description], [ref_barcode] and
    [ref_supplier] are [None] when the dictionary has no such key. *)
Record reference := {
  ref_reference : pystr;
  ref_counter : Z;
  ref_color_code : option pystr;
  ref_color_name : option pystr;
  ref_size : pystr;
  ref_quantity : pynum;
  ref_description : option pystr;
  ref_barcode : option pystr;
  ref_supplier : option pystr
}.

Record product := {
  (** [None]: the ["name"] key holds no string ([re.match] raises) *)
  name : option pystr;
  (** the cleaner sets this key on every product: [None] is the value
      [None] *)
  material_code : option pystr;
  category : option pystr;
  brand : option pystr;
  supplier : option pystr;
  colors : list color;
  total_price : option float;
  references : list reference
}.

(** The loops that number reference lines: colours in order, sizes in
    order, entries with [quantity <= 0] skipped, the counter incremented
    before each emitted line.  [mk] builds the line's dictionary. *)
Fixpoint number_sizes (mk : Z -> size_info -> reference)
    (szs : list size_info) (counter : Z) : list reference * Z :=
  match szs with
  | [] => ([], counter)
  | size_info :: rest =>
      if Num.le0 (quantity size_info) then number_sizes mk rest counter
      else
        let counter := counter + 1 in
        let '(refs, final) := number_sizes mk rest counter in
        (mk counter size_info :: refs, final)
  end.

Fixpoint number_colors (mk : color -> Z -> size_info -> reference)
    (cols : list color) (counter : Z) : list reference * Z :=
  match cols with
  | [] => ([], counter)
  | color :: rest =>
      let '(refs1, counter) := number_sizes (mk color) (sizes color) counter in
      let '(refs2, final) := number_colors mk rest counter in
      (refs1 ++ refs2, final)
  end.

(** [f"{material_code}.{counter}"] *)
Definition reference_string (material_code : option pystr) (counter : Z)
  : pystr :=
  Py.str_of_opt material_code ++ u "." ++ Py.str_of_Z counter.

(** ** app/utils/barcode_generator.py *)

Module BarcodeGenerator.
Import ReferenceData SupplierUtils.

(** The [product_counter] argument: an [int], or a value that is no
    number (such as [None] or a string), given by its [str()] text; for
    the latter [min(product_counter, 899)] raises [TypeError]. *)
Inductive counter_value :=
| CounterInt (n : Z)
| CounterOther (text : pystr).

Definition counter_text (c : counter_value) : pystr :=
  match c with
  | CounterInt n => Py.str_of_Z n
  | CounterOther text => text
  end.

(** The fixed code returned by the [except] branch. *)
Definition dummy_barcode (product_counter : counter_value) : pystr :=
  u "0001100" ++ Py.zfill 3 (counter_text product_counter) ++ u "001001".

Section Generator.
Variable rt : Runtime.

(** The body of the [try] block; [None] is a raised exception. *)
Definition generate_barcode_try (supplier : option pystr)
    (product_counter : counter_value) (color_code : option pystr)
    (size season_code : pystr) : option pystr :=
  let '(_, supplier_code) := get_normalized_supplier rt supplier in
  let supplier_code :=
    if Py.truthy supplier_code then Py.str_of_opt supplier_code
    else u "00" in
  let supplier_code := Py.zfill 2 supplier_code in
  match product_counter with
  | CounterOther _ => None
  | CounterInt n =>
      let counter_code := Py.zfill 3 (Py.str_of_Z (100 + Z.min n 899)) in
      let color_code :=
        if Py.truthy color_code then Py.zfill 3 (Py.str_of_opt color_code)
        else u "001" in
      let size_code :=
        match get_size_code rt size with
        | Some code => if Py.truthy (Some code) then code else u "001"
        | None => u "001"
        end in
      let size_code := Py.zfill 3 size_code in
      Some (season_code ++ supplier_code ++ counter_code ++ color_code
            ++ size_code)
  end.

Definition generate_barcode (supplier : option pystr)
    (product_counter : counter_value) (color_code : option pystr)
    (size season_code : pystr) : pystr :=
  match generate_barcode_try supplier product_counter color_code size
          season_code with
  | Some barcode => barcode
  | None => dummy_barcode product_counter
  end.

(** The reference dictionary built for one size of one colour, with
    [color_code = color.get("color_code", "")],
    [color_name = color.get("color_name", "")] and
    [supplier = color.get("supplier", brand)].  (A missing ["brand"] reads
    as [""] in the source; [match_supplier_name] answers the same for
    [""] and [None].) *)
Definition barcode_reference (material_code brand : option pystr)
    (c : color) (counter : Z) (s : size_info) : reference :=
  let color_code := key_get_default (color_code_key c) in
  let color_name := key_get_default (color_name_key c) in
  let supplier :=
    match color_supplier c with
    | Some supplier => supplier
    | None => brand
    end in
  {| ref_reference := reference_string material_code counter;
     ref_counter := counter;
     ref_color_code := color_code;
     ref_color_name := color_name;
     ref_size := size s;
     ref_quantity := quantity s;
     ref_description := None;
     ref_barcode :=
       Some (generate_barcode supplier (CounterInt counter) color_code
               (size s) (u "00"));
     ref_supplier := None |}.

(** One round of the loop over products: the counter of the product
    restarts at 0 and the product's references are replaced.  (The
    products have the ["material_code"] key, so that the default of
    [product.get("material_code", "")] is not used.) *)
Definition add_barcodes_to_product (p : product) : product :=
  let references_with_barcodes :=
    fst (number_colors (barcode_reference (material_code p) (brand p))
           (colors p) 0) in
  {| name := name p; material_code := material_code p;
     category := category p; brand := brand p; supplier := supplier p;
     colors := colors p; total_price := total_price p;
     references := references_with_barcodes |}.

Definition add_barcodes_to_products (products : list product)
  : list product :=
  map add_barcodes_to_product products.
End Generator.

End BarcodeGenerator.

(** ** Python values

    What [json.loads] returns and what [sanitize_for_json] accepts: the
    JSON-shaped values, tuples, and [VOther] for an object of any other
    type, given by what [str(obj)] returns ([None]: [str] raises).  Such
    an object is not JSON serialisable. *)

Inductive pyval :=
| VNone
| VBool (b : bool)
| VInt (z : Z)
| VFloat (f : float)
| VStr (s : pystr)
| VDict (items : list (pystr * pyval))
| VList (items : list pyval)
| VTuple (items : list pyval)
| VOther (text : option pystr).

(** ** app/utils/json_utils.py *)

Module JsonUtils.

(** The value a [default_number] argument stands for: a float or [None]. *)
Definition number_default (d : option float) : pyval :=
  match d with Some f => VFloat f | None => VNone end.

Fixpoint sanitize_for_json (default_number : option float)
    (default_str : pystr) (max_depth : Z) (obj : pyval)
    (current_depth : Z) {struct obj} : pyval :=
  if max_depth <? current_depth then VNone
  else
    match obj with
    | VNone => VNone
    | VBool _ | VInt _ => obj
    | VFloat f =>
        if Num.non_finite f then number_default default_number else obj
    | VStr s => match s with [] => VStr default_str | _ => obj end
    | VDict items =>
        VDict (map (fun kv =>
                      match kv with
                      | (k, v) =>
                          (k, sanitize_for_json default_number default_str
                                max_depth v (current_depth + 1))
                      end) items)
    | VList items | VTuple items =>
        VList (map (fun item =>
                      sanitize_for_json default_number default_str max_depth
                        item (current_depth + 1)) items)
    | VOther (Some text) => VStr text
    | VOther None => VNone
    end.


(** Every float inside the value is finite. *)
Fixpoint finite_leaves (v : pyval) : bool :=
  match v with
  | VFloat f => Num.is_finite f
  | VDict items => forallb (fun kv => finite_leaves (snd kv)) items
  | VList items | VTuple items => forallb finite_leaves items
  | _ => true
  end.

(** No object of a foreign type whose [str()] is empty occurs in the
    value. *)
Fixpoint no_blank_object (v : pyval) : bool :=
  match v with
  | VOther (Some []) => false
  | VDict items => forallb (fun kv => no_blank_object (snd kv)) items
  | VList items | VTuple items => forallb no_blank_object items
  | _ => true
  end.

(** [x is None or (isinstance(x, float) and math.isnan(x))], the test
    [fix_nan_in_products] applies to a price (a missing key included). *)
Definition missing_or_nan (x : option float) : bool :=
  match x with
  | None => true
  | Some f => PrimFloat.is_nan f
  end.

Section FixNan.
Variable rt : Runtime.
Variable markup : float.

Definition fixed_unit_price (c : color) : float :=
  match unit_price c with
  | Some f => if PrimFloat.is_nan f then 0%float else f
  | None => 0%float
  end.

(** A size survives when its quantity, with NaN replaced by 0, is
    positive. *)
Definition fix_size (s : size_info) : option size_info :=
  let q :=
    match quantity s with
    | PFloat f => if PrimFloat.is_nan f then PInt 0 else PFloat f
    | q => q
    end in
  if Num.gt0 q then Some {| size := size s; quantity := q |} else None.

(** One colour after the fixes (before the test on its sizes); [None]
    is an exception raised by the arithmetic. *)
Definition fix_color (c : color) : option color :=
  let unit := fixed_unit_price c in
  let sales :=
    if missing_or_nan (sales_price c)
    then Some (round_nd rt (unit * markup)%float 2)
    else sales_price c in
  let sub :=
    if missing_or_nan (subtotal c)
    then
      match nsum rt (map quantity (sizes c)) with
      | Some total_quantity =>
          match Num.to_float total_quantity with
          | Some t => Some (Some (round_nd rt (unit * t)%float 2))
          | None => None
          end
      | None => None
      end
    else Some (subtotal c) in
  match sub with
  | None => None
  | Some sub =>
      Some {| color_code_key := color_code_key c;
              color_name_key := color_name_key c;
              sizes := keep_some (map fix_size (sizes c));
              unit_price := Some unit; sales_price := sales;
              subtotal := sub; color_supplier := color_supplier c |}
  end.

Definition fix_product (p : product) : option product :=
  match all_some (map fix_color (colors p)) with
  | None => None
  | Some fixed =>
      let fixed_colors := filter (fun c => non_empty (sizes c)) fixed in
      let total :=
        if missing_or_nan (total_price p)
        then Some (fsum rt (keep_some (map subtotal fixed_colors)))
        else total_price p in
      Some {| name := name p; material_code := material_code p;
              category := category p; brand := brand p;
              supplier := supplier p; colors := fixed_colors;
              total_price := total; references := references p |}
  end.

(** [fix_nan_in_products]; [None] is an exception. *)
Definition fix_nan_in_products (products : list product)
  : option (list product) :=
  option_map (filter (fun p => non_empty (colors p)))
             (all_some (map fix_product products)).
End FixNan.

End JsonUtils.

(** ** app/extractors/extraction_agent.py, the product-cleaning loop of
       [_extract_and_clean_json] *)

Module Cleaner.

(** [float(x)], with the exception it raises. *)
Inductive conversion :=
| Converted (f : float)
| ValueOrTypeError   (** caught by [except (ValueError, TypeError)] *)
| OtherError.        (** [OverflowError]: not caught there *)

Definition has_key (k : pystr) (d : list (pystr * pyval)) : bool :=
  match Dict.get k d with Some _ => true | None => false end.

(** [if field not in d: d[field] = default] *)
Definition set_default (k : pystr) (default : pyval)
    (d : list (pystr * pyval)) : list (pystr * pyval) :=
  if has_key k d then d else Dict.set k default d.

Section Clean.
Variable rt : Runtime.

Definition to_float (v : pyval) : conversion :=
  match v with
  | VFloat f => Converted f
  | VInt z =>
      match Num.float_of_Z z with
      | Some f => Converted f
      | None => OtherError
      end
  | VBool b => Converted (if b then 1%float else 0%float)
  | VStr s =>
      match float_of_str rt s with
      | Some f => Converted f
      | None => ValueOrTypeError
      end
  | _ => ValueOrTypeError
  end.

(** What the loop over [color["sizes"]] does with one entry. *)
Inductive size_outcome :=
| Kept (size : pyval)
| Dropped
| Raised.

Definition clean_size (size : pyval) : size_outcome :=
  match size with
  | VDict d =>
      if negb (has_key (u "size") d) || negb (has_key (u "quantity") d)
      then Dropped
      else
        match Dict.get (u "quantity") d with
        | None => Dropped
        | Some q =>
            match to_float q with
            | Converted quantity =>
                if PrimFloat.leb quantity 0%float then Dropped
                else
                  let coerced :=
                    match Num.integral_value quantity with
                    | Some z => VInt z
                    | None => VFloat quantity
                    end in
                  Kept (VDict (Dict.set (u "quantity") coerced d))
            | ValueOrTypeError => Dropped
            | OtherError => Raised
            end
        end
  | _ => Dropped
  end.

(** The loop over a list of entries: kept entries in order; [None] when
    one of them raises. *)
Fixpoint clean_sizes (sizes : list pyval) : option (list pyval) :=
  match sizes with
  | [] => Some []
  | size :: rest =>
      match clean_size size with
      | Raised => None
      | Dropped => clean_sizes rest
      | Kept size' => option_map (cons size') (clean_sizes rest)
      end
  end.

(** A colour: [Some None] is a dropped colour, [None] an exception. *)
Definition clean_color (color : pyval) : option (option pyval) :=
  match color with
  | VDict d =>
      let d := set_default (u "color_code") VNone d in
      let d := set_default (u "sizes") (VList []) d in
      match Dict.get (u "sizes") d with
      | Some (VList sizes) =>
          match clean_sizes sizes with
          | None => None
          | Some [] => Some None
          | Some clean =>
              Some (Some (VDict (Dict.set (u "sizes") (VList clean) d)))
          end
      | _ => Some None
      end
  | _ => Some None
  end.

Fixpoint clean_colors (colors : list pyval) : option (list pyval) :=
  match colors with
  | [] => Some []
  | color :: rest =>
      match clean_color color with
      | None => None
      | Some None => clean_colors rest
      | Some (Some color') => option_map (cons color') (clean_colors rest)
      end
  end.

(** [if field in color and color[field] is not None: color[field] =
    float(color[field])], with [None] on [ValueError] or [TypeError]. *)
Definition coerce_field (field : pystr) (d : list (pystr * pyval))
  : option (list (pystr * pyval)) :=
  match Dict.get field d with
  | None | Some VNone => Some d
  | Some v =>
      match to_float v with
      | Converted f => Some (Dict.set field (VFloat f) d)
      | ValueOrTypeError => Some (Dict.set field VNone d)
      | OtherError => None
      end
  end.

Definition coerce_prices (color : pyval) : option pyval :=
  match color with
  | VDict d =>
      match coerce_field (u "unit_price") d with
      | None => None
      | Some d =>
          match coerce_field (u "sales_price") d with
          | None => None
          | Some d => option_map VDict (coerce_field (u "subtotal") d)
          end
      end
  | _ => Some color
  end.

Fixpoint coerce_all (colors : list pyval) : option (list pyval) :=
  match colors with
  | [] => Some []
  | color :: rest =>
      match coerce_prices color with
      | None => None
      | Some color' => option_map (cons color') (coerce_all rest)
      end
  end.

(** [color.get("subtotal")] of the colours where it is not [None];
    after [coerce_all] these are floats. *)
Fixpoint subtotals (colors : list pyval) : list float :=
  match colors with
  | [] => []
  | VDict d :: rest =>
      match Dict.get (u "subtotal") d with
      | Some (VFloat f) => f :: subtotals rest
      | _ => subtotals rest
      end
  | _ :: rest => subtotals rest
  end.

Definition clean_total_price (d : list (pystr * pyval))
    (colors : list pyval) : option (list (pystr * pyval)) :=
  match Dict.get (u "total_price") d with
  | None | Some VNone =>
      match subtotals colors with
      | [] => Some (Dict.set (u "total_price") VNone d)
      | l => Some (Dict.set (u "total_price") (VFloat (fsum rt l)) d)
      end
  | Some v =>
      match to_float v with
      | Converted f => Some (Dict.set (u "total_price") (VFloat f) d)
      | ValueOrTypeError => Some (Dict.set (u "total_price") VNone d)
      | OtherError => None
      end
  end.

(** A product: [Some None] is a dropped product, [None] an exception. *)
Definition clean_product (product : pyval) : option (option pyval) :=
  match product with
  | VDict d =>
      let d := set_default (u "name") VNone d in
      let d := set_default (u "material_code") VNone d in
      let d := set_default (u "colors") (VList []) d in
      match Dict.get (u "colors") d with
      | Some (VList colors) =>
          match clean_colors colors with
          | None => None
          | Some [] => Some None
          | Some clean =>
              match coerce_all clean with
              | None => None
              | Some priced =>
                  let d := Dict.set (u "colors") (VList priced) d in
                  option_map (fun d => Some (VDict d))
                             (clean_total_price d priced)
              end
          end
      | _ => Some None
      end
  | _ => Some None
  end.

(** The loop over [result["products"]]: the clean products, or [None]
    when the block raises. *)
Fixpoint clean_products (products : list pyval) : option (list pyval) :=
  match products with
  | [] => Some []
  | product :: rest =>
      match clean_product product with
      | None => None
      | Some None => clean_products rest
      | Some (Some product') =>
          option_map (cons product') (clean_products rest)
      end
  end.
End Clean.

End Cleaner.

(** ** Assignments to one key of a product, colour or reference *)

Definition set_name (v : option pystr) (p : product) : product :=
  {| name := v; material_code := material_code p; category := category p;
     brand := brand p; supplier := supplier p; colors := colors p;
     total_price := total_price p; references := references p |}.

Definition set_category (v : option pystr) (p : product) : product :=
  {| name := name p; material_code := material_code p; category := v;
     brand := brand p; supplier := supplier p; colors := colors p;
     total_price := total_price p; references := references p |}.

Definition set_brand (v : option pystr) (p : product) : product :=
  {| name := name p; material_code := material_code p;
     category := category p; brand := v; supplier := supplier p;
     colors := colors p; total_price := total_price p;
     references := references p |}.

Definition set_supplier (v : option pystr) (p : product) : product :=
  {| name := name p; material_code := material_code p;
     category := category p; brand := brand p; supplier := v;
     colors := colors p; total_price := total_price p;
     references := references p |}.

Definition set_colors (v : list color) (p : product) : product :=
  {| name := name p; material_code := material_code p;
     category := category p; brand := brand p; supplier := supplier p;
     colors := v; total_price := total_price p;
     references := references p |}.

Definition set_total_price (v : option float) (p : product) : product :=
  {| name := name p; material_code := material_code p;
     category := category p; brand := brand p; supplier := supplier p;
     colors := colors p; total_price := v; references := references p |}.

Definition set_references (v : list reference) (p : product) : product :=
  {| name := name p; material_code := material_code p;
     category := category p; brand := brand p; supplier := supplier p;
     colors := colors p; total_price := total_price p; references := v |}.

Definition set_color_supplier (v : option (option pystr)) (c : color) : color :=
  {| color_code_key := color_code_key c; color_name_key := color_name_key c;
     sizes := sizes c; unit_price := unit_price c;
     sales_price := sales_price c; subtotal := subtotal c;
     color_supplier := v |}.

Definition set_sales_price (v : option float) (c : color) : color :=
  {| color_code_key := color_code_key c; color_name_key := color_name_key c;
     sizes := sizes c; unit_price := unit_price c; sales_price := v;
     subtotal := subtotal c; color_supplier := color_supplier c |}.

Definition set_subtotal (v : option float) (c : color) : color :=
  {| color_code_key := color_code_key c; color_name_key := color_name_key c;
     sizes := sizes c; unit_price := unit_price c;
     sales_price := sales_price c; subtotal := v;
     color_supplier := color_supplier c |}.

Definition set_ref_supplier (v : option pystr) (r : reference) : reference :=
  {| ref_reference := ref_reference r; ref_counter := ref_counter r;
     ref_color_code := ref_color_code r; ref_color_name := ref_color_name r;
     ref_size := ref_size r; ref_quantity := ref_quantity r;
     ref_description := ref_description r; ref_barcode := ref_barcode r;
     ref_supplier := v |}.

(** ** app/utils/supplier_assignment.py, [assign_supplier_to_products] *)

Module Assign.

(** Truth value of a price: [None] and zero are false, NaN is true. *)
Definition price_truthy (x : option float) : bool :=
  match x with
  | Some f => negb (PrimFloat.eqb f 0%float)
  | None => false
  end.

Section AssignSupplier.
Variable rt : Runtime.
Variable supplier_name : pystr.
(** [None] is the markup [None]: multiplying by it raises [TypeError]. *)
Variable markup : option float.

(** One colour; [None] is an exception. *)
Definition assign_color (c : color) : option color :=
  let c := set_color_supplier (Some (Some supplier_name)) c in
  let with_sales :=
    if negb (price_truthy (sales_price c)) && price_truthy (unit_price c)
    then
      match unit_price c, markup with
      | Some unit, Some m =>
          Some (set_sales_price (Some (round_nd rt (unit * m)%float 2)) c)
      | _, _ => None
      end
    else Some c in
  match with_sales with
  | None => None
  | Some c =>
      if price_truthy (unit_price c) && non_empty (sizes c)
      then
        match nsum rt (map quantity (sizes c)) with
        | None => None
        | Some total_quantity =>
            if negb (price_truthy (subtotal c)) && Num.gt0 total_quantity
            then
              match unit_price c, Num.to_float total_quantity with
              | Some unit, Some t =>
                  Some (set_subtotal (Some (round_nd rt (unit * t)%float 2)) c)
              | _, _ => None
              end
            else Some c
        end
      else Some c
  end.

Definition assign_product (p : product) : option product :=
  match all_some (map assign_color (colors p)) with
  | None => None
  | Some cols =>
      Some (set_references
              (map (set_ref_supplier (Some supplier_name)) (references p))
              (set_colors cols (set_supplier (Some supplier_name) p)))
  end.

Definition assign_supplier_to_products (products : list product)
  : option (list product) :=
  all_some (map assign_product products).
End AssignSupplier.

End Assign.

(** ** app/extractors/gemini_extractor.py, [_post_process_products] *)

Module PostProcess.
Import ReferenceData SupplierUtils SupplierAssignment.

Definition NAME_PATTERN : pystr := u "^([A-Za-z\s]+)(?:\s+\d+.*)?$".
Definition FALLBACK_CATEGORY : pystr := u "ACESSÓRIOS".

(** The accumulators of the loop over the input products. *)
Record state := {
  processed_products : list product;
  seen_material_codes : list pystr;
  ref_counters : list (pystr * Z)
}.

Definition initial_state : state :=
  {| processed_products := []; seen_material_codes := [];
     ref_counters := [] |}.

Definition opt_mem (x : option pystr) (l : list (option pystr)) : bool :=
  existsb (opt_eqb x) l.

(** The loop over the colours of a later occurrence: a colour is appended
    when its code is true (not [None], not empty) and not yet among the
    existing codes. *)
Fixpoint merge_colors (existing_color_codes : list (option pystr))
    (existing_colors new_colors : list color) : list color :=
  match new_colors with
  | [] => existing_colors
  | color :: rest =>
      if Py.truthy (color_code color)
         && negb (opt_mem (color_code color) existing_color_codes)
      then merge_colors (color_code color :: existing_color_codes)
             (existing_colors ++ [color]) rest
      else merge_colors existing_color_codes existing_colors rest
  end.

(** [has_valid_colors]: some colour has a non-empty list of sizes. *)
Definition has_valid_colors (p : product) : bool :=
  existsb (fun c => non_empty (sizes c)) (colors p).

(** [f"{product['name']}[{color_code}/{size}]"] *)
Definition description (product_name : option pystr)
    (color_code : option pystr) (size : pystr) : pystr :=
  Py.str_of_opt product_name ++ u "[" ++ Py.str_of_opt color_code ++ u "/"
  ++ size ++ u "]".

(** The reference dictionary of the loop, with
    [color_code = color.get("color_code", "")] and
    [color_name = color.get("color_name", "")]. *)
Definition new_reference (material_code : pystr)
    (product_name : option pystr) (c : color) (counter : Z) (s : size_info)
  : reference :=
  let color_code := key_get_default (color_code_key c) in
  let color_name := key_get_default (color_name_key c) in
  {| ref_reference := reference_string (Some material_code) counter;
     ref_counter := counter;
     ref_color_code := color_code;
     ref_color_name := color_name;
     ref_size := size s;
     ref_quantity := quantity s;
     ref_description := Some (description product_name color_code (size s));
     ref_barcode := None;
     ref_supplier := None |}.

(** [processed_products.sort(key=lambda p: p.get("material_code", ""))]:
    a stable sort on the material codes (all of them strings here). *)
Definition sort_key (p : product) : pystr := Py.str_of_opt (material_code p).

Fixpoint insert_sorted (p : product) (l : list product) : list product :=
  match l with
  | [] => [p]
  | q :: l' =>
      if Py.ltb (sort_key q) (sort_key p) then q :: insert_sorted p l'
      else p :: l
  end.

Definition sort_by_material_code (l : list product) : list product :=
  fold_right insert_sorted [] l.

Section Post.
Variable rt : Runtime.

Definition clean_name (product_name : pystr) : pystr :=
  match re_match_group1 rt NAME_PATTERN product_name with
  | Some group1 => Py.strip group1
  | None =>
      let clean := Py.strip (re_sub rt (u "\d+") (u "") false product_name) in
      Py.strip (re_sub rt (u "\s+") (u " ") false clean)
  end.

Definition normalize_category (original_category : option pystr) : pystr :=
  let category_upper :=
    if Py.truthy original_category
    then upper rt (Py.str_of_opt original_category) else u "" in
  if existsb (fun term => Py.contains term category_upper)
       [u "POLO"; u "POLOSHIRT"]
  then u "POLOS"
  else if existsb (fun term => Py.contains term category_upper)
            [u "SWEATER"; u "SWEAT"; u "MALHA"; u "JERSEY"]
  then u "MALHAS"
  else
    match find (fun category => either_contains category category_upper)
               CATEGORIES with
    | Some category =>
        if Py.truthy (Some category) then category else FALLBACK_CATEGORY
    | None => FALLBACK_CATEGORY
    end.

(** Merging a later occurrence into the canonical product. *)
Definition merge_into (existing p : product) : product :=
  let merged :=
    merge_colors (map color_code (colors existing)) (colors existing)
      (colors p) in
  let subtotals := keep_some (map subtotal merged) in
  set_total_price
    (match subtotals with
     | [] => None
     | _ => Some (fsum rt subtotals)
     end)
    (set_colors merged existing).

(** The search for the existing product: the first processed product
    with that material code is merged into, then [break]. *)
Fixpoint merge_first (material : pystr) (p : product)
    (processed : list product) : list product :=
  match processed with
  | [] => []
  | existing :: rest =>
      if opt_eqb (material_code existing) (Some material)
      then merge_into existing p :: rest
      else existing :: merge_first material p rest
  end.

(** One round of the loop over the input products; [None] is an
    exception ([re.match] on a name that is no string). *)
Definition step (st : state) (p : product) : option state :=
  if negb (Py.truthy (material_code p)) then Some st
  else
    match name p with
    | None => None
    | Some product_name =>
        let material := Py.str_of_opt (material_code p) in
        let p := set_name (Some (clean_name product_name)) p in
        if has_valid_colors p then
          let p := set_category (Some (normalize_category (category p))) p in
          if Py.mem material (seen_material_codes st) then
            Some {| processed_products :=
                      merge_first material p (processed_products st);
                    seen_material_codes := seen_material_codes st;
                    ref_counters := ref_counters st |}
          else
            let start :=
              match Dict.get material (ref_counters st) with
              | Some n => n
              | None => 0
              end in
            let '(product_references, final) :=
              number_colors (new_reference material (name p)) (colors p)
                start in
            Some {| processed_products :=
                      processed_products st
                      ++ [set_references product_references p];
                    seen_material_codes := seen_material_codes st ++ [material];
                    ref_counters := Dict.set material final (ref_counters st) |}
        else Some st
    end.

Fixpoint process (st : state) (products : list product) : option state :=
  match products with
  | [] => Some st
  | p :: rest =>
      match step st p with
      | None => None
      | Some st' => process st' rest
      end
  end.

(** Stage 3.5: the original brand is kept, the supplier is forced on
    the product, its colours and its references. *)
Definition finalize_product (original_brand : option pystr)
    (supplier_name : pystr) (p : product) : product :=
  let p :=
    if Py.truthy original_brand
       && negb (Py.mem (Py.str_of_opt original_brand)
                  [u ""; UNIDENTIFIED_BRAND])
    then set_brand original_brand p else p in
  set_references
    (map (set_ref_supplier (Some supplier_name)) (references p))
    (set_colors
       (map (set_color_supplier (Some (Some supplier_name))) (colors p))
       (set_supplier (Some supplier_name) p)).

(** The products before the barcode stage (stages 1 to 4 up to the
    sort), with the supplier name. *)
Definition before_barcodes (products : list product) (ctx : context_info)
  : option (list product * pystr) :=
  let '(supplier_name, _, markup) := determine_best_supplier rt ctx in
  let original_brand := ctx_brand ctx in
  match process initial_state products with
  | None => None
  | Some st =>
      match Assign.assign_supplier_to_products rt supplier_name markup
              (processed_products st) with
      | None => None
      | Some assigned =>
          Some (sort_by_material_code
                  (map (finalize_product original_brand supplier_name)
                       assigned),
                supplier_name)
      end
  end.

(** Returns [(processed_products, supplier_name)]; [None] is an
    exception. *)
Definition _post_process_products (products : list product)
    (ctx : context_info) : option (list product * pystr) :=
  match before_barcodes products ctx with
  | None => None
  | Some (sorted, supplier_name) =>
      Some (BarcodeGenerator.add_barcodes_to_products rt sorted,
            supplier_name)
  end.
End Post.

End PostProcess.

(** ** app/extractors/gemini_extractor.py, [extract_document], stage 4:
       post-processing, then [fix_nan_in_products] *)

Module Extractor.
Import ReferenceData SupplierAssignment.

Section Stage4.
Variable rt : Runtime.

(** The markup handed to [fix_nan_in_products]: that of the context's
    supplier when the catalogue has one, 2.73 otherwise. *)
Definition document_markup (ctx : context_info) : float :=
  let supplier := ctx_supplier ctx in
  let supplier_code :=
    if Py.truthy supplier then get_supplier_code rt (Py.str_of_opt supplier)
    else None in
  if Py.truthy supplier_code
  then
    match get_markup (Py.str_of_opt supplier_code) with
    | Some markup_value =>
        if PrimFloat.eqb markup_value 0%float then DEFAULT_MARKUP
        else markup_value
    | None => DEFAULT_MARKUP
    end
  else DEFAULT_MARKUP.

(** The products stored in [combined_result["products"]] and the
    supplier stored in its [order_info]; [None] is an exception. *)
Definition processed_result (products : list product) (ctx : context_info)
  : option (list product * pystr) :=
  match PostProcess._post_process_products rt products ctx with
  | None => None
  | Some (processed_products, determined_supplier) =>
      option_map (fun fixed => (fixed, determined_supplier))
        (JsonUtils.fix_nan_in_products rt (document_markup ctx)
           processed_products)
  end.
End Stage4.

End Extractor.

(** ** A sample runtime

    Executable stand-ins for the runtime, used to evaluate the pipeline
    on concrete inputs.  Each agrees with CPython on the domain named in
    its comment; no theorem about the sources depends on them. *)

Module Sample.

(** [str.upper()]: exact for code points below U+0100; others are left
    as they are. *)
Definition upper_char (c : N) : list N :=
  (if (97 <=? c) && (c <=? 122) then [c - 32]
   else if c =? 181 then [924]
   else if c =? 223 then [83; 83]
   else if (224 <=? c) && (c <=? 254) && negb (c =? 247) then [c - 32]
   else if c =? 255 then [376]
   else [c])%N.

Definition upper (s : pystr) : pystr := flat_map upper_char s.

Definition is_letter (c : N) : bool :=
  ((65 <=? c) && (c <=? 90) || (97 <=? c) && (c <=? 122))%N.

(** [\w]: exact for code points below U+0100; the others count as word
    characters unless they are white space. *)
Definition is_word (c : N) : bool :=
  (is_letter c || Py.is_ascii_digit c || (c =? 95) || (c =? 170)
   || (c =? 178) || (c =? 179) || (c =? 181) || (c =? 185) || (c =? 186)
   || (188 <=? c) && (c <=? 190)
   || (192 <=? c) && (c <=? 255) && negb (c =? 215) && negb (c =? 247)
   || (256 <=? c) && negb (Py.isspace c))%N.

Fixpoint take_while (f : N -> bool) (s : pystr) : pystr :=
  match s with
  | c :: s' => if f c then c :: take_while f s' else []
  | [] => []
  end.

Fixpoint drop_while (f : N -> bool) (s : pystr) : pystr :=
  match s with
  | c :: s' => if f c then drop_while f s' else s
  | [] => []
  end.

(** [re.match(NAME_PATTERN, s).group(1)], with ASCII digits for [\d]. *)
Definition match_name (s : pystr) : option pystr :=
  let p := take_while (fun c => is_letter c || Py.isspace c) s in
  let r := drop_while (fun c => is_letter c || Py.isspace c) s in
  match p, r with
  | [], _ => None
  | _, [] => Some p
  | _, d :: _ =>
      let one_line :=
        negb (existsb (N.eqb 10) (removelast r)) in
      match rev p with
      | w :: (_ :: _) as front =>
          if Py.isspace w && Py.is_ascii_digit d && one_line
          then Some (rev front) else None
      | _ => None
      end
  end.

(** Replacing every maximal run of characters satisfying [f] by [repl]. *)
Fixpoint sub_runs (f : N -> bool) (repl : pystr) (s : pystr) (in_run : bool)
  : pystr :=
  match s with
  | [] => []
  | c :: s' =>
      if f c then (if in_run then [] else repl) ++ sub_runs f repl s' true
      else c :: sub_runs f repl s' false
  end.

(** The suffix patterns [\bLIT\.?\b]: the literal with [\.] unescaped. *)
Fixpoint unescape (p : pystr) : pystr :=
  match p with
  | 92%N :: c :: p' => c :: unescape p'
  | c :: p' => c :: unescape p'
  | [] => []
  end.

Definition suffix_literal (pattern : pystr) : option pystr :=
  if Py.startswith (u "\b") pattern
     && Py.startswith (rev (u "\.?\b")) (rev pattern)
  then Some (unescape (firstn (List.length pattern - 7) (skipn 2 pattern)))
  else None.

Definition word_at (s : pystr) : bool :=
  match s with c :: _ => is_word c | [] => false end.

(** Length of the match of [\bLIT\.?\b] at the head of [s], the previous
    character being a word character or not. *)
Definition suffix_match (lit : pystr) (prev_word : bool) (s : pystr)
  : option nat :=
  if xorb prev_word (word_at s)
     && Py.eqb (upper lit) (upper (firstn (List.length lit) s))
  then
    let rest := skipn (List.length lit) s in
    let last_word := word_at (rev lit) in
    match rest with
    | 46%N :: rest' =>
        if word_at rest' then Some (S (List.length lit))
        else if last_word then Some (List.length lit) else None
    | _ => if xorb last_word (word_at rest) then Some (List.length lit) else None
    end
  else None.

Fixpoint sub_suffix (fuel : nat) (lit : pystr) (prev_word : bool) (s : pystr)
  : pystr :=
  match fuel, s with
  | S fuel', c :: s' =>
      match suffix_match lit prev_word s with
      | Some n =>
          sub_suffix fuel' lit (word_at (rev (firstn n s))) (skipn n s)
      | None => c :: sub_suffix fuel' lit (is_word c) s'
      end
  | _, _ => s
  end.

(** [re.sub] for the patterns of the sources; any other pattern leaves
    the string as it is. *)
Definition re_sub (pattern repl : pystr) (ignorecase : bool) (s : pystr)
  : pystr :=
  if Py.eqb pattern (u "\d+") then sub_runs Py.is_ascii_digit repl s false
  else if Py.eqb pattern (u "\s+") then sub_runs Py.isspace repl s false
  else if Py.eqb pattern (u "[^\w\s]")
  then flat_map (fun c => if is_word c || Py.isspace c then [c] else repl) s
  else
    match suffix_literal pattern with
    | Some lit =>
        match repl with
        | [] => sub_suffix (S (List.length s)) lit false s
        | _ => s
        end
    | None => s
    end.

Definition re_match_group1 (pattern s : pystr) : option pystr :=
  if Py.eqb pattern (u "^([A-Za-z\s]+)(?:\s+\d+.*)?$") then match_name s
  else None.

(** [SequenceMatcher(None, a, b).ratio()] for [b] shorter than 200
    characters (no automatic junk). *)
Fixpoint common_prefix (a b : pystr) : nat :=
  match a, b with
  | x :: a', y :: b' => if (x =? y)%N then S (common_prefix a' b') else O
  | _, _ => O
  end.

(** The longest block starting at the head of [a]: [(j, k)], first [j]. *)
Fixpoint longest_in_b (a b : pystr) (j : nat) (best : nat * nat) : nat * nat :=
  match b with
  | [] => best
  | _ :: b' =>
      let k := common_prefix a b in
      longest_in_b a b' (S j) (if (snd best <? k)%nat then (j, k) else best)
  end.

Fixpoint longest_match (a b : pystr) (i : nat) (best : nat * nat * nat)
  : nat * nat * nat :=
  match a with
  | [] => best
  | _ :: a' =>
      let '(j, k) := longest_in_b a b 0%nat (0%nat, 0%nat) in
      longest_match a' b (S i)
        (if (snd best <? k)%nat then (i, j, k) else best)
  end.

Fixpoint matches (fuel : nat) (a b : pystr) : nat :=
  match fuel with
  | O => O
  | S fuel' =>
      let '(i, j, k) := longest_match a b 0%nat (0%nat, 0%nat, 0%nat) in
      match k with
      | O => O
      | _ =>
          (k + matches fuel' (firstn i a) (firstn j b)
           + matches fuel' (skipn (i + k) a) (skipn (j + k) b))%nat
      end
  end.

Definition seq_ratio (a b : pystr) : float :=
  let length := (List.length a + List.length b)%nat in
  match length with
  | O => 1%float
  | _ =>
      (2 * SupplierUtils.float_of_nat (matches (S length) a b)
       / SupplierUtils.float_of_nat length)%float
  end.

(** [round(x, ndigits)] for [ndigits >= 0]: the decimal nearest to the
    exact value (ties to even), then the float nearest to it. *)
Definition round_half_even (num den : Z) : Z :=
  let q := num / den in
  let r := num mod den in
  if 2 * r <? den then q
  else if den <? 2 * r then q + 1
  else if Z.even q then q else q + 1.

Definition round_nd (x : float) (ndigits : Z) : float :=
  match Prim2SF x with
  | S754_finite s m e =>
      let p := 10 ^ ndigits in
      let n :=
        if 0 <=? e then Z.pos m * 2 ^ e * p
        else round_half_even (Z.pos m * p) (2 ^ (- e)) in
      match n, p with
      | Z.pos n', Z.pos p' =>
          SF2Prim (SFdiv prec emax (S754_finite s n' 0) (S754_finite false p' 0))
      | _, _ => SF2Prim (S754_zero s)
      end
  | _ => x
  end.

(** [sum] adds from the left, starting from the int [0]. *)
Definition fsum (l : list float) : float :=
  fold_left (fun acc x => (acc + x)%float) l 0%float.

Definition num_add (a b : pynum) : option pynum :=
  match a, b with
  | PInt x, PInt y => Some (PInt (x + y))
  | _, _ =>
      match Num.to_float a, Num.to_float b with
      | Some x, Some y => Some (PFloat (x + y)%float)
      | _, _ => None
      end
  end.

Definition nsum (l : list pynum) : option pynum :=
  fold_left (fun acc x => match acc with
                          | Some a => num_add a x
                          | None => None
                          end) l (Some (PInt 0)).

(** [float(s)] for the texts ["nan"], ["inf"], ["-inf"] and for plain
    unsigned decimal integers; other texts count as malformed. *)
Definition float_of_str (s : pystr) : option float :=
  if Py.eqb s (u "nan") then Some nan
  else if Py.eqb s (u "inf") then Some infinity
  else if Py.eqb s (u "-inf") then Some neg_infinity
  else
    match s with
    | [] => None
    | _ =>
        if Py.all_digits s
        then Num.float_of_Z
               (fold_left (fun acc c => acc * 10 + (Z.of_N c - 48)) s 0)
        else None
    end.

Definition runtime : Runtime :=
  Build_Runtime upper re_sub re_match_group1 seq_ratio round_nd fsum nsum
    float_of_str.

End Sample.

(** ** Vocabulary of the specification *)

(** [digits n s]: the string has exactly [n] characters, all in 0-9. *)
Definition digits (n : nat) (s : pystr) : Prop :=
  List.length s = n /\ Py.all_digits s = true.

(** A catalogue lookup in two stages: [exact] is the result of the exact
    stage; the fallback stage scans [table] in order and takes the value
    of the first entry whose key passes [test]; nothing found is [None]. *)
Inductive two_stage_lookup (A : Type) (exact : option A)
    (test : pystr -> bool) (table : list (pystr * A)) : option A -> Prop :=
| found_exact v :
    exact = Some v -> two_stage_lookup exact test table (Some v)
| found_first before k v after :
    exact = None ->
    table = before ++ (k, v) :: after ->
    test k = true ->
    Forall (fun e => test (fst e) = false) before ->
    two_stage_lookup exact test table (Some v)
| found_nothing :
    exact = None ->
    Forall (fun e => test (fst e) = false) table ->
    two_stage_lookup exact test table None.

(** *** Barcodes *)

Module BarcodeSpec.
Import ReferenceData SupplierUtils BarcodeGenerator.

Definition three_digit_number (k : nat) : bool :=
  let s := Py.str_of_Z (100 + Z.of_nat k) in
  (List.length s =? 3)%nat && Py.all_digits s.

Definition code_shape (n : nat) (s : pystr) : bool :=
  (List.length s =? n)%nat && Py.all_digits s.

(** The colour segment: the default for [None] or [""], the padded code
    otherwise. *)
Definition color_segment (color_code : option pystr) : pystr :=
  if Py.truthy color_code then Py.zfill 3 (Py.str_of_opt color_code)
  else u "001".

Definition supplier_segment (rt : Runtime) (supplier : option pystr) : pystr :=
  match snd (get_normalized_supplier rt supplier) with
  | Some code => code
  | None => u "00"
  end.

Definition size_segment (rt : Runtime) (size : pystr) : pystr :=
  match get_size_code rt size with
  | Some code => code
  | None => u "001"
  end.

End BarcodeSpec.

(** *** The supplier search *)

Module SupplierSpec.
Import ReferenceData SupplierUtils.

(** The names of the catalogue, in catalogue order. *)
Definition catalogue_names : list pystr := Dict.values SUPPLIER_MAP.

(** [best_of sc eligible l r]: [r] is the outcome of the search for the
    best entry of [l] under the score [sc], among the eligible entries:
    - nothing, with score 0, when no entry scores above 0;
    - otherwise the entry [e] with its score, where every earlier entry
      scores strictly less (or is not comparable) and no later entry
      scores strictly more: the first entry with the highest score. *)
Inductive best_of (sc : pystr -> float) (eligible : pystr -> bool)
    (l : list pystr) : option pystr * float -> Prop :=
| best_nothing :
    (forall e, In e l -> eligible e = true ->
               PrimFloat.ltb 0 (sc e) = false) ->
    best_of sc eligible l (None, 0%float)
| best_entry before e after :
    l = before ++ e :: after ->
    eligible e = true ->
    PrimFloat.ltb 0 (sc e) = true ->
    (forall e', In e' before -> eligible e' = true ->
                PrimFloat.leb (sc e) (sc e') = false) ->
    (forall e', In e' after -> eligible e' = true ->
                PrimFloat.ltb (sc e) (sc e') = false) ->
    best_of sc eligible l (Some e, sc e).

(** A token of at least four characters of [n] is a token of [k]. *)
Definition shares_long_token (n k : pystr) : bool :=
  existsb (fun token => (4 <=? Py.len token) && Py.mem token (Py.split k))
          (Py.split n).

Definition score_of (rt : Runtime) (n e : pystr) : float :=
  entry_score rt n (normalize_supplier_name rt e).

Definition eligible (rt : Runtime) (e : pystr) : bool :=
  non_empty (normalize_supplier_name rt e).

End SupplierSpec.

(** *** The post-processor *)

Module PostProcessSpec.
Import ReferenceData SupplierUtils SupplierAssignment BarcodeGenerator.
Import Assign PostProcess.

(** The shape of an output product: it comes from one product [e] of the
    loop's result, through the supplier assignment [a], stage 3.5 and the
    barcode stage. *)
Definition final_form (rt : Runtime) (brand : option pystr) (s : pystr)
    (a : product) : product :=
  add_barcodes_to_product rt (finalize_product brand s a).

Definition has_material_code (p : product) : Prop :=
  Py.truthy (material_code p) = true.

(** What a reference line says about its colour and size. *)
Definition line (r : reference)
  : option pystr * option pystr * pystr * pynum :=
  (ref_color_code r, ref_color_name r, ref_size r, ref_quantity r).

(** The lines expected from a list of colours: colours in order, sizes in
    order, the entries with [quantity <= 0] left out; a line carries the
    colour's code and name, the empty string for a key the colour does
    not have. *)
Definition expected_lines (cols : list color)
  : list (option pystr * option pystr * pystr * pynum) :=
  flat_map
    (fun c =>
       map (fun s => (key_get_default (color_code_key c),
                      key_get_default (color_name_key c),
                      size s, quantity s))
           (filter (fun s => negb (Num.le0 (quantity s))) (sizes c)))
    cols.

(** The reference lines of each product of a result: counter,
    reference text and colour code. *)
Definition reference_lines (r : list product * pystr)
  : list (list (Z * pystr * option pystr)) :=
  map (fun q =>
         map (fun r => (ref_counter r, ref_reference r, ref_color_code r))
             (references q))
      (fst r).

Definition supplier_fields (r : list product * pystr)
  : list (option pystr * list (option (option pystr)) * list (option pystr)) :=
  map (fun q => (supplier q, map color_supplier (colors q),
                 map ref_supplier (references q)))
      (fst r).



(** A product the loop does not skip: it has a material code and a
    colour with sizes. *)
Definition contributes (p : product) : bool :=
  Py.truthy (material_code p) && has_valid_colors p.










Definition prices (r : list product * pystr)
  : list (option float * list (option float * option float * option float)) :=
  map (fun p =>
         (total_price p,
          map (fun c => (unit_price c, sales_price c, subtotal c)) (colors p)))
      (fst r).

End PostProcessSpec.

(** ** Sample inputs *)

Module Examples.
Import SupplierAssignment.

Definition gant_context : context_info :=
  {| ctx_supplier := Some (u "GANT"); ctx_brand := None |}.

Definition sample_value : pyval :=
  VDict [ (u "price", VFloat nan);
          (u "name", VStr []);
          (u "tags", VTuple [VStr (u "a"); VOther (Some (u "err")); VNone]) ].

(** One product, one colour, one size; the oracle reported the unit
    price [Infinity]. *)
Definition infinite_price_product : product :=
  {| name := Some (u "Polo"); material_code := Some (u "M1");
     category := None; brand := None; supplier := None;
     colors :=
       [ {| color_code_key := Text (u "008"); color_name_key := Missing;
            sizes := [ {| size := u "M"; quantity := PInt 1 |} ];
            unit_price := Some infinity; sales_price := None;
            subtotal := None; color_supplier := None |} ];
     total_price := None; references := [] |}.

(** A page whose only size entry has the quantity [NaN]. *)
Definition nan_quantity_page : list pyval :=
  [ VDict [ (u "name", VStr (u "Polo"));
            (u "material_code", VStr (u "M1"));
            (u "colors",
             VList [ VDict [ (u "color_code", VStr (u "008"));
                             (u "sizes",
                              VList [ VDict [ (u "size", VStr (u "M"));
                                              (u "quantity", VFloat nan) ] ])
                           ] ]) ] ].

(** A product with no material code, no readable name, and one colour
    with a positive quantity. *)
Definition nameless_product : product :=
  {| name := None; material_code := Some []; category := None;
     brand := None; supplier := None;
     colors :=
       [ {| color_code_key := Text (u "010"); color_name_key := Missing;
            sizes := [ {| size := u "L"; quantity := PInt 3 |} ];
            unit_price := None; sales_price := None; subtotal := None;
            color_supplier := None |} ];
     total_price := None; references := [] |}.

Definition polo_product : product :=
  {| name := Some (u "Polo 123"); material_code := Some (u "M1");
     category := Some (u "Polo shirts"); brand := None; supplier := None;
     colors :=
       [ {| color_code_key := Text (u "008");
            color_name_key := Text (u "Azul");
            sizes := [ {| size := u "M"; quantity := PInt 2 |};
                       {| size := u "L"; quantity := PInt 0 |};
                       {| size := u "XL"; quantity := PInt 1 |} ];
            unit_price := Some 50%float; sales_price := None;
            subtotal := None; color_supplier := None |} ];
     total_price := None; references := [] |}.

(** The same material code on a second page, with the colours 009 and
    008. *)
Definition polo_second_page : product :=
  {| name := Some (u "Polo"); material_code := Some (u "M1");
     category := None; brand := None; supplier := None;
     colors :=
       [ {| color_code_key := Text (u "009"); color_name_key := Missing;
            sizes := [ {| size := u "S"; quantity := PInt 4 |} ];
            unit_price := None; sales_price := None; subtotal := None;
            color_supplier := None |};
         {| color_code_key := Text (u "008"); color_name_key := Missing;
            sizes := [ {| size := u "M"; quantity := PInt 2 |} ];
            unit_price := None; sales_price := None; subtotal := None;
            color_supplier := None |} ];
     total_price := None; references := [] |}.



End Examples.

(** *** The post-processor's output as a whole *)

Module PipelineSpec.
Import ReferenceData SupplierUtils SupplierAssignment PostProcess.

(** The product has a category, and it is one of the catalogue list. *)
Definition has_catalogue_category (p : product) : Prop :=
  exists c, category p = Some c /\ In c CATEGORIES.

(** [p] does not come after [q] in the order of the final sort: the
    key of [q] is not below the key of [p]. *)
Definition key_le (p q : product) : Prop :=
  Py.ltb (sort_key q) (sort_key p) = false.

(** A colour for which [assign_supplier_to_products] computes a sales
    price: it has a unit price that is true and no sales price that is. *)
Definition needs_sales_price (c : color) : bool :=
  negb (Assign.price_truthy (sales_price c))
  && Assign.price_truthy (unit_price c).

(** The context of a document that is not a PDF, as [extract_document]
    builds it: an empty supplier and an empty brand. *)
Definition image_context : context_info :=
  {| ctx_supplier := Some []; ctx_brand := Some [] |}.

(** A product whose material code sorts before ["M1"]. *)
Definition shirt_product : product :=
  {| name := Some (u "Camisa 77"); material_code := Some (u "A7");
     category := Some (u "Shirt"); brand := None; supplier := None;
     colors :=
       [ {| color_code_key := Text (u "001");
            color_name_key := Text (u "Branco");
            sizes := [ {| size := u "40"; quantity := PInt 5 |} ];
            unit_price := Some 20%float; sales_price := Some 49%float;
            subtotal := None; color_supplier := None |} ];
     total_price := None; references := [] |}.

End PipelineSpec.

(** *** Reading a barcode back *)

Module BarcodeReading.

(** [int(s)] for a string of decimal digits. *)
Definition decimal_value (s : pystr) : Z :=
  fold_left (fun acc c => 10 * acc + (Z.of_N c - 48)) s 0.

(** [barcode[4:7]], the segment of the counter. *)
Definition counter_segment (barcode : pystr) : pystr :=
  firstn 3 (skipn 4 barcode).

Definition reads_back (k : nat) : bool :=
  decimal_value (Py.str_of_Z (100 + Z.of_nat k)) =? 100 + Z.of_nat k.

End BarcodeReading.

(** *** What the page cleaner leaves *)

Module CleanerSpec.
Import Cleaner.

(** A quantity as the cleaner stores it: a positive [int], or a float
    that is no whole number and for which [q <= 0] is false. *)
Definition kept_quantity (v : pyval) : bool :=
  match v with
  | VInt z => 0 <? z
  | VFloat f =>
      negb (PrimFloat.leb f 0)
      && match Num.integral_value f with Some _ => false | None => true end
  | _ => false
  end.

Definition kept_size (v : pyval) : bool :=
  match v with
  | VDict d =>
      has_key (u "size") d
      && match Dict.get (u "quantity") d with
         | Some q => kept_quantity q
         | None => false
         end
  | _ => false
  end.

(** A colour with the key ["color_code"] and a list of sizes that is not
    empty, all of them kept sizes. *)
Definition kept_color (v : pyval) : bool :=
  match v with
  | VDict d =>
      has_key (u "color_code") d
      && match Dict.get (u "sizes") d with
         | Some (VList (s :: rest)) => forallb kept_size (s :: rest)
         | _ => false
         end
  | _ => false
  end.

(** A product with the keys ["name"] and ["material_code"] and a list of
    colours that is not empty, all of them kept colours. *)
Definition kept_product (v : pyval) : bool :=
  match v with
  | VDict d =>
      has_key (u "name") d && has_key (u "material_code") d
      && match Dict.get (u "colors") d with
         | Some (VList (c :: rest)) => forallb kept_color (c :: rest)
         | _ => false
         end
  | _ => false
  end.

(** The key is missing or holds [None] or a float. *)
Definition float_or_none (k : pystr) (d : list (pystr * pyval)) : bool :=
  match Dict.get k d with
  | None | Some VNone | Some (VFloat _) => true
  | Some _ => false
  end.

Definition priced_color (v : pyval) : bool :=
  match v with
  | VDict d =>
      float_or_none (u "unit_price") d && float_or_none (u "sales_price") d
      && float_or_none (u "subtotal") d
  | _ => false
  end.

(** The prices of every colour are floats or [None], and so is the
    total price, which is present. *)
Definition priced_product (v : pyval) : bool :=
  match v with
  | VDict d =>
      has_key (u "total_price") d && float_or_none (u "total_price") d
      && match Dict.get (u "colors") d with
         | Some (VList colors) => forallb priced_color colors
         | _ => false
         end
  | _ => false
  end.

(** A page with three products: one whose only size has the quantity 0,
    one with a textual quantity and textual prices, one that is no
    object. *)
Definition sample_page : list pyval :=
  [ VDict [ (u "name", VStr (u "Polo"));
            (u "material_code", VStr (u "M1"));
            (u "colors",
             VList [ VDict [ (u "color_code", VStr (u "008"));
                             (u "sizes",
                              VList [ VDict [ (u "size", VStr (u "M"));
                                              (u "quantity", VInt 0) ] ])
                           ] ]) ];
    VDict [ (u "material_code", VStr (u "M2"));
            (u "colors",
             VList [ VDict [ (u "unit_price", VStr (u "12"));
                             (u "sales_price", VStr (u "n/a"));
                             (u "sizes",
                              VList [ VDict [ (u "size", VStr (u "L"));
                                              (u "quantity", VStr (u "3")) ];
                                      VDict [ (u "size", VStr (u "XL")) ] ])
                           ];
                     VStr (u "red") ]) ];
    VStr (u "total") ].

End CleanerSpec.

(** ** app/data/reference_data.py and app/utils/supplier_utils.py, the
       other accessors *)

Module Accessors.
Import ReferenceData SupplierUtils.

(** [get_supplier_by_code]; the argument is the text [str(code)]. *)
Definition get_supplier_by_code (code : pystr) : option pystr :=
  let code_str :=
    if (Py.len code =? 1) then Py.zfill 2 code else code in
  Dict.get code_str SUPPLIER_MAP.

(** The dictionary [get_supplier_info] returns. *)
Record supplier_info := {
  info_code : pystr;
  info_name : pystr;
  info_markup : option float
}.

Section More.
Variable rt : Runtime.

Definition normalize_color_name (color_name : pystr) : pystr :=
  match get_color_code rt color_name with
  | Some color_code =>
      if Py.truthy (Some color_code) then get_color_name color_code
      else color_name
  | None => color_name
  end.

Definition normalize_size (size : pystr) : pystr :=
  let size_upper := Py.strip (upper rt size) in
  match Dict.get size_upper SIZE_MAP with
  | Some _ => size_upper
  | None =>
      if Py.eqb size_upper (u "EXTRA SMALL") then u "XS"
      else if Py.eqb size_upper (u "SMALL") then u "S"
      else if Py.eqb size_upper (u "MEDIUM") then u "M"
      else if Py.eqb size_upper (u "LARGE") then u "L"
      else if Py.eqb size_upper (u "EXTRA LARGE") then u "XL"
      else if Py.mem size_upper
                [u "2XL"; u "XX LARGE"; u "EXTRA EXTRA LARGE"] then u "XXL"
      else if Py.mem size_upper [u "3XL"; u "XXX LARGE"] then u "XXXL"
      else size
  end.

(** [get_supplier_info]; [None] is the empty dictionary [{}] the
    function returns when no supplier is found. *)
Definition get_supplier_info (supplier_name_or_code : pystr)
  : option supplier_info :=
  match Dict.get supplier_name_or_code SUPPLIER_DATA with
  | Some data =>
      Some {| info_code := supplier_name_or_code;
              info_name := nome data;
              info_markup := marcacao data |}
  | None =>
      let normalized_name :=
        match_supplier_name rt (Some supplier_name_or_code) in
      option_map
        (fun kv => {| info_code := fst kv;
                      info_name := nome (snd kv);
                      info_markup := marcacao (snd kv) |})
        (find (fun kv => Py.eqb (nome (snd kv)) normalized_name)
              SUPPLIER_DATA)
  end.
End More.

(** The text has two characters. *)
Definition two_characters (s : pystr) : bool := Py.len s =? 2.

(** The strings of the list are pairwise different. *)
Fixpoint distinct (l : list pystr) : bool :=
  match l with
  | [] => true
  | x :: l' => negb (Py.mem x l') && distinct l'
  end.

End Accessors.

(** *** Supplier matching and assignment as a whole *)

Module SupplierSpec2.
Import ReferenceData SupplierUtils SupplierAssignment.

(** The text is not blank: [s.strip()] is not empty. *)
Definition not_blank (s : pystr) : bool := non_empty (Py.strip s).

(** What [assign_supplier_to_products] may change in a colour: the
    supplier is set; a sales price or a subtotal is filled in only where
    the colour has a unit price that is true and no value that is true
    yet; everything else stays. *)
Definition color_filled (s : pystr) (c c' : color) : Prop :=
  color_code c' = color_code c /\ color_name c' = color_name c
  /\ sizes c' = sizes c /\ unit_price c' = unit_price c
  /\ color_supplier c' = Some (Some s)
  /\ (Assign.price_truthy (sales_price c) = true
      \/ Assign.price_truthy (unit_price c) = false ->
      sales_price c' = sales_price c)
  /\ (Assign.price_truthy (subtotal c) = true
      \/ Assign.price_truthy (unit_price c) = false ->
      subtotal c' = subtotal c).

Definition product_filled (s : pystr) (p p' : product) : Prop :=
  name p' = name p /\ material_code p' = material_code p
  /\ category p' = category p /\ brand p' = brand p
  /\ total_price p' = total_price p
  /\ supplier p' = Some s
  /\ Forall2 (color_filled s) (colors p) (colors p')
  /\ references p' = map (set_ref_supplier (Some s)) (references p).

End SupplierSpec2.

(** ** app/utils/recovery_system.py, [ProcessingRecovery.sanitize_json_data] *)

Module Recovery.

(** Dictionaries and lists are rebuilt, a float that is NaN or infinite
    becomes [None], every other value (a tuple included) is returned as
    it is.  Python's recursion limit is not modelled. *)
Fixpoint sanitize_json_data (data : pyval) : pyval :=
  match data with
  | VNone => VNone
  | VDict items =>
      VDict (map (fun kv => match kv with
                            | (k, v) => (k, sanitize_json_data v)
                            end) items)
  | VList items => VList (map sanitize_json_data items)
  | VFloat f => if Num.non_finite f then VNone else data
  | _ => data
  end.

End Recovery.

(** *** Shapes of values *)

Module JsonSpec.
Import JsonUtils.

(** The value is made of [None], booleans, numbers, strings, dicts and
    lists only. *)
Fixpoint json_shaped (v : pyval) : bool :=
  match v with
  | VDict items => forallb (fun kv => json_shaped (snd kv)) items
  | VList items => forallb json_shaped items
  | VTuple _ | VOther _ => false
  | _ => true
  end.

(** How deep containers are nested: 0 for a value that is no
    container, 1 for a container of such values, and so on. *)
Fixpoint nesting (v : pyval) : Z :=
  match v with
  | VDict items =>
      1 + fold_right (fun kv m => Z.max (nesting (snd kv)) m) 0 items
  | VList items | VTuple items =>
      1 + fold_right (fun x m => Z.max (nesting x) m) 0 items
  | _ => 0
  end.

(** A colour as [fix_nan_in_products] leaves it. *)
Definition fixed_color (c : color) : Prop :=
  sizes c <> []
  /\ Forall (fun s => Num.gt0 (quantity s) = true) (sizes c)
  /\ (exists unit, unit_price c = Some unit /\ PrimFloat.is_nan unit = false)
  /\ sales_price c <> None
  /\ subtotal c <> None.

Definition fixed_product (p : product) : Prop :=
  colors p <> [] /\ Forall fixed_color (colors p) /\ total_price p <> None.



(** A parsed JSON object with a NaN. *)
Definition sample_flat : pyval :=
  VDict [ (u "price", VFloat nan);
          (u "name", VStr []);
          (u "tags", VList [VStr (u "a"); VNone]) ].

(** A value three containers deep, with a tuple and a NaN. *)
Definition nested_value : pyval :=
  VDict [ (u "a", VList [ VTuple [ VFloat nan; VStr (u "x") ];
                          VDict [ (u "b", VList [ VInt 1 ]) ] ]);
          (u "c", VFloat infinity) ].

(** A colour with a NaN unit price and a size with a NaN quantity. *)
Definition nan_color : color :=
  {| color_code_key := Text (u "008"); color_name_key := Missing;
     sizes := [ {| size := u "M"; quantity := PFloat nan |};
                {| size := u "L"; quantity := PInt 2 |} ];
     unit_price := Some nan; sales_price := None;
     subtotal := Some 10%float; color_supplier := None |}.

(** A product with that colour and a colour whose only size has the
    quantity 0. *)
Definition nan_product : product :=
  {| name := Some (u "Polo"); material_code := Some (u "M1");
     category := None; brand := None; supplier := None;
     colors :=
       [ nan_color;
         {| color_code_key := Text (u "009"); color_name_key := Missing;
            sizes := [ {| size := u "S"; quantity := PInt 0 |} ];
            unit_price := Some 5%float; sales_price := None;
            subtotal := None; color_supplier := None |} ];
     total_price := Some nan; references := [] |}.

End JsonSpec.

(** ** app/utils/category_mapper.py *)

Module CategoryMapper.
Import ReferenceData.

(** A dictionary display: later entries with a key that is already
    there replace its value. *)
Definition dict_of (l : list (string * string)) : list (pystr * pystr) :=
  fold_left (fun d kv => Dict.set (u (fst kv)) (u (snd kv)) d) l [].

Definition ENGLISH_TO_PORTUGUESE : list (pystr * pystr) :=
  Eval vm_compute in dict_of
  [ ("SHIRT", "CAMISAS"); ("SHIRTS", "CAMISAS");
    ("CASUAL SHIRT", "CAMISAS"); ("DRESS SHIRT", "CAMISAS");
    ("FORMAL SHIRT", "CAMISAS"); ("COAT", "CASACOS"); ("COATS", "CASACOS");
    ("JACKET", "CASACOS"); ("JACKETS", "CASACOS"); ("OVERCOAT", "CASACOS");
    ("RAINCOAT", "CASACOS"); ("PARKA", "BLUSÕES E PARKAS");
    ("PARKAS", "BLUSÕES E PARKAS"); ("WIND JACKET", "BLUSÕES E PARKAS");
    ("WINDBREAKER", "BLUSÕES E PARKAS"); ("DRESS", "VESTIDOS");
    ("DRESSES", "VESTIDOS"); ("EVENING DRESS", "VESTIDOS");
    ("COCKTAIL DRESS", "VESTIDOS"); ("BLOUSE", "BLUSAS");
    ("BLOUSES", "BLUSAS"); ("TOP", "BLUSAS"); ("TOPS", "BLUSAS");
    ("PANTS", "CALÇAS"); ("TROUSERS", "CALÇAS"); ("CHINOS", "CALÇAS");
    ("SLACKS", "CALÇAS"); ("KNITWEAR", "MALHAS"); ("KNIT", "MALHAS");
    ("PULLOVER", "MALHAS"); ("SWEATER", "MALHAS"); ("CARDIGAN", "MALHAS");
    ("SKIRT", "SAIAS"); ("SKIRTS", "SAIAS"); ("MIDI SKIRT", "SAIAS");
    ("MAXI SKIRT", "SAIAS"); ("T-SHIRT", "T-SHIRTS");
    ("T SHIRT", "T-SHIRTS"); ("TEE", "T-SHIRTS"); ("TSHIRT", "T-SHIRTS");
    ("POLO", "POLOS"); ("POLO SHIRT", "POLOS"); ("JERSEY", "POLOS");
    ("JERSEYS", "POLOS"); ("JEAN", "JEANS"); ("DENIM", "JEANS");
    ("DENIM PANTS", "JEANS"); ("JEANS PANTS", "JEANS");
    ("SWEATSHIRT", "SWEATSHIRTS"); ("HOODIE", "SWEATSHIRTS");
    ("HOODED SWEAT", "SWEATSHIRTS"); ("SWEAT", "SWEATSHIRTS");
    ("BLAZER", "BLAZERS E FATOS"); ("SUIT", "BLAZERS E FATOS");
    ("FORMAL SUIT", "BLAZERS E FATOS"); ("TUXEDO", "BLAZERS E FATOS");
    ("SHOES", "CALÇADO"); ("FOOTWEAR", "CALÇADO"); ("BOOTS", "CALÇADO");
    ("SNEAKERS", "CALÇADO"); ("LOAFERS", "CALÇADO");
    ("ACCESSORIES", "ACESSÓRIOS"); ("BELT", "ACESSÓRIOS");
    ("TIE", "ACESSÓRIOS"); ("SCARF", "ACESSÓRIOS"); ("HAT", "ACESSÓRIOS");
    ("BAG", "ACESSÓRIOS"); ("WALLET", "ACESSÓRIOS");
    ("JEWELRY", "ACESSÓRIOS"); ("WATCH", "ACESSÓRIOS");
    ("SUNGLASSES", "ACESSÓRIOS"); ("ACCESSORY", "ACESSÓRIOS") ]%string.

(** The patterns hold letters only: [re.search(pattern, s)] finds one
    exactly when it is a substring of [s]. *)
Definition BOSS_POLO_PATTERNS : list pystr := Eval vm_compute in map u
  [ "PADDY"; "PAUL"; "POLO"; "JERSEY"; "PIMA"; "PARLAY"; "PALLAS"; "PROUT";
    "PLAYER"; "PERCY"; "PAULE"; "PIRO"; "PASSERBY"; "PACELLO";
    "PHILLIPSON"; "PLISY"; "PRIDE"; "PENROSE"; "PALLAS" ]%string.

(** The local dictionary [keywords] of [map_category]. *)
Definition KEYWORDS : list (pystr * pystr) := Eval vm_compute in dict_of
  [ ("SHIRT", "CAMISAS"); ("COAT", "CASACOS"); ("JACKET", "CASACOS");
    ("DRESS", "VESTIDOS"); ("BLOUSE", "BLUSAS"); ("TOP", "BLUSAS");
    ("PANT", "CALÇAS"); ("TROUSER", "CALÇAS"); ("KNIT", "MALHAS");
    ("SWEATER", "MALHAS"); ("SKIRT", "SAIAS"); ("TEE", "T-SHIRTS");
    ("POLO", "POLOS"); ("JEAN", "JEANS"); ("DENIM", "JEANS");
    ("SWEAT", "SWEATSHIRTS"); ("HOODIE", "SWEATSHIRTS");
    ("BLAZER", "BLAZERS E FATOS"); ("SUIT", "BLAZERS E FATOS");
    ("SHOE", "CALÇADO"); ("BOOT", "CALÇADO"); ("SNEAKER", "CALÇADO") ]%string.

Definition DEFAULT_CATEGORY : pystr := u "ACESSÓRIOS".

(** [difflib.get_close_matches(word, possibilities, n=1, cutoff=0.6)] *)
Record Difflib := {
  get_close_matches : pystr -> list pystr -> list pystr
}.

Section Mapper.
Variable rt : Runtime.
Variable dl : Difflib.

Definition get_best_category_match (category : pystr) : pystr :=
  match category with
  | [] => DEFAULT_CATEGORY
  | _ =>
      match get_close_matches dl (upper rt category) CATEGORIES with
      | best :: _ => best
      | [] => DEFAULT_CATEGORY
      end
  end.

(** The special case of step 4: a product of the brand BOSS whose name
    holds one of the patterns or one of the three words. *)
Definition boss_polo (product_name brand : option pystr) : bool :=
  if Py.truthy product_name && Py.truthy brand then
    let product_upper := upper rt (Py.str_of_opt product_name) in
    let brand_upper := upper rt (Py.str_of_opt brand) in
    if Py.contains (u "HUGO BOSS") brand_upper
       || Py.contains (u "BOSS") brand_upper
    then
      existsb (fun pattern => Py.contains pattern product_upper)
              BOSS_POLO_PATTERNS
      || existsb (fun word => Py.contains word product_upper)
                 [u "POLO"; u "JERSEY"; u "KNIT SHIRT"]
    else false
  else false.

Definition map_category (category product_name brand : option pystr)
  : pystr :=
  let category :=
    if Py.truthy category then Py.str_of_opt category else u "" in
  let category_upper := Py.strip (upper rt category) in
  if Py.mem category_upper CATEGORIES then category_upper
  else
    match (match get_category rt category with
           | Some normalized =>
               if Py.truthy (Some normalized) then Some normalized else None
           | None => None
           end) with
    | Some normalized => normalized
    | None =>
        if boss_polo product_name brand then u "POLOS"
        else
          match Dict.get category_upper ENGLISH_TO_PORTUGUESE with
          | Some translated => translated
          | None =>
              match first_value
                      (fun eng => either_contains eng category_upper)
                      ENGLISH_TO_PORTUGUESE with
              | Some pt => pt
              | None =>
                  match first_value
                          (fun keyword => Py.contains keyword category_upper)
                          KEYWORDS with
                  | Some cat => cat
                  | None => get_best_category_match category
                  end
              end
          end
    end.
End Mapper.

(** A stand-in for [get_close_matches] with [n=1] and [cutoff=0.6], on
    the sample runtime's similarity ratio: the possibility with the
    highest ratio of at least 0.6, the greater string among equals. *)
Definition sample_close_matches (word : pystr) (possibilities : list pystr)
  : list pystr :=
  let scored :=
    filter (fun sx => PrimFloat.leb 0.6 (fst sx))
           (map (fun x => (Sample.seq_ratio x word, x)) possibilities) in
  match scored with
  | [] => []
  | first :: rest =>
      [snd (fold_left
              (fun best sx =>
                 if PrimFloat.ltb (fst best) (fst sx)
                    || (PrimFloat.eqb (fst best) (fst sx)
                        && Py.ltb (snd best) (snd sx))
                 then sx else best) rest first)]
  end.

Definition sample_difflib : Difflib :=
  Build_Difflib sample_close_matches.

End CategoryMapper.

(** ** app/extractors/gemini_extractor.py, [extract_document]: merging the
       order information of a page into that of the document *)

Module OrderInfo.

Section Merge.
(** The values of the dictionaries, with their truth value. *)
Variable V : Type.
Variable truthy : V -> bool.

(** [not order_info.get(key)] is false: the key holds a true value. *)
Definition settled (key : pystr) (order_info : list (pystr * V)) : bool :=
  match Dict.get key order_info with
  | Some v => truthy v
  | None => false
  end.

(** One round of the loop over [page_result["order_info"].items()]. *)
Definition merge_entry (order_info : list (pystr * V)) (kv : pystr * V)
  : list (pystr * V) :=
  let '(key, value) := kv in
  if truthy value && negb (settled key order_info)
  then Dict.set key value order_info
  else order_info.

Definition merge_order_info (order_info page_info : list (pystr * V))
  : list (pystr * V) :=
  fold_left merge_entry page_info order_info.

(** The first true value a page gives for the key. *)
Definition first_truthy (key : pystr) (page_info : list (pystr * V))
  : option V :=
  option_map snd
    (find (fun kv => Py.eqb (fst kv) key && truthy (snd kv)) page_info).
End Merge.

End OrderInfo.

(* ================================================================== *)
(** * Part II: theorems *)
(* ================================================================== *)

(** ** Strings, lists and dictionaries *)

Lemma py_eqb_eq (a b : pystr) : Py.eqb a b = true <-> a = b.
Proof.
  revert b; induction a as [|x a IH]; intros [|y b]; simpl;
    try (split; [discriminate | intros E; discriminate E]); try tauto.
  rewrite andb_true_iff, N.eqb_eq, IH.
  split; [intros [-> ->]; reflexivity | intros E; inversion E; auto].
Qed.

Lemma py_eqb_refl (a : pystr) : Py.eqb a a = true.
Proof. apply py_eqb_eq; reflexivity. Qed.

Lemma py_eqb_neq (a b : pystr) : Py.eqb a b = false <-> a <> b.
Proof.
  rewrite <- py_eqb_eq. destruct (Py.eqb a b); split; congruence.
Qed.

Lemma py_mem_In (x : pystr) (l : list pystr) : Py.mem x l = true <-> In x l.
Proof.
  unfold Py.mem. rewrite existsb_exists. split.
  - intros (y & Hy & E). apply py_eqb_eq in E. subst; assumption.
  - intros H. exists x. split; [assumption | apply py_eqb_refl].
Qed.

Lemma dict_get_In (V : Type) (k : pystr) (d : list (pystr * V)) (v : V) :
  Dict.get k d = Some v -> In (k, v) d.
Proof.
  induction d as [|[k' v'] d IH]; simpl; [discriminate|].
  destruct (Py.eqb k k') eqn:E.
  - intros H; inversion H; subst. apply py_eqb_eq in E. subst. now left.
  - intros H; right; auto.
Qed.

Lemma find_first (A : Type) (f : A -> bool) (l : list A) :
  match find f l with
  | Some x =>
      exists before after,
        l = before ++ x :: after /\ f x = true
        /\ Forall (fun y => f y = false) before
  | None => Forall (fun y => f y = false) l
  end.
Proof.
  induction l as [|a l IH]; simpl; [constructor|].
  destruct (f a) eqn:Fa.
  - exists [], l. repeat split; auto.
  - destruct (find f l) as [x|].
    + destruct IH as (before & after & -> & Fx & Hb).
      exists (a :: before), after. repeat split; auto.
    + constructor; assumption.
Qed.

Lemma forallb_map_comp (A B : Type) (f : B -> bool) (g : A -> B)
    (l : list A) :
  forallb f (map g l) = forallb (fun x => f (g x)) l.
Proof.
  induction l as [|a l IH]; simpl; [reflexivity|]. rewrite IH. reflexivity.
Qed.

Lemma find_In (A : Type) (f : A -> bool) (l : list A) (x : A) :
  find f l = Some x -> In x l.
Proof. intros H. apply find_some in H. tauto. Qed.

(** ** The reference catalogue (claim C9) *)

Module ReferenceDataFacts.
Import ReferenceData.

Lemma first_value_lookup (A : Type) (exact : option A)
    (test : pystr -> bool) (table : list (pystr * A)) :
  two_stage_lookup exact test table
    (match exact with
     | Some v => Some v
     | None => first_value test table
     end).
Proof.
  destruct exact as [v|]; [now apply found_exact|].
  unfold first_value.
  pose proof (find_first (fun kv => test (fst kv)) table) as H.
  destruct (find (fun kv => test (fst kv)) table) as [[k v]|]; simpl.
  - destruct H as (before & after & E & T & B).
    eapply found_first; eauto.
  - now apply found_nothing.
Qed.

Lemma find_as_first_value (test : pystr -> bool) (l : list pystr) :
  find test l = first_value test (map (fun c => (c, c)) l).
Proof.
  unfold first_value. induction l as [|c l IH]; simpl; [reflexivity|].
  destruct (test c); simpl; auto.
Qed.

(** The five accessors, for every runtime and every query string (they
    are total functions: none raises):
    - [get_color_name] does an exact lookup and, as its docstring says,
      returns the code itself when the code is unknown;
    - [get_color_code] and [get_supplier_code] try the exact lookup, then
      take the first entry whose upper-cased name contains, or is
      contained in, the upper-cased query, and yield [None] otherwise;
    - [get_category] does the same on the upper-cased query;
    - the second stage of [get_size_code] tests the upper-cased labels
      for equality with the upper-cased query. *)
Lemma catalogue_lookups (rt : Runtime) (q : pystr) :
  get_color_name q
  = match Dict.get q COLOR_MAP with Some name => name | None => q end
  /\ two_stage_lookup (Dict.get q COLOR_CODE_MAP)
       (fun name => either_contains (upper rt name) (upper rt q))
       COLOR_CODE_MAP (get_color_code rt q)
  /\ two_stage_lookup (Dict.get q SUPPLIER_CODE_MAP)
       (fun name => either_contains (upper rt name) (upper rt q))
       SUPPLIER_CODE_MAP (get_supplier_code rt q)
  /\ two_stage_lookup
       (if Py.mem (upper rt q) CATEGORIES then Some (upper rt q) else None)
       (fun category => either_contains category (upper rt q))
       (map (fun c => (c, c)) CATEGORIES) (get_category rt q)
  /\ two_stage_lookup (Dict.get (upper rt q) SIZE_MAP)
       (fun s => Py.eqb (upper rt s) (upper rt q))
       SIZE_MAP (get_size_code rt q).
Proof.
  repeat split.
  - unfold get_color_code.
    destruct (Dict.get q COLOR_CODE_MAP) eqn:E.
    + now apply found_exact.
    + apply (first_value_lookup None).
  - unfold get_supplier_code.
    destruct (Dict.get q SUPPLIER_CODE_MAP) eqn:E.
    + now apply found_exact.
    + apply (first_value_lookup None).
  - unfold get_category.
    destruct (Py.mem (upper rt q) CATEGORIES).
    + now apply found_exact.
    + rewrite find_as_first_value. apply (first_value_lookup None).
  - unfold get_size_code.
    destruct (Dict.get (upper rt q) SIZE_MAP) eqn:E.
    + now apply found_exact.
    + apply (first_value_lookup None).
Qed.

Lemma get_none_no_key (V : Type) (k : pystr) (d : list (pystr * V)) :
  Dict.get k d = None -> ~ In k (map fst d).
Proof.
  induction d as [|[k' v] d IH]; simpl; intros E; [tauto|].
  destruct (Py.eqb k k') eqn:K; [discriminate E|].
  intros [<-|I]; [|exact (IH E I)].
  rewrite py_eqb_refl in K. discriminate K.
Qed.

(** C9 fails on the code.  The loop of [get_size_code] that its comment
    calls the search for a partial match compares for equality: when the
    labels of the size table are upper-case, as they are, the loop finds
    nothing that the exact lookup has not found, and [get_size_code] is
    the exact lookup of the upper-cased query alone.  The containment
    search of [get_color_code], [get_category] and [get_supplier_code]
    is missing here. *)
Theorem size_lookup_never_partial (rt : Runtime) (q : pystr) :
  (forall s, In s (map fst SIZE_MAP) -> upper rt s = s) ->
  get_size_code rt q = Dict.get (upper rt q) SIZE_MAP
  /\ first_value (fun s => Py.eqb (upper rt s) (upper rt q)) SIZE_MAP
     = Dict.get (upper rt q) SIZE_MAP.
Proof.
  intros U.
  assert (F : Dict.get (upper rt q) SIZE_MAP = None ->
              first_value (fun s => Py.eqb (upper rt s) (upper rt q)) SIZE_MAP
              = None).
  { intros E. apply get_none_no_key in E.
    unfold first_value.
    destruct (find _ SIZE_MAP) as [[k v]|] eqn:Fd; [|reflexivity].
    exfalso. apply E.
    pose proof (find_In _ _ Fd) as I. apply find_some in Fd.
    destruct Fd as [_ T]. cbn [fst] in T. apply py_eqb_eq in T.
    assert (Ik : In k (map fst SIZE_MAP)) by (apply (in_map fst _ _ I)).
    rewrite (U k Ik) in T. rewrite <- T. exact Ik. }
  unfold get_size_code.
  destruct (Dict.get (upper rt q) SIZE_MAP) as [code|] eqn:E.
  - split; [reflexivity|].
    clear F. revert E. generalize (upper rt q). intros k.
    assert (G : forall d : list (pystr * pystr),
              (forall s, In s (map fst d) -> upper rt s = s) ->
              Dict.get k d = Some code ->
              first_value (fun s => Py.eqb (upper rt s) k) d = Some code).
    { induction d as [|[k' v] d IH]; simpl; intros Ud Ed; [discriminate Ed|].
      unfold first_value. simpl.
      rewrite (Ud k' (or_introl eq_refl)).
      destruct (Py.eqb k k') eqn:K.
      - apply py_eqb_eq in K. subst k'. rewrite py_eqb_refl. exact Ed.
      - destruct (Py.eqb k' k) eqn:K'.
        + apply py_eqb_eq in K'. subst k'. rewrite py_eqb_refl in K.
          discriminate K.
        + apply IH; [|exact Ed]. intros s I. apply Ud. now right. }
    apply G. exact U.
  - split; apply F; reflexivity.
Qed.

(** The statement at the sample runtime, for the query "X": a part of
    the labels "XS", "XL", ..., it is answered by [None], where a
    containment search like that of [get_color_code] would answer "001",
    the code of "XS". *)
Lemma size_lookup_never_partial_witness :
  first_value
    (fun s => either_contains (Sample.upper s) (Sample.upper (u "X")))
    SIZE_MAP = Some (u "001")
  /\ get_size_code Sample.runtime (u "X") = None
  /\ get_size_code Sample.runtime (u "X")
     = Dict.get (upper Sample.runtime (u "X")) SIZE_MAP.
Proof.
  split; [vm_compute; reflexivity|].
  split; [vm_compute; reflexivity|].
  apply (@size_lookup_never_partial Sample.runtime (u "X")).
  intros s I. vm_compute in I.
  repeat (destruct I as [<-|I]; [vm_compute; reflexivity|]).
  destruct I.
Defined.

End ReferenceDataFacts.

(** ** The barcode generator (claim C2) *)

Module BarcodeFacts.
Import ReferenceData SupplierUtils BarcodeGenerator BarcodeSpec.

Lemma digits_app (n m : nat) (a b : pystr) :
  digits n a -> digits m b -> digits (n + m) (a ++ b).
Proof.
  intros [La Da] [Lb Db]. split.
  - rewrite length_app. congruence.
  - unfold Py.all_digits in *. rewrite forallb_app, Da, Db. reflexivity.
Qed.

Lemma zeros_digits (n : nat) : digits n (Py.zeros n).
Proof.
  split; unfold Py.zeros.
  - apply repeat_length.
  - induction n; simpl; auto.
Qed.

(** Padding a short string of digits gives exactly [n] digits. *)
Lemma zfill_digits (n : nat) (s : pystr) :
  Py.all_digits s = true -> (List.length s <= n)%nat -> digits n (Py.zfill n s).
Proof.
  intros D L. unfold Py.zfill.
  destruct s as [|c s'].
  - simpl. rewrite Nat.sub_0_r. apply zeros_digits.
  - assert (Hc : Py.is_ascii_digit c = true)
      by (simpl in D; apply andb_true_iff in D; tauto).
    assert (S : ((c =? 43) || (c =? 45))%N = false).
    { unfold Py.is_ascii_digit in Hc. apply andb_true_iff in Hc.
      destruct Hc as [H1 H2]. apply N.leb_le in H1.
      apply orb_false_iff; split; apply N.eqb_neq; lia. }
    rewrite S.
    replace n with ((n - List.length (c :: s')) + List.length (c :: s'))%nat
      at 1 by lia.
    apply digits_app; [apply zeros_digits | split; auto].
Qed.

(** A string that already has [n] digits is not changed. *)
Lemma zfill_exact (n : nat) (s : pystr) : digits n s -> Py.zfill n s = s.
Proof.
  intros [L D]. unfold Py.zfill. rewrite L, Nat.sub_diag. simpl.
  destruct s as [|c s']; [reflexivity|].
  destruct ((c =? 43) || (c =? 45))%N; reflexivity.
Qed.

Lemma three_digit_numbers :
  forallb three_digit_number (seq 0 900) = true.
Proof. vm_compute. reflexivity. Qed.

(** The decimal text of a number from 100 to 999 has three digits. *)
Lemma str_of_Z_3_digits (z : Z) :
  100 <= z <= 999 -> digits 3 (Py.str_of_Z z).
Proof.
  intros H.
  pose proof three_digit_numbers as A.
  rewrite forallb_forall in A.
  specialize (A (Z.to_nat (z - 100))).
  unfold three_digit_number in A.
  replace (100 + Z.of_nat (Z.to_nat (z - 100))) with z in A by lia.
  assert (I : In (Z.to_nat (z - 100)) (seq 0 900)) by (apply in_seq; lia).
  apply A in I. apply andb_true_iff in I. destruct I as [L D].
  split; [now apply Nat.eqb_eq | assumption].
Qed.

Lemma code_shape_digits (n : nat) (s : pystr) :
  code_shape n s = true -> digits n s.
Proof.
  unfold code_shape. rewrite andb_true_iff, Nat.eqb_eq. intros [L D].
  split; assumption.
Qed.

Lemma digits_truthy (n : nat) (s : pystr) :
  digits (S n) s -> Py.truthy (Some s) = true.
Proof. intros [L _]. destruct s; [discriminate | reflexivity]. Qed.

Lemma supplier_codes_shape :
  forallb (code_shape 2)
    (map fst SUPPLIER_DATA ++ map snd SUPPLIER_CODE_MAP) = true.
Proof. vm_compute. reflexivity. Qed.

Lemma size_codes_shape : forallb (code_shape 3) (map snd SIZE_MAP) = true.
Proof. vm_compute. reflexivity. Qed.

Lemma first_value_In (A : Type) (test : pystr -> bool)
    (d : list (pystr * A)) (v : A) :
  first_value test d = Some v -> In v (map snd d).
Proof.
  unfold first_value. destruct (find _ d) as [[k w]|] eqn:F; [|discriminate].
  intros E; inversion E; subst. apply find_In in F.
  apply in_map_iff. exists (k, v). auto.
Qed.

Lemma get_supplier_code_shape (rt : Runtime) (s code : pystr) :
  get_supplier_code rt s = Some code -> digits 2 code.
Proof.
  intros H. apply code_shape_digits.
  pose proof supplier_codes_shape as A. rewrite forallb_forall in A.
  apply A. apply in_or_app. right.
  unfold get_supplier_code in H.
  destruct (Dict.get s SUPPLIER_CODE_MAP) eqn:E.
  - inversion H; subst. apply dict_get_In in E.
    apply in_map_iff. exists (s, code). auto.
  - eapply first_value_In; eauto.
Qed.

(** Whatever the supplier text, a resolved supplier code is one of the
    catalogue's two-digit codes. *)
Lemma normalized_supplier_code_shape (rt : Runtime) (s : option pystr)
    (code : pystr) :
  snd (get_normalized_supplier rt s) = Some code -> digits 2 code.
Proof.
  unfold get_normalized_supplier.
  destruct (find _ SUPPLIER_DATA) as [[k e]|] eqn:F; cbn [option_map fst].
  - destruct k as [|c k']; cbn [Py.truthy snd].
    + apply get_supplier_code_shape.
    + intros E; inversion E; subst. apply code_shape_digits.
      pose proof supplier_codes_shape as A. rewrite forallb_forall in A.
      apply A. apply in_or_app. left. apply find_In in F.
      apply in_map_iff. exists (c :: k', e). auto.
  - cbn [Py.truthy snd]. apply get_supplier_code_shape.
Qed.

Lemma get_size_code_shape (rt : Runtime) (s code : pystr) :
  get_size_code rt s = Some code -> digits 3 code.
Proof.
  intros H. apply code_shape_digits.
  pose proof size_codes_shape as A. rewrite forallb_forall in A. apply A.
  unfold get_size_code in H.
  destruct (Dict.get (upper rt s) SIZE_MAP) eqn:E.
  - inversion H; subst. apply dict_get_In in E.
    apply in_map_iff. exists (upper rt s, code). auto.
  - eapply first_value_In; eauto.
Qed.

Lemma supplier_segment_digits (rt : Runtime) (supplier : option pystr) :
  digits 2 (supplier_segment rt supplier).
Proof.
  unfold supplier_segment.
  destruct (snd (get_normalized_supplier rt supplier)) eqn:E.
  - eapply normalized_supplier_code_shape; eauto.
  - split; reflexivity.
Qed.

Lemma size_segment_digits (rt : Runtime) (size : pystr) :
  digits 3 (size_segment rt size).
Proof.
  unfold size_segment. destruct (get_size_code rt size) eqn:E.
  - eapply get_size_code_shape; eauto.
  - split; reflexivity.
Qed.

(** For an [int] counter the barcode is the concatenation of the five
    segments, whatever the other arguments are. *)
Lemma generate_barcode_segments (rt : Runtime) (supplier : option pystr)
    (n : Z) (color_code : option pystr) (size season_code : pystr) :
  generate_barcode rt supplier (CounterInt n) color_code size season_code
  = season_code ++ supplier_segment rt supplier
    ++ Py.zfill 3 (Py.str_of_Z (100 + Z.min n 899))
    ++ color_segment color_code ++ size_segment rt size.
Proof.
  unfold generate_barcode, generate_barcode_try, supplier_segment,
    size_segment, color_segment.
  destruct (get_normalized_supplier rt supplier) as [nm code] eqn:G.
  assert (S2 : snd (get_normalized_supplier rt supplier) = code)
    by (rewrite G; reflexivity).
  simpl snd.
  repeat f_equal.
  - destruct code as [c|].
    + pose proof (normalized_supplier_code_shape rt supplier S2) as D.
      rewrite (digits_truthy D). simpl. now apply zfill_exact.
    + reflexivity.
  - destruct (get_size_code rt size) as [c|] eqn:Sz.
    + pose proof (get_size_code_shape rt size Sz) as D.
      rewrite (digits_truthy D). now apply zfill_exact.
    + reflexivity.
Qed.

(** C2, amended.  For an [int] counter that is not negative, a season
    code of two digits and a colour code that is [None], empty or made
    of at most three digits, the barcode is exactly 13 digits: the season
    code, the two-digit supplier code ("00" when unresolved), the three
    digits of [100 + min(counter, 899)], the colour code padded to three
    digits ("001" by default) and the three-digit size code of the
    catalogue ("001" by default).  When the [try] block raises (a counter
    that is not a number) the result is the fixed code
    ["0001100" + str(counter).zfill(3) + "001001"]. *)
Theorem generate_barcode_13_digits (rt : Runtime) (supplier : option pystr)
    (n : Z) (color_code : option pystr) (size season_code : pystr) :
  0 <= n ->
  digits 2 season_code ->
  (forall c, color_code = Some c ->
             (List.length c <= 3)%nat /\ Py.all_digits c = true) ->
  let barcode :=
    generate_barcode rt supplier (CounterInt n) color_code size season_code in
  barcode = season_code ++ supplier_segment rt supplier
            ++ Py.str_of_Z (100 + Z.min n 899)
            ++ color_segment color_code ++ size_segment rt size
  /\ digits 2 (supplier_segment rt supplier)
  /\ digits 3 (Py.str_of_Z (100 + Z.min n 899))
  /\ digits 3 (color_segment color_code)
  /\ digits 3 (size_segment rt size)
  /\ digits 13 barcode
  /\ (forall text,
        generate_barcode rt supplier (CounterOther text) color_code size
          season_code
        = u "0001100" ++ Py.zfill 3 text ++ u "001001").
Proof.
  intros Hn Hseason Hcolor barcode.
  assert (Dn : digits 3 (Py.str_of_Z (100 + Z.min n 899)))
    by (apply str_of_Z_3_digits; lia).
  assert (Dc : digits 3 (color_segment color_code)).
  { unfold color_segment. destruct color_code as [[|c s]|]; simpl Py.truthy;
      cbv iota; try (split; reflexivity).
    destruct (Hcolor (c :: s) eq_refl) as [L D].
    apply zfill_digits; assumption. }
  assert (E : barcode = season_code ++ supplier_segment rt supplier
            ++ Py.str_of_Z (100 + Z.min n 899)
            ++ color_segment color_code ++ size_segment rt size).
  { unfold barcode. rewrite generate_barcode_segments.
    rewrite (zfill_exact Dn). reflexivity. }
  assert (D13 : digits 13 barcode).
  { rewrite E.
    exact (digits_app Hseason
             (digits_app (supplier_segment_digits rt supplier)
                (digits_app Dn
                   (digits_app Dc (size_segment_digits rt size))))). }
  split; [exact E|].
  split; [apply supplier_segment_digits|].
  split; [exact Dn|].
  split; [exact Dc|].
  split; [apply size_segment_digits|].
  split; [exact D13|].
  intros text. unfold generate_barcode, generate_barcode_try.
  destruct (get_normalized_supplier rt supplier). reflexivity.
Qed.

Lemma generate_barcode_13_digits_witness :
  let barcode :=
    generate_barcode Sample.runtime (Some (u "GANT")) (CounterInt 1)
      (Some (u "008")) (u "M") (u "00") in
  barcode = u "0001101008003" /\ digits 13 barcode.
Proof.
  pose proof (@generate_barcode_13_digits Sample.runtime (Some (u "GANT")) 1
                (Some (u "008")) (u "M") (u "00")) as H.
  assert (H0 : 0 <= 1) by lia.
  assert (H1 : digits 2 (u "00")) by (split; reflexivity).
  assert (H2 : forall c, Some (u "008") = Some c ->
                         (List.length c <= 3)%nat /\ Py.all_digits c = true).
  { intros c E. inversion E; subst. split; [vm_compute; lia | reflexivity]. }
  specialize (H H0 H1 H2). cbv zeta in H.
  split; [vm_compute; reflexivity | tauto].
Defined.

(** C2 as stated fails: a colour code of four characters is copied as
    it is ([zfill] never cuts), so the barcode has 14 characters, and
    they need not be digits; the fixed code of the [except] branch has
    16 characters. *)
Lemma generate_barcode_counterexample :
  generate_barcode Sample.runtime (Some (u "GANT")) (CounterInt 1)
    (Some (u "NAVY")) (u "M") (u "00") = u "0001101NAVY003"
  /\ List.length (u "0001101NAVY003") = 14%nat
  /\ Py.all_digits (u "0001101NAVY003") = false
  /\ generate_barcode Sample.runtime (Some (u "GANT"))
       (CounterOther (u "None")) (Some (u "008")) (u "M") (u "00")
     = u "0001100None001001".
Proof. vm_compute. repeat split. Qed.

End BarcodeFacts.

(** ** Comparisons of floats *)

Module FloatFacts.

Ltac compare_cases :=
  repeat match goal with
  | |- context [Z.compare ?a ?b] => destruct (Z.compare_spec a b)
  | H : context [Z.compare ?a ?b] |- _ => destruct (Z.compare_spec a b)
  | |- context [Pos.compare_cont Eq ?a ?b] =>
      change (Pos.compare_cont Eq a b) with (Pos.compare a b) in *;
      destruct (Pos.compare_spec a b)
  | H : context [Pos.compare_cont Eq ?a ?b] |- _ =>
      change (Pos.compare_cont Eq a b) with (Pos.compare a b) in *;
      destruct (Pos.compare_spec a b)
  | |- context [Pos.compare ?a ?b] => destruct (Pos.compare_spec a b)
  | H : context [Pos.compare ?a ?b] |- _ => destruct (Pos.compare_spec a b)
  end.

Ltac spec_float_cases a b x :=
  unfold SFltb, SFleb, SFcompare;
  destruct a as [?|?| |? ? ?], b as [?|?| |? ? ?], x as [?|?| |? ? ?];
  repeat match goal with s : bool |- _ => destruct s end;
  intros; try discriminate; try reflexivity;
  unfold CompOpp in *; compare_cases; subst;
  try discriminate; try reflexivity; try lia.

Lemma SF_not_above (a b x : spec_float) :
  SFltb a x = false -> SFltb a b = true -> SFleb b x = false.
Proof. spec_float_cases a b x. Qed.

Lemma SF_ltb_trans (a b x : spec_float) :
  SFltb a b = true -> SFltb b x = true -> SFltb a x = true.
Proof. spec_float_cases a b x. Qed.

(** If [x] is not above [a] and [a < b], then [b <= x] fails. *)
Lemma not_above (a b x : float) :
  PrimFloat.ltb a x = false -> PrimFloat.ltb a b = true ->
  PrimFloat.leb b x = false.
Proof. rewrite !ltb_spec, leb_spec. apply SF_not_above. Qed.

Lemma ltb_trans (a b x : float) :
  PrimFloat.ltb a b = true -> PrimFloat.ltb b x = true ->
  PrimFloat.ltb a x = true.
Proof. rewrite !ltb_spec. apply SF_ltb_trans. Qed.

Lemma ltb_irrefl (a : float) : PrimFloat.ltb a a = false.
Proof.
  rewrite ltb_spec. unfold SFltb, SFcompare.
  destruct (Prim2SF a) as [s|s| |s m e]; try destruct s; try reflexivity;
    rewrite ?Z.compare_refl, ?Pos.compare_cont_refl; try reflexivity;
    unfold CompOpp; rewrite ?Pos.compare_cont_refl; reflexivity.
Qed.

Lemma leb_false_ltb (a b : float) :
  PrimFloat.leb a b = false -> PrimFloat.ltb a b = false.
Proof.
  rewrite ltb_spec, leb_spec. unfold SFltb, SFleb.
  destruct (SFcompare _ _) as [[]|]; congruence.
Qed.

End FloatFacts.

(** ** The fuzzy supplier matcher (claim C5) *)

Module SupplierFacts.
Import ReferenceData SupplierUtils FloatFacts SupplierSpec.

Lemma py_max_floor_idem (s : float) :
  py_max (py_max s 0.7) 0.7 = py_max s 0.7.
Proof.
  unfold py_max. destruct (PrimFloat.ltb s 0.7) eqn:E.
  - reflexivity.
  - rewrite E. reflexivity.
Qed.

Lemma floor_loop (c : pystr -> bool) (l : list pystr) (s : float) :
  fold_left (fun score token => if c token then py_max score 0.7 else score)
            l s
  = if existsb c l then py_max s 0.7 else s.
Proof.
  revert s; induction l as [|t l IH]; intros s; simpl; [reflexivity|].
  rewrite IH. destruct (c t); simpl.
  - rewrite py_max_floor_idem. destruct (existsb c l); reflexivity.
  - reflexivity.
Qed.

(** The score of an entry: the similarity score, floored at 0.7 when a
    token of at least four characters is shared. *)
Lemma entry_score_floor (rt : Runtime) (n k : pystr) :
  entry_score rt n k
  = if shares_long_token n k
    then py_max (calculate_similarity_score rt n k) 0.7
    else calculate_similarity_score rt n k.
Proof. unfold entry_score, shares_long_token. apply floor_loop. Qed.

Section Search.
Variable rt : Runtime.
Variable n : pystr.

Lemma best_step_cases (b : option pystr * float) (k : pystr) :
  best_step rt n b k
  = if eligible rt k
    then if PrimFloat.ltb (snd b) (score_of rt n k) then (Some k, score_of rt n k)
         else b
    else b.
Proof.
  unfold best_step, eligible, score_of.
  destruct (normalize_supplier_name rt k); reflexivity.
Qed.

Lemma best_step_keeps (p : list pystr) (b : option pystr * float)
    (k : pystr) :
  best_of (score_of rt n) (eligible rt) p b ->
  best_of (score_of rt n) (eligible rt) (p ++ [k]) (best_step rt n b k).
Proof.
  intros B. rewrite best_step_cases.
  destruct (eligible rt k) eqn:El.
  - destruct B as [Hnone | before e after Hp He Hpos Hbefore Hafter]; simpl snd.
    + destruct (PrimFloat.ltb 0 (score_of rt n k)) eqn:L.
      * apply best_entry with (before := p) (after := []); auto.
        -- intros e' I E'. eapply not_above; eauto.
        -- intros e' [].
      * apply best_nothing. intros e I E'.
        apply in_app_or in I. destruct I as [I|[<-|[]]]; auto.
    + destruct (PrimFloat.ltb (score_of rt n e) (score_of rt n k)) eqn:L.
      * apply best_entry with (before := p) (after := []); auto.
        -- eapply ltb_trans; eauto.
        -- intros e' I E'. subst p.
           apply in_app_or in I. destruct I as [I|[<-|I]].
           ++ eapply not_above; eauto. apply leb_false_ltb; auto.
           ++ eapply not_above; eauto. apply ltb_irrefl.
           ++ eapply not_above; eauto.
        -- intros e' [].
      * apply best_entry with (before := before) (after := after ++ [k]); auto.
        -- subst p. rewrite <- app_assoc. reflexivity.
        -- intros e' I E'. apply in_app_or in I.
           destruct I as [I|[<-|[]]]; auto.
  - destruct B as [Hnone | before e after Hp He Hpos Hbefore Hafter].
    + apply best_nothing. intros e I E'.
      apply in_app_or in I. destruct I as [I|[<-|[]]]; auto. congruence.
    + apply best_entry with (before := before) (after := after ++ [k]); auto.
      * subst p. rewrite <- app_assoc. reflexivity.
      * intros e' I E'. apply in_app_or in I.
        destruct I as [I|[<-|[]]]; auto. congruence.
Qed.

Lemma best_loop (l p : list pystr) (b : option pystr * float) :
  best_of (score_of rt n) (eligible rt) p b ->
  best_of (score_of rt n) (eligible rt) (p ++ l) (fold_left (best_step rt n) l b).
Proof.
  revert p b; induction l as [|k l IH]; intros p b B; simpl.
  - rewrite app_nil_r. assumption.
  - replace (p ++ k :: l) with ((p ++ [k]) ++ l)
      by (rewrite <- app_assoc; reflexivity).
    apply IH. apply best_step_keeps. assumption.
Qed.

(** The scoring loop of [find_most_similar_supplier] returns the first
    catalogue entry with the highest score. *)
Lemma scoring_loop_best :
  best_of (score_of rt n) (eligible rt) catalogue_names
    (fold_left (best_step rt n) catalogue_names (None, 0%float)).
Proof.
  apply (best_loop catalogue_names (p := [])).
  apply best_nothing. intros e [].
Qed.
End Search.

Lemma catalogue_names_truthy (e : pystr) :
  In e catalogue_names -> Py.truthy (Some e) = true.
Proof.
  assert (A : forallb (fun e => Py.truthy (Some e)) catalogue_names = true)
    by (vm_compute; reflexivity).
  rewrite forallb_forall in A. apply A.
Qed.

Lemma best_of_In (sc : pystr -> float) (el : pystr -> bool)
    (l : list pystr) (e : pystr) (s : float) :
  best_of sc el l (Some e, s) -> In e l.
Proof.
  intros B. inversion B; subst. apply in_or_app. right. now left.
Qed.

(** C5, amended.  For every candidate string that is not blank:
    - a candidate that is a catalogue name is returned at once;
    - otherwise, a candidate whose normalised form is empty is returned
      unchanged, and the first catalogue name with the same normalised
      form wins;
    - otherwise each catalogue name gets the score
      [0.4 * ratio + 0.4 * overlap + bonus] (at most 1), floored at 0.7
      when a token of at least four characters is shared; the first name
      with the highest score is returned if that score exceeds 0.3, and
      the candidate itself otherwise.
    The result is always a string. *)
Theorem match_supplier_name_spec (rt : Runtime) (s : pystr) :
  Py.strip s <> [] ->
  let result := match_supplier_name rt (Some s) in
  let normal := normalize_supplier_name rt in
  (Py.mem s catalogue_names = true -> result = s)
  /\ (Py.mem s catalogue_names = false -> normal s = [] -> result = s)
  /\ (forall e,
        Py.mem s catalogue_names = false -> normal s <> [] ->
        find (fun k => Py.eqb (normal k) (normal s)) catalogue_names = Some e ->
        result = e)
  /\ (Py.mem s catalogue_names = false -> normal s <> [] ->
      find (fun k => Py.eqb (normal k) (normal s)) catalogue_names = None ->
      exists best,
        best_of (score_of rt (normal s)) (eligible rt) catalogue_names best
        /\ result = match best with
                    | (Some e, score) =>
                        if PrimFloat.ltb 0.3 score then e else s
                    | (None, _) => s
                    end)
  /\ (forall a b,
        calculate_similarity_score rt a b
        = py_min (seq_ratio rt a b * 0.4
                  + set_similarity (dedup (Py.split a)) (dedup (Py.split b))
                    * 0.4
                  + (if significant_tokens (dedup (Py.split a))
                          (dedup (Py.split b))
                     then 0.2 else 0))%float 1)
  /\ (forall a b,
        entry_score rt a b
        = if shares_long_token a b
          then py_max (calculate_similarity_score rt a b) 0.7
          else calculate_similarity_score rt a b).
Proof.
  intros Hs result normal. subst result normal.
  unfold match_supplier_name.
  destruct (Py.strip s) as [|c0 rest] eqn:St; [congruence|].
  fold catalogue_names.
  destruct (Py.mem s catalogue_names) eqn:M.
  { repeat split; try discriminate; auto using entry_score_floor. }
  destruct (normalize_supplier_name rt s) as [|c1 norm] eqn:Nm.
  { repeat split; try discriminate; try congruence;
      auto using entry_score_floor. }
  split; [discriminate|]. split; [congruence|].
  unfold find_most_similar_supplier. fold catalogue_names.
  split; [|split; [|split; [reflexivity | apply entry_score_floor]]].
  - intros e _ _ F. rewrite F.
    apply find_In in F. apply catalogue_names_truthy in F.
    rewrite F. reflexivity.
  - intros _ _ F. rewrite F.
    pose proof (scoring_loop_best rt (c1 :: norm)) as B.
    destruct (fold_left (best_step rt (c1 :: norm)) catalogue_names
                (None, 0%float)) as [[e|] sc] eqn:Fl.
    + exists (Some e, sc). split; [exact B|].
      apply best_of_In in B. apply catalogue_names_truthy in B.
      rewrite B. reflexivity.
    + exists (None, sc). split; [exact B | reflexivity].
Qed.

Lemma match_supplier_name_spec_witness :
  match_supplier_name Sample.runtime (Some (u "Hugo Boss S.p.A."))
  = u "HUGO BOSS".
Proof.
  assert (H : Py.strip (u "Hugo Boss S.p.A.") <> [])
    by (vm_compute; discriminate).
  destruct (@match_supplier_name_spec Sample.runtime _ H) as (_ & _ & T & _).
  apply T.
  - vm_compute; reflexivity.
  - vm_compute; discriminate.
  - vm_compute; reflexivity.
Defined.

(** C5 as stated fails: a candidate made of white space is not returned
    unchanged; the placeholder name is returned instead. *)
Lemma match_supplier_name_counterexample :
  match_supplier_name Sample.runtime (Some (u "   "))
  = u "Fornecedor não identificado"
  /\ Py.eqb (match_supplier_name Sample.runtime (Some (u "   "))) (u "   ")
     = false.
Proof. vm_compute. split; reflexivity. Qed.

End SupplierFacts.

(** ** The sanitizer and the numeric recovery (claims C7 and C8) *)

Module JsonFacts.
Import JsonUtils JsonSpec PostProcessSpec Examples.

(** Induction on Python values, with the hypothesis on every element of
    a container. *)
Lemma pyval_induction (P : pyval -> Prop) :
  P VNone ->
  (forall b, P (VBool b)) ->
  (forall z, P (VInt z)) ->
  (forall f, P (VFloat f)) ->
  (forall s, P (VStr s)) ->
  (forall items, Forall (fun kv => P (snd kv)) items -> P (VDict items)) ->
  (forall items, Forall P items -> P (VList items)) ->
  (forall items, Forall P items -> P (VTuple items)) ->
  (forall text, P (VOther text)) ->
  forall v, P v.
Proof.
  intros HN HB HI HF HS HD HL HT HO.
  fix IH 1.
  intros [ | b | z | f | s | items | items | items | text].
  - exact HN.
  - apply HB.
  - apply HI.
  - apply HF.
  - apply HS.
  - apply HD.
    induction items as [|[k v] items IHitems]; constructor;
      [apply IH | exact IHitems].
  - apply HL.
    induction items as [|v items IHitems]; constructor;
      [apply IH | exact IHitems].
  - apply HT.
    induction items as [|v items IHitems]; constructor;
      [apply IH | exact IHitems].
  - apply HO.
Qed.

Lemma map_fixed (A : Type) (f g : A -> A) (l : list A) :
  Forall (fun x => f (g x) = g x) l -> map f (map g l) = map g l.
Proof.
  induction 1 as [|x l Hx Hl IH]; simpl; [reflexivity|].
  rewrite Hx, IH. reflexivity.
Qed.

Lemma Forall_forallb_imp (A : Type) (P : A -> Prop) (b : A -> bool)
    (l : list A) :
  Forall (fun x => b x = true -> P x) l -> forallb b l = true -> Forall P l.
Proof.
  induction 1 as [|x l Hx Hl IH]; simpl; intros E; constructor;
    apply andb_true_iff in E; destruct E; auto.
Qed.

(** The sanitizer is idempotent when the default string is empty, and on
    every value that holds no foreign object with an empty [str()]. *)
Lemma sanitize_fixed_point (dn : option float) (ds : pystr) (md : Z)
    (obj : pyval) :
  ds = [] \/ no_blank_object obj = true ->
  forall d,
    sanitize_for_json dn ds md (sanitize_for_json dn ds md obj d) d
    = sanitize_for_json dn ds md obj d.
Proof.
  induction obj as [ | b | z | f | s | items IH | items IH | items IH | text]
    using pyval_induction; intros NB d; simpl;
    destruct (md <? d) eqn:Depth; simpl; rewrite ?Depth; try reflexivity.
  - destruct (Num.non_finite f) eqn:NF; simpl; rewrite ?Depth, ?NF;
      [|reflexivity].
    destruct dn as [f'|]; simpl; rewrite ?Depth; [|reflexivity].
    destruct (Num.non_finite f'); reflexivity.
  - destruct s; simpl; rewrite Depth; [|reflexivity].
    destruct ds; reflexivity.
  - f_equal. rewrite map_map.
    assert (NB' : forall x, In x items ->
                            ds = [] \/ no_blank_object (snd x) = true).
    { intros x Hx. destruct NB as [E|NB]; [now left | right].
      simpl in NB. rewrite forallb_forall in NB. auto. }
    clear NB.
    induction IH as [|[k v] l Hv Hl IHl]; simpl; [reflexivity|].
    f_equal.
    + f_equal. apply Hv. apply (NB' (k, v)). now left.
    + apply IHl. intros x Hx. apply NB'. now right.
  - f_equal. rewrite map_map.
    assert (NB' : forall x, In x items -> ds = [] \/ no_blank_object x = true).
    { intros x Hx. destruct NB as [E|NB]; [now left | right].
      simpl in NB. rewrite forallb_forall in NB. auto. }
    clear NB.
    induction IH as [|v l Hv Hl IHl]; simpl; [reflexivity|].
    f_equal; [apply Hv; apply NB'; now left|].
    apply IHl. intros x Hx. apply NB'. now right.
  - f_equal. rewrite map_map.
    assert (NB' : forall x, In x items -> ds = [] \/ no_blank_object x = true).
    { intros x Hx. destruct NB as [E|NB]; [now left | right].
      simpl in NB. rewrite forallb_forall in NB. auto. }
    clear NB.
    induction IH as [|v l Hv Hl IHl]; simpl; [reflexivity|].
    f_equal; [apply Hv; apply NB'; now left|].
    apply IHl. intros x Hx. apply NB'. now right.
  - destruct text as [[|c t]|]; simpl; rewrite ?Depth; try reflexivity.
    destruct NB as [E|NB]; [subst ds; reflexivity | discriminate NB].
Qed.

(** C7, amended.  For every parameter choice, sanitizing the output of
    [sanitize_for_json] again returns it unchanged, provided the default
    string is empty (its default) or the input holds no object of a
    foreign type whose [str()] is the empty string; in particular for
    every input made of [None], booleans, numbers, strings, dicts, lists
    and tuples. *)
Theorem sanitize_idempotent (default_number : option float)
    (default_str : pystr) (max_depth : Z) (obj : pyval) :
  default_str = [] \/ no_blank_object obj = true ->
  let once := sanitize_for_json default_number default_str max_depth obj 0 in
  sanitize_for_json default_number default_str max_depth once 0 = once.
Proof.
  intros H once. subst once. apply sanitize_fixed_point. exact H.
Qed.

Lemma sanitize_idempotent_witness :
  let once := sanitize_for_json (Some 0%float) (u "N/A") 100 sample_value 0 in
  once = VDict [ (u "price", VFloat 0);
                 (u "name", VStr (u "N/A"));
                 (u "tags", VList [VStr (u "a"); VStr (u "err"); VNone]) ]
  /\ sanitize_for_json (Some 0%float) (u "N/A") 100 once 0 = once.
Proof.
  split.
  - vm_compute. reflexivity.
  - apply (@sanitize_idempotent (Some 0%float) (u "N/A") 100 sample_value).
    right. vm_compute. reflexivity.
Defined.

(** C7 as stated fails: an object of a foreign type whose [str()] is
    empty (such as [Exception()]) becomes [""], and sanitizing [""] with
    a non-empty default string gives that default. *)
Lemma sanitize_idempotent_counterexample :
  sanitize_for_json (Some 0%float) (u "N/A") 100 (VOther (Some [])) 0
  = VStr []
  /\ sanitize_for_json (Some 0%float) (u "N/A") 100 (VStr []) 0
     = VStr (u "N/A").
Proof. vm_compute. split; reflexivity. Qed.

(** *** Finite numbers (claim C8) *)

Lemma non_finite_false (f : float) :
  Num.non_finite f = false -> Num.is_finite f = true.
Proof.
  unfold Num.non_finite, Num.is_finite.
  destruct (PrimFloat.is_nan f), (PrimFloat.is_infinity f);
    simpl; congruence.
Qed.


Lemma all_some_In (A B : Type) (f : A -> option B) (l : list A)
    (out : list B) (y : B) :
  all_some (map f l) = Some out -> In y out ->
  exists x, In x l /\ f x = Some y.
Proof.
  revert out; induction l as [|a l IH]; simpl; intros out E I.
  - inversion E; subst. destruct I.
  - destruct (f a) as [b|] eqn:Fa; [|discriminate].
    destruct (all_some (map f l)) as [out'|] eqn:R; [|discriminate].
    simpl in E. inversion E; subst. destruct I as [<-|I].
    + exists a. auto.
    + destruct (IH out' eq_refl I) as (x & Hx & Fx). exists x. auto.
Qed.










(** The list that stage 4 of [extract_document] keeps in memory (the
    post-processed products after [fix_nan_in_products]) can hold
    infinite prices, since [fix_nan_in_products] tests for NaN only; the
    infinite prices go when [safe_json_dump] sanitizes the result. *)
Lemma stored_prices_before_sanitizing :
  option_map prices
    (Extractor.processed_result Sample.runtime [infinite_price_product]
       gant_context)
  = Some [(Some infinity, [(Some infinity, Some infinity, Some infinity)])].
Proof. vm_compute. reflexivity. Qed.

End JsonFacts.

(** ** The page cleaner (claim C4) *)

Module CleanerFacts.
Import Cleaner Examples.

(** C4 fails on the code: a quantity that is [NaN] is not a number
    greater than 0, but the entry is kept (the test is [quantity <= 0]),
    and so are its colour and its product. *)
Lemma nan_quantity_is_kept :
  clean_products Sample.runtime nan_quantity_page
  = Some [ VDict [ (u "name", VStr (u "Polo"));
                   (u "material_code", VStr (u "M1"));
                   (u "colors",
                    VList [ VDict [ (u "color_code", VStr (u "008"));
                                    (u "sizes",
                                     VList [ VDict [ (u "size", VStr (u "M"));
                                                     (u "quantity", VFloat nan)
                                                   ] ]) ] ]);
                   (u "total_price", VNone) ] ].
Proof. vm_compute. reflexivity. Qed.

End CleanerFacts.

(** ** The cross-page post-processor (claims C1, C3, C6, C10) *)

Module PostProcessFacts.
Import ReferenceData SupplierUtils SupplierAssignment BarcodeGenerator.
Import Assign PostProcess PostProcessSpec Examples.

(** *** Loops that may raise *)

Lemma all_some_In_out (A B : Type) (f : A -> option B) (l : list A)
    (out : list B) (y : B) :
  all_some (map f l) = Some out -> In y out ->
  exists x, In x l /\ f x = Some y.
Proof. apply JsonFacts.all_some_In. Qed.

Lemma all_some_In_in (A B : Type) (f : A -> option B) (l : list A)
    (out : list B) (x : A) :
  all_some (map f l) = Some out -> In x l ->
  exists y, In y out /\ f x = Some y.
Proof.
  revert out; induction l as [|a l IH]; simpl; intros out E I; [destruct I|].
  destruct (f a) as [b|] eqn:Fa; [|discriminate].
  destruct (all_some (map f l)) as [out'|] eqn:R; [|discriminate].
  simpl in E. inversion E; subst. destruct I as [<-|I].
  - exists b. split; [now left | assumption].
  - destruct (IH out' eq_refl I) as (y & Hy & Fy).
    exists y. split; [now right | assumption].
Qed.

(** *** The sort keeps the products *)

Lemma insert_sorted_In (p q : product) (l : list product) :
  In q (insert_sorted p l) <-> q = p \/ In q l.
Proof.
  induction l as [|a l IH]; simpl.
  - intuition.
  - destruct (Py.ltb (sort_key a) (sort_key p)); simpl.
    + rewrite IH. intuition.
    + intuition.
Qed.

Lemma sort_In (q : product) (l : list product) :
  In q (sort_by_material_code l) <-> In q l.
Proof.
  unfold sort_by_material_code. induction l as [|a l IH]; simpl.
  - tauto.
  - rewrite insert_sorted_In, IH. intuition.
Qed.

(** *** The stages after the loop, product by product *)

Ltac break_matches :=
  repeat match goal with
         | H : Some _ = Some _ |- _ => inversion H; subst; clear H
         | H : None = Some _ |- _ => discriminate H
         | H : context [match ?x with _ => _ end] |- _ => destruct x eqn:?
         | H : context [if ?b then _ else _] |- _ => destruct b eqn:?
         end.


Lemma assign_product_fields (rt : Runtime) (s : pystr) (m : option float)
    (p p' : product) :
  assign_product rt s m p = Some p' ->
  material_code p' = material_code p
  /\ all_some (map (assign_color rt s m) (colors p)) = Some (colors p').
Proof.
  unfold assign_product. intros E.
  destruct (all_some (map (assign_color rt s m) (colors p))) as [cols|];
    [|discriminate].
  inversion E; subst. auto.
Qed.

Lemma all_some_map_eq (A B C : Type) (f : A -> option B) (g : A -> C)
    (h : B -> C) (l : list A) (out : list B) :
  (forall x y, f x = Some y -> h y = g x) ->
  all_some (map f l) = Some out -> map h out = map g l.
Proof.
  intros H. revert out; induction l as [|a l IH]; simpl; intros out E.
  - inversion E; reflexivity.
  - destruct (f a) as [b|] eqn:Fa; [|discriminate].
    destruct (all_some (map f l)) as [out'|] eqn:R; [|discriminate].
    simpl in E. inversion E; subst. simpl.
    rewrite (H _ _ Fa), (IH out' eq_refl). reflexivity.
Qed.

Lemma post_process_stages (rt : Runtime) (products : list product)
    (ctx : context_info) (out : list product) (s : pystr) :
  _post_process_products rt products ctx = Some (out, s) ->
  exists st markup,
    process rt initial_state products = Some st
    /\ s = fst (fst (determine_best_supplier rt ctx))
    /\ (forall q, In q out ->
          exists e a, In e (processed_products st)
                      /\ assign_product rt s markup e = Some a
                      /\ q = final_form rt (ctx_brand ctx) s a)
    /\ (forall e, In e (processed_products st) ->
          exists a, assign_product rt s markup e = Some a
                    /\ In (final_form rt (ctx_brand ctx) s a) out).
Proof.
  unfold _post_process_products, before_barcodes.
  destruct (determine_best_supplier rt ctx) as [[s0 code] markup].
  destruct (process rt initial_state products) as [st|]; [|discriminate].
  unfold assign_supplier_to_products.
  destruct (all_some (map (assign_product rt s0 markup) (processed_products st)))
    as [assigned|] eqn:A; [|discriminate].
  intros E. inversion E; subst; clear E.
  exists st, markup. repeat split.
  - intros q Iq. unfold add_barcodes_to_products in Iq.
    apply in_map_iff in Iq. destruct Iq as (f & <- & If).
    apply (proj1 (sort_In _ _)) in If. apply in_map_iff in If.
    destruct If as (a & <- & Ia).
    destruct (@all_some_In_out _ _ _ _ _ _ A Ia) as (e & He & Fe).
    exists e, a. auto.
  - intros e Ie.
    destruct (@all_some_In_in _ _ _ _ _ _ A Ie) as (a & Ha & Fa).
    exists a. split; [assumption|].
    unfold add_barcodes_to_products, final_form.
    apply in_map. apply (proj2 (sort_In _ _)). apply in_map. assumption.
Qed.

Lemma final_form_material_code (rt : Runtime) (brand : option pystr)
    (s : pystr) (a : product) :
  material_code (final_form rt brand s a) = material_code a.
Proof.
  unfold final_form, finalize_product.
  destruct (Py.truthy brand && _); reflexivity.
Qed.

Lemma final_form_colors (rt : Runtime) (brand : option pystr)
    (s : pystr) (a : product) :
  colors (final_form rt brand s a)
  = map (set_color_supplier (Some (Some s))) (colors a).
Proof.
  unfold final_form, finalize_product.
  destruct (Py.truthy brand && _); reflexivity.
Qed.

(** *** Products without a material code (claim C10) *)

Lemma step_skips (rt : Runtime) (st : state) (p : product) :
  Py.truthy (material_code p) = false -> step rt st p = Some st.
Proof. intros H. unfold step. rewrite H. reflexivity. Qed.

Lemma process_app (rt : Runtime) (l1 l2 : list product) (st : state) :
  process rt st (l1 ++ l2)
  = match process rt st l1 with
    | Some st' => process rt st' l2
    | None => None
    end.
Proof.
  revert st; induction l1 as [|p l1 IH]; intros st; simpl; [reflexivity|].
  destruct (step rt st p); [apply IH | reflexivity].
Qed.

Lemma process_skips (rt : Runtime) (l1 l2 : list product) (p : product)
    (st : state) :
  Py.truthy (material_code p) = false ->
  process rt st (l1 ++ p :: l2) = process rt st (l1 ++ l2).
Proof.
  intros H. rewrite !process_app.
  destruct (process rt st l1) as [st'|]; [|reflexivity].
  simpl. rewrite (step_skips rt st' p H). reflexivity.
Qed.

Lemma merge_first_material_codes (rt : Runtime) (m : pystr) (p : product)
    (l : list product) :
  map material_code (merge_first rt m p l) = map material_code l.
Proof.
  induction l as [|e l IH]; simpl; [reflexivity|].
  destruct (opt_eqb (material_code e) (Some m)); simpl;
    [reflexivity | rewrite IH; reflexivity].
Qed.

Lemma Forall_map_iff (A B : Type) (P : B -> Prop) (f : A -> B) (l : list A) :
  Forall P (map f l) <-> Forall (fun x => P (f x)) l.
Proof.
  induction l as [|a l IH]; simpl; split; intros H;
    try constructor; inversion H; subst; try tauto.
Qed.

Lemma step_has_material_code (rt : Runtime) (st st' : state) (p : product) :
  Forall has_material_code (processed_products st) ->
  step rt st p = Some st' ->
  Forall has_material_code (processed_products st').
Proof.
  intros F E. unfold step in E.
  destruct (Py.truthy (material_code p)) eqn:T; simpl in E;
    [|inversion E; subst; assumption].
  destruct (name p) as [nm|]; [|discriminate].
  destruct (has_valid_colors _); [|inversion E; subst; assumption].
  destruct (Py.mem _ (seen_material_codes st)).
  - inversion E; subst; clear E. simpl.
    unfold has_material_code in *.
    apply (Forall_map_iff (fun m => Py.truthy m = true) material_code).
    rewrite merge_first_material_codes.
    apply (Forall_map_iff (fun m => Py.truthy m = true) material_code).
    assumption.
  - destruct (number_colors _ _ _) as [refs final].
    inversion E; subst; clear E. simpl.
    apply Forall_app. split; [assumption|].
    constructor; [|constructor]. exact T.
Qed.

Lemma process_has_material_code (rt : Runtime) (l : list product)
    (st st' : state) :
  Forall has_material_code (processed_products st) ->
  process rt st l = Some st' ->
  Forall has_material_code (processed_products st').
Proof.
  revert st; induction l as [|p l IH]; simpl; intros st F E.
  - inversion E; subst; assumption.
  - destruct (step rt st p) as [st1|] eqn:S; [|discriminate].
    eapply IH; [|exact E]. eapply step_has_material_code; eauto.
Qed.

(** Every product of the output has a material code that is not empty. *)
Lemma output_has_material_code (rt : Runtime) (products : list product)
    (ctx : context_info) (out : list product) (s : pystr) (q : product) :
  _post_process_products rt products ctx = Some (out, s) ->
  In q out -> has_material_code q.
Proof.
  intros E Iq.
  destruct (post_process_stages _ _ _ E) as (st & markup & P & _ & Hout & _).
  destruct (Hout q Iq) as (e & a & Ie & Fa & ->).
  unfold has_material_code. rewrite final_form_material_code.
  apply assign_product_fields in Fa. destruct Fa as [-> _].
  pose proof (@process_has_material_code rt products initial_state st
                (Forall_nil _) P) as F.
  rewrite Forall_forall in F. apply F. assumption.
Qed.

(** C10.  A product whose material code is missing, [None] or empty is
    discarded before anything else is done with it (even before its name
    is read, and whatever colours and sizes it has): the result is that
    of the same list without it; and every product of the output has a
    material code that is not empty. *)
Theorem missing_material_code_discarded (rt : Runtime)
    (before after : list product) (p : product) (ctx : context_info) :
  Py.truthy (material_code p) = false ->
  _post_process_products rt (before ++ p :: after) ctx
  = _post_process_products rt (before ++ after) ctx
  /\ (forall out s q,
        _post_process_products rt (before ++ p :: after) ctx = Some (out, s) ->
        In q out ->
        exists code, material_code q = Some code /\ code <> []).
Proof.
  intros H. split.
  - unfold _post_process_products, before_barcodes.
    rewrite (process_skips rt before after p initial_state H). reflexivity.
  - intros out s q E Iq.
    pose proof (@output_has_material_code _ _ _ _ _ _ E Iq) as M.
    unfold has_material_code in M.
    destruct (material_code q) as [[|c code]|]; try discriminate.
    exists (c :: code). split; [reflexivity | discriminate].
Qed.

Lemma missing_material_code_discarded_witness :
  _post_process_products Sample.runtime [nameless_product; polo_product]
    gant_context
  = _post_process_products Sample.runtime [polo_product] gant_context
  /\ option_map (fun r => map material_code (fst r))
       (_post_process_products Sample.runtime [polo_product] gant_context)
     = Some [Some (u "M1")].
Proof.
  split.
  - apply (@missing_material_code_discarded Sample.runtime []
             [polo_product] nameless_product gant_context).
    reflexivity.
  - vm_compute. reflexivity.
Defined.

(** *** Reference lines (claim C3) *)

Section Numbering.
Variable mk : color -> Z -> size_info -> reference.
Variable mc : option pystr.
Hypothesis mk_counter : forall c n s, ref_counter (mk c n s) = n.
Hypothesis mk_reference :
  forall c n s, ref_reference (mk c n s) = reference_string mc n.
Hypothesis mk_line :
  forall c n s,
    line (mk c n s)
    = (key_get_default (color_code_key c),
       key_get_default (color_name_key c), size s, quantity s).

Lemma number_sizes_counters (c : color) (szs : list size_info) :
  forall start refs final,
    number_sizes (mk c) szs start = (refs, final) ->
    final = start + Z.of_nat (List.length refs)
    /\ forall i r, nth_error refs i = Some r ->
                   ref_counter r = start + Z.of_nat i + 1.
Proof.
  induction szs as [|s szs IH]; simpl; intros start refs final E.
  - inversion E; subst. simpl. split; [lia|].
    intros [|i] r H; discriminate H.
  - destruct (Num.le0 (quantity s)); [apply IH; assumption|].
    destruct (number_sizes (mk c) szs (start + 1)) as [refs' final'] eqn:R.
    inversion E; subst; clear E.
    destruct (IH _ _ _ R) as [F N]. split.
    + simpl List.length. lia.
    + intros [|i] r H; simpl in H.
      * inversion H; subst. rewrite mk_counter. lia.
      * rewrite (N i r H). lia.
Qed.

Lemma number_colors_counters (cols : list color) :
  forall start refs final,
    number_colors mk cols start = (refs, final) ->
    final = start + Z.of_nat (List.length refs)
    /\ forall i r, nth_error refs i = Some r ->
                   ref_counter r = start + Z.of_nat i + 1.
Proof.
  induction cols as [|c cols IH]; simpl; intros start refs final E.
  - inversion E; subst. simpl. split; [lia|].
    intros [|i] r H; discriminate H.
  - destruct (number_sizes (mk c) (sizes c) start) as [refs1 mid] eqn:R1.
    destruct (number_colors mk cols mid) as [refs2 final2] eqn:R2.
    inversion E; subst; clear E.
    destruct (number_sizes_counters _ _ _ R1) as [F1 N1].
    destruct (IH _ _ _ R2) as [F2 N2]. split.
    + rewrite length_app. lia.
    + intros i r H.
      destruct (Nat.lt_ge_cases i (List.length refs1)) as [Lt|Ge].
      * rewrite nth_error_app1 in H by assumption. apply N1. assumption.
      * rewrite nth_error_app2 in H by assumption.
        rewrite (N2 _ _ H). lia.
Qed.

Lemma number_sizes_lines (c : color) (szs : list size_info) (start : Z) :
  map line (fst (number_sizes (mk c) szs start))
  = map (fun s => (key_get_default (color_code_key c),
                   key_get_default (color_name_key c), size s, quantity s))
        (filter (fun s => negb (Num.le0 (quantity s))) szs).
Proof.
  revert start; induction szs as [|s szs IH]; simpl; intros start;
    [reflexivity|].
  destruct (Num.le0 (quantity s)); simpl; [apply IH|].
  specialize (IH (start + 1)).
  destruct (number_sizes (mk c) szs (start + 1)) as [refs' final'].
  simpl in *. rewrite mk_line, IH. reflexivity.
Qed.

Lemma number_colors_lines (cols : list color) (start : Z) :
  map line (fst (number_colors mk cols start)) = expected_lines cols.
Proof.
  revert start; induction cols as [|c cols IH]; simpl; intros start;
    [reflexivity|].
  pose proof (number_sizes_lines c (sizes c) start) as L.
  destruct (number_sizes (mk c) (sizes c) start) as [refs1 mid].
  specialize (IH mid).
  destruct (number_colors mk cols mid) as [refs2 final2].
  simpl in *. rewrite map_app, L, IH. reflexivity.
Qed.

Lemma number_sizes_references (c : color) (szs : list size_info) (start : Z) :
  Forall (fun r => ref_reference r = reference_string mc (ref_counter r))
         (fst (number_sizes (mk c) szs start)).
Proof.
  revert start; induction szs as [|s szs IH]; simpl; intros start;
    [constructor|].
  destruct (Num.le0 (quantity s)); [apply IH|].
  specialize (IH (start + 1)).
  destruct (number_sizes (mk c) szs (start + 1)) as [refs' final'].
  simpl in *. constructor; [|assumption].
  rewrite mk_reference, mk_counter. reflexivity.
Qed.

Lemma number_colors_references (cols : list color) (start : Z) :
  Forall (fun r => ref_reference r = reference_string mc (ref_counter r))
         (fst (number_colors mk cols start)).
Proof.
  revert start; induction cols as [|c cols IH]; simpl; intros start;
    [constructor|].
  pose proof (number_sizes_references c (sizes c) start) as L.
  destruct (number_sizes (mk c) (sizes c) start) as [refs1 mid].
  specialize (IH mid).
  destruct (number_colors mk cols mid) as [refs2 final2].
  simpl in *. apply Forall_app. split; assumption.
Qed.
End Numbering.

Lemma merge_first_references (rt : Runtime) (m : pystr) (p : product)
    (l : list product) :
  map references (merge_first rt m p l) = map references l.
Proof.
  induction l as [|e l IH]; simpl; [reflexivity|].
  destruct (opt_eqb (material_code e) (Some m)); simpl;
    [reflexivity | rewrite IH; reflexivity].
Qed.

(** A later occurrence of a material code leaves every list of
    references as it is. *)
Lemma step_merge_keeps_references (rt : Runtime) (st st' : state)
    (p : product) :
  step rt st p = Some st' ->
  Py.mem (Py.str_of_opt (material_code p)) (seen_material_codes st) = true ->
  map references (processed_products st')
  = map references (processed_products st).
Proof.
  unfold step. intros E M.
  destruct (Py.truthy (material_code p)); simpl in E;
    [|inversion E; reflexivity].
  destruct (name p); [|discriminate].
  destruct (has_valid_colors _); [|inversion E; reflexivity].
  rewrite M in E. inversion E; subst; clear E. simpl.
  apply merge_first_references.
Qed.

Lemma number_sizes_all (P : reference -> Prop)
    (mk : Z -> size_info -> reference) (szs : list size_info) (start : Z) :
  (forall n s, P (mk n s)) -> Forall P (fst (number_sizes mk szs start)).
Proof.
  intros H. revert start; induction szs as [|s szs IH]; simpl; intros start;
    [constructor|].
  destruct (Num.le0 (quantity s)); [apply IH|].
  specialize (IH (start + 1)).
  destruct (number_sizes mk szs (start + 1)) as [refs' final'].
  simpl in *. constructor; auto.
Qed.

Lemma number_colors_all (P : reference -> Prop)
    (mk : color -> Z -> size_info -> reference) (cols : list color)
    (start : Z) :
  (forall c n s, P (mk c n s)) -> Forall P (fst (number_colors mk cols start)).
Proof.
  intros H. revert start; induction cols as [|c cols IH]; simpl; intros start;
    [constructor|].
  pose proof (number_sizes_all P (mk c) (sizes c) start (H c)) as L.
  destruct (number_sizes (mk c) (sizes c) start) as [refs1 mid].
  specialize (IH mid).
  destruct (number_colors mk cols mid) as [refs2 final2].
  simpl in *. apply Forall_app. split; assumption.
Qed.

Lemma assign_color_keys (rt : Runtime) (s : pystr) (m : option float)
    (c c' : color) :
  assign_color rt s m c = Some c' ->
  color_code_key c' = color_code_key c
  /\ color_name_key c' = color_name_key c /\ sizes c' = sizes c.
Proof.
  unfold assign_color. intros E. break_matches; auto.
Qed.

(** The supplier assignment and stage 3.5 change no line of a colour:
    the lines expected from the colours of an output product are those
    of the colours the loop has left. *)
Lemma final_form_lines (rt : Runtime) (brand : option pystr) (s : pystr)
    (m : option float) (e a : product) :
  assign_product rt s m e = Some a ->
  expected_lines (colors (final_form rt brand s a))
  = expected_lines (colors e).
Proof.
  intros Fa. apply assign_product_fields in Fa. destruct Fa as [_ Cols].
  rewrite final_form_colors. unfold expected_lines.
  rewrite !flat_map_concat_map, map_map. f_equal.
  eapply all_some_map_eq; [|exact Cols].
  intros x y Fx. apply assign_color_keys in Fx.
  destruct Fx as (K1 & K2 & K3). cbn [set_color_supplier sizes
    color_code_key color_name_key]. rewrite K1, K2, K3. reflexivity.
Qed.

(** C3, amended.  In every product of the output the references are
    those that [add_barcodes_to_products] builds after the loop: the
    lines of the product's colours in order and of each colour's sizes
    in order, without the entries whose quantity is [<= 0], each with the
    colour's code and name (the empty string for a missing key); the
    reference at index [i] has the counter [i + 1] and the text
    ["{material_code}.{i + 1}"].  The colours are those the loop has left
    for the material code when it ends, the merged ones included; the
    lines are the rebuilt ones, with a barcode and without the
    description of the loop's lines.  During the loop a later occurrence
    of a material code (a merge) builds no references and leaves every
    list of references as it is. *)
Theorem reference_counters (rt : Runtime) (products : list product)
    (ctx : context_info) (out : list product) (s : pystr) (q : product) :
  _post_process_products rt products ctx = Some (out, s) ->
  In q out ->
  (forall i r,
     nth_error (references q) i = Some r ->
     ref_counter r = Z.of_nat i + 1
     /\ ref_reference r
        = Py.str_of_opt (material_code q) ++ u "."
          ++ Py.str_of_Z (Z.of_nat i + 1))
  /\ map line (references q) = expected_lines (colors q)
  /\ (exists st e,
        process rt initial_state products = Some st
        /\ In e (processed_products st)
        /\ material_code e = material_code q
        /\ expected_lines (colors q) = expected_lines (colors e))
  /\ Forall (fun r => ref_description r = None /\ ref_barcode r <> None)
            (references q)
  /\ (forall st p st',
        step rt st p = Some st' ->
        Py.mem (Py.str_of_opt (material_code p)) (seen_material_codes st)
        = true ->
        map references (processed_products st')
        = map references (processed_products st)).
Proof.
  intros E Iq.
  destruct (post_process_stages _ _ _ E) as (st & markup & P & _ & Hout & _).
  destruct (Hout q Iq) as (e & a & Ie & Fa & ->).
  split; [|split; [|split; [|split]]].
  - unfold final_form. clear Iq.
    generalize (finalize_product (ctx_brand ctx) s a). intros f.
    unfold add_barcodes_to_product. cbn [references colors material_code].
    set (mk := barcode_reference rt (material_code f) (brand f)).
    assert (C : forall c n sz, ref_counter (mk c n sz) = n) by reflexivity.
    assert (R : forall c n sz,
               ref_reference (mk c n sz)
               = reference_string (material_code f) n)
      by reflexivity.
    intros i r H.
    destruct (number_colors mk (colors f) 0) as [refs final] eqn:N.
    cbn [fst] in H.
    destruct (number_colors_counters mk C _ _ N) as [_ Hc].
    pose proof (number_colors_references mk (material_code f) C R
                  (colors f) 0) as Hr.
    rewrite N in Hr. cbn [fst] in Hr.
    rewrite Forall_forall in Hr.
    specialize (Hc i r H). split; [lia|].
    rewrite (Hr r (nth_error_In _ _ H)). rewrite Hc.
    unfold reference_string. replace (0 + Z.of_nat i + 1) with (Z.of_nat i + 1)
      by lia. reflexivity.
  - unfold final_form.
    generalize (finalize_product (ctx_brand ctx) s a). intros f.
    unfold add_barcodes_to_product. cbn [references colors material_code].
    set (mk := barcode_reference rt (material_code f) (brand f)).
    assert (L : forall c n sz,
               line (mk c n sz)
               = (key_get_default (color_code_key c),
                  key_get_default (color_name_key c), size sz, quantity sz))
      by reflexivity.
    apply (number_colors_lines mk L (colors f) 0).
  - exists st, e. split; [exact P|]. split; [exact Ie|]. split.
    + rewrite final_form_material_code.
      apply assign_product_fields in Fa. symmetry. tauto.
    + eapply final_form_lines. exact Fa.
  - unfold final_form, add_barcodes_to_product. cbn [references].
    apply number_colors_all. intros c n sz.
    split; [reflexivity | discriminate].
  - intros st0 p st' S M. eapply step_merge_keeps_references; eauto.
Qed.

(** The statement at a document whose second page repeats the material
    code with a new colour, 009: the output product has three
    references, the third for the colour merged from the second page. *)
Lemma reference_counters_witness :
  exists out s q,
    _post_process_products Sample.runtime [polo_product; polo_second_page]
      gant_context
    = Some (out, s)
    /\ In q out
    /\ map (fun r => (ref_counter r, ref_reference r, ref_size r))
           (references q)
       = [(1, u "M1.1", u "M"); (2, u "M1.2", u "XL"); (3, u "M1.3", u "S")]
    /\ map line (references q)
       = [(Some (u "008"), Some (u "Azul"), u "M", PInt 2);
          (Some (u "008"), Some (u "Azul"), u "XL", PInt 1);
          (Some (u "009"), Some (u ""), u "S", PInt 4)]
    /\ (forall i r,
          nth_error (references q) i = Some r ->
          ref_counter r = Z.of_nat i + 1
          /\ ref_reference r
             = Py.str_of_opt (material_code q) ++ u "."
               ++ Py.str_of_Z (Z.of_nat i + 1)).
Proof.
  do 3 eexists.
  split; [vm_compute; reflexivity|].
  split; [left; reflexivity|].
  split; [vm_compute; reflexivity|].
  split; [vm_compute; reflexivity|].
  eapply (@reference_counters Sample.runtime [polo_product; polo_second_page]
            gant_context).
  - vm_compute. reflexivity.
  - left. reflexivity.
Defined.

(** C3 as stated fails for the references of the output: the loop builds
    the references of "M1" when the material code is first seen, two
    lines, and not again when the second page is merged; but the output
    holds the list that [add_barcodes_to_products] builds again after the
    merges, with a third line for the colour 009 of the second page. *)
Lemma reference_counters_counterexample :
  option_map reference_lines
    (before_barcodes Sample.runtime [polo_product; polo_second_page]
       gant_context)
  = Some [[(1, u "M1.1", Some (u "008")); (2, u "M1.2", Some (u "008"))]]
  /\ option_map reference_lines
       (_post_process_products Sample.runtime
          [polo_product; polo_second_page] gant_context)
     = Some [[(1, u "M1.1", Some (u "008")); (2, u "M1.2", Some (u "008"));
              (3, u "M1.3", Some (u "009"))]].
Proof. vm_compute. split; reflexivity. Qed.

(** *** The supplier fields (claim C1) *)

(** After post-processing, the supplier of every product and of every
    colour is the one supplier determined for the document; the reference
    lines, rebuilt by the barcode stage, have no supplier key. *)
Lemma output_suppliers (rt : Runtime) (products : list product)
    (ctx : context_info) (out : list product) (s : pystr) (q : product) :
  _post_process_products rt products ctx = Some (out, s) ->
  In q out ->
  s = fst (fst (determine_best_supplier rt ctx))
  /\ supplier q = Some s
  /\ Forall (fun c => color_supplier c = Some (Some s)) (colors q)
  /\ Forall (fun r => ref_supplier r = None) (references q).
Proof.
  intros E Iq.
  destruct (post_process_stages _ _ _ E) as (st & markup & P & Hs & Hout & _).
  destruct (Hout q Iq) as (e & a & Ie & Fa & ->).
  split; [exact Hs|]. split; [|split].
  - unfold final_form, finalize_product.
    destruct (Py.truthy (ctx_brand ctx) && _); reflexivity.
  - rewrite final_form_colors. apply Forall_map_iff.
    apply Forall_forall. intros c _. reflexivity.
  - unfold final_form, add_barcodes_to_product. cbn [references].
    apply number_colors_all. reflexivity.
Qed.

(** The statement at the sample document: one product, supplier GANT. *)
Lemma output_suppliers_witness :
  exists out,
    _post_process_products Sample.runtime [polo_product] gant_context
    = Some (out, u "GANT")
    /\ out <> []
    /\ Forall (fun q =>
                 supplier q = Some (u "GANT")
                 /\ Forall (fun c => color_supplier c = Some (Some (u "GANT")))
                           (colors q)
                 /\ Forall (fun r => ref_supplier r = None) (references q))
              out.
Proof.
  destruct (_post_process_products Sample.runtime [polo_product] gant_context)
    as [[out s]|] eqn:E; [|vm_compute in E; discriminate E].
  assert (Es : s = u "GANT")
    by (vm_compute in E; inversion E; reflexivity).
  subst s. exists out. split; [reflexivity|]. split.
  - intros ->. vm_compute in E. discriminate E.
  - apply Forall_forall. intros q Iq.
    destruct (@output_suppliers _ _ _ _ _ q E Iq) as (_ & S & C & R).
    repeat split; assumption.
Defined.

(** C1 fails on the code.  For a document with one product (one colour,
    two positive sizes) and the supplier GANT: before the barcode stage
    the product, its colour and both references carry the supplier GANT;
    in the output the references, rebuilt by [add_barcodes_to_products],
    have no supplier. *)
Lemma references_lose_supplier :
  option_map supplier_fields
    (before_barcodes Sample.runtime [polo_product] gant_context)
  = Some [(Some (u "GANT"), [Some (Some (u "GANT"))],
           [Some (u "GANT"); Some (u "GANT")])]
  /\ option_map supplier_fields
       (_post_process_products Sample.runtime [polo_product] gant_context)
     = Some [(Some (u "GANT"), [Some (Some (u "GANT"))], [None; None])].
Proof. vm_compute. split; reflexivity. Qed.

(** *** Merging duplicates (claim C6) *)















(** *** The colours of a material code, with their sizes *)












End PostProcessFacts.

(** ** The post-processor's output as a whole *)

Module PipelineFacts.
Import ReferenceData SupplierUtils SupplierAssignment BarcodeGenerator.
Import Assign PostProcess PostProcessSpec PipelineSpec Examples.
Import PostProcessFacts.

(** *** Categories *)

Lemma normalize_category_catalogue (rt : Runtime) (c : option pystr) :
  In (normalize_category rt c) CATEGORIES.
Proof.
  unfold normalize_category.
  destruct (existsb _ [u "POLO"; u "POLOSHIRT"]).
  { apply py_mem_In. vm_compute. reflexivity. }
  destruct (existsb _ _).
  { apply py_mem_In. vm_compute. reflexivity. }
  destruct (find _ CATEGORIES) as [cat|] eqn:F.
  - pose proof (find_In _ _ F) as I.
    destruct (Py.truthy (Some cat)); [exact I|].
    apply py_mem_In. vm_compute. reflexivity.
  - apply py_mem_In. vm_compute. reflexivity.
Qed.

Lemma merge_first_categories (rt : Runtime) (m : pystr) (p : product)
    (l : list product) :
  map category (merge_first rt m p l) = map category l.
Proof.
  induction l as [|e l IH]; simpl; [reflexivity|].
  destruct (opt_eqb (material_code e) (Some m)); simpl;
    [reflexivity | rewrite IH; reflexivity].
Qed.

Lemma step_categories (rt : Runtime) (st st' : state) (p : product) :
  Forall has_catalogue_category (processed_products st) ->
  step rt st p = Some st' ->
  Forall has_catalogue_category (processed_products st').
Proof.
  intros F E. unfold step in E.
  destruct (Py.truthy (material_code p)); simpl in E;
    [|inversion E; subst; assumption].
  destruct (name p) as [nm|]; [|discriminate].
  destruct (has_valid_colors _); [|inversion E; subst; assumption].
  destruct (Py.mem _ (seen_material_codes st)).
  - inversion E; subst; clear E. simpl.
    unfold has_catalogue_category in *.
    apply (Forall_map_iff (fun c => exists c', c = Some c' /\ In c' CATEGORIES)
             category).
    rewrite merge_first_categories.
    apply (Forall_map_iff (fun c => exists c', c = Some c' /\ In c' CATEGORIES)
             category).
    assumption.
  - destruct (number_colors _ _ _) as [refs final].
    inversion E; subst; clear E. simpl.
    apply Forall_app. split; [assumption|].
    constructor; [|constructor].
    eexists. split; [reflexivity|]. apply normalize_category_catalogue.
Qed.

Lemma process_categories (rt : Runtime) (l : list product) (st st' : state) :
  Forall has_catalogue_category (processed_products st) ->
  process rt st l = Some st' ->
  Forall has_catalogue_category (processed_products st').
Proof.
  revert st; induction l as [|p l IH]; simpl; intros st F E.
  - inversion E; subst; assumption.
  - destruct (step rt st p) as [st1|] eqn:S; [|discriminate].
    eapply IH; [|exact E]. eapply step_categories; eauto.
Qed.

Lemma assign_product_category (rt : Runtime) (s : pystr) (m : option float)
    (p p' : product) :
  assign_product rt s m p = Some p' -> category p' = category p.
Proof.
  unfold assign_product. intros E.
  destruct (all_some _) as [cols|]; [|discriminate].
  inversion E; subst. reflexivity.
Qed.

Lemma final_form_category (rt : Runtime) (brand : option pystr)
    (s : pystr) (a : product) :
  category (final_form rt brand s a) = category a.
Proof.
  unfold final_form, finalize_product.
  destruct (Py.truthy brand && _); reflexivity.
Qed.

(** Every product the post-processor returns has a category of the
    catalogue list [CATEGORIES], whatever category (or none) the input
    product had. *)
Theorem output_categories (rt : Runtime) (products : list product)
    (ctx : context_info) (out : list product) (s : pystr) (q : product) :
  _post_process_products rt products ctx = Some (out, s) ->
  In q out ->
  exists c, category q = Some c /\ In c CATEGORIES.
Proof.
  intros E Iq.
  destruct (post_process_stages _ _ _ E) as (st & markup & P & _ & Hout & _).
  destruct (Hout q Iq) as (e & a & Ie & Fa & ->).
  rewrite final_form_category, (assign_product_category _ _ _ _ Fa).
  pose proof (@process_categories rt products initial_state st
                (Forall_nil _) P) as F.
  rewrite Forall_forall in F. apply F. assumption.
Qed.

Lemma output_categories_witness :
  exists out,
    _post_process_products Sample.runtime [polo_product] gant_context
    = Some (out, u "GANT")
    /\ map category out = [Some (u "POLOS")]
    /\ Forall (fun q => exists c, category q = Some c /\ In c CATEGORIES) out.
Proof.
  destruct (_post_process_products Sample.runtime [polo_product] gant_context)
    as [[out s]|] eqn:E; [|vm_compute in E; discriminate E].
  assert (Es : s = u "GANT" /\ map category out = [Some (u "POLOS")])
    by (vm_compute in E; inversion E; split; reflexivity).
  destruct Es as [-> Ec]. exists out. split; [reflexivity|].
  split; [exact Ec|].
  apply Forall_forall. intros q Iq.
  exact (@output_categories _ _ _ _ _ q E Iq).
Defined.

(** A category that is missing, [None] or empty is normalised to
    ["CAMISAS"], the first entry of the catalogue list (the empty string
    is contained in it), and not to the fallback ["ACESSÓRIOS"]. *)
Theorem missing_category_is_first_entry (rt : Runtime) (c : option pystr) :
  Py.truthy c = false ->
  normalize_category rt c = u "CAMISAS"
  /\ normalize_category rt c <> FALLBACK_CATEGORY.
Proof.
  intros T. unfold normalize_category. rewrite T.
  split; [vm_compute; reflexivity | vm_compute; discriminate].
Qed.

Lemma missing_category_is_first_entry_witness :
  normalize_category Sample.runtime None = u "CAMISAS"
  /\ normalize_category Sample.runtime (Some []) = u "CAMISAS".
Proof.
  split.
  - apply (@missing_category_is_first_entry Sample.runtime None). reflexivity.
  - apply (@missing_category_is_first_entry Sample.runtime (Some [])).
    reflexivity.
Defined.

(** *** One product for each material code *)

Lemma step_seen (rt : Runtime) (st st' : state) (p : product) :
  map material_code (processed_products st)
  = map Some (seen_material_codes st) ->
  NoDup (seen_material_codes st) ->
  step rt st p = Some st' ->
  map material_code (processed_products st')
  = map Some (seen_material_codes st')
  /\ NoDup (seen_material_codes st')
  /\ (forall m, In m (seen_material_codes st') <->
                In m (seen_material_codes st)
                \/ (contributes p = true /\ material_code p = Some m)).
Proof.
  intros M N E. unfold step in E. unfold contributes.
  destruct (Py.truthy (material_code p)) eqn:T; simpl in E.
  2:{ inversion E; subst. repeat split; auto.
      intros [H|[H _]]; [assumption | discriminate H]. }
  destruct (name p) as [nm|]; [|discriminate].
  change (has_valid_colors (set_name (Some (clean_name rt nm)) p))
    with (has_valid_colors p) in E.
  destruct (has_valid_colors p) eqn:V.
  2:{ inversion E; subst. repeat split; auto.
      intros [H|[H _]]; [assumption | discriminate H]. }
  destruct (material_code p) as [m0|] eqn:Mp; [|discriminate T].
  simpl in E.
  destruct (Py.mem m0 (seen_material_codes st)) eqn:Seen.
  - inversion E; subst; clear E. simpl.
    rewrite merge_first_material_codes. repeat split; auto.
    intros [H|[_ H]]; [assumption|].
    inversion H; subst. apply py_mem_In. assumption.
  - destruct (number_colors _ _ _) as [refs final].
    inversion E; subst; clear E. simpl.
    rewrite !map_app, M. simpl. rewrite Mp. repeat split.
    + apply NoDup_app_remove_l with (l := []).
      simpl. apply Permutation_NoDup with (l := m0 :: seen_material_codes st).
      * apply Permutation_cons_append.
      * constructor; [|assumption].
        intros I. apply py_mem_In in I. congruence.
    + intros I. apply in_app_or in I. destruct I as [I|[<-|[]]]; auto.
    + intros [I|[_ H]]; apply in_or_app; [now left|].
      inversion H; subst. right. now left.
Qed.

Lemma process_seen (rt : Runtime) (l done : list product) (st st' : state) :
  map material_code (processed_products st)
  = map Some (seen_material_codes st) ->
  NoDup (seen_material_codes st) ->
  (forall m, In m (seen_material_codes st) <->
             exists p, In p done /\ contributes p = true
                       /\ material_code p = Some m) ->
  process rt st l = Some st' ->
  map material_code (processed_products st')
  = map Some (seen_material_codes st')
  /\ NoDup (seen_material_codes st')
  /\ (forall m, In m (seen_material_codes st') <->
                exists p, In p (done ++ l) /\ contributes p = true
                          /\ material_code p = Some m).
Proof.
  revert done st; induction l as [|p l IH]; simpl; intros done st M N S E.
  - inversion E; subst. rewrite app_nil_r. auto.
  - destruct (step rt st p) as [st1|] eqn:St; [|discriminate].
    destruct (@step_seen _ _ _ _ M N St) as (M1 & N1 & S1).
    replace (done ++ p :: l) with ((done ++ [p]) ++ l)
      by (rewrite <- app_assoc; reflexivity).
    apply (IH (done ++ [p]) st1 M1 N1); [|exact E].
    intros m. rewrite S1, S. split.
    + intros [(q & Iq & Hq)|[C Mp]].
      * exists q. split; [apply in_or_app; now left | assumption].
      * exists p. split; [apply in_or_app; right; now left | auto].
    + intros (q & Iq & Hq). apply in_app_or in Iq.
      destruct Iq as [Iq|[<-|[]]]; [left; exists q; auto | right; assumption].
Qed.

Lemma insert_sorted_Permutation (p : product) (l : list product) :
  Permutation (insert_sorted p l) (p :: l).
Proof.
  induction l as [|a l IH]; simpl; [reflexivity|].
  destruct (Py.ltb (sort_key a) (sort_key p)); [|reflexivity].
  rewrite IH. apply perm_swap.
Qed.

Lemma sort_Permutation (l : list product) :
  Permutation (sort_by_material_code l) l.
Proof.
  unfold sort_by_material_code. induction l as [|a l IH]; simpl;
    [reflexivity|].
  rewrite insert_sorted_Permutation. constructor. assumption.
Qed.

Lemma NoDup_map_Some (A : Type) (l : list A) :
  NoDup l -> NoDup (map Some l).
Proof.
  induction 1 as [|x l Hx Hl IH]; simpl; constructor; [|assumption].
  intros I. apply in_map_iff in I. destruct I as (y & E & Iy).
  inversion E; subst. contradiction.
Qed.

(** The material codes of the output are those of the products the loop
    has collected, up to the order. *)
Lemma output_material_codes (rt : Runtime) (products : list product)
    (ctx : context_info) (out : list product) (s : pystr) :
  _post_process_products rt products ctx = Some (out, s) ->
  exists st,
    process rt initial_state products = Some st
    /\ Permutation (map material_code out)
                   (map material_code (processed_products st)).
Proof.
  unfold _post_process_products, before_barcodes.
  destruct (determine_best_supplier rt ctx) as [[s0 code] markup].
  destruct (process rt initial_state products) as [st|]; [|discriminate].
  unfold assign_supplier_to_products.
  destruct (all_some (map (assign_product rt s0 markup) (processed_products st)))
    as [assigned|] eqn:A; [|discriminate].
  intros E. inversion E; subst; clear E.
  exists st. split; [reflexivity|].
  unfold add_barcodes_to_products. rewrite map_map. simpl.
  rewrite (Permutation_map material_code (sort_Permutation _)).
  rewrite map_map.
  erewrite map_ext with (g := material_code).
  2:{ intros a. unfold finalize_product.
      destruct (Py.truthy (ctx_brand ctx) && _); reflexivity. }
  erewrite all_some_map_eq with (g := material_code); [reflexivity| |exact A].
  intros x y F. apply assign_product_fields in F. tauto.
Qed.

(** No two products of the output have the same material code. *)
Theorem output_material_codes_distinct (rt : Runtime)
    (products : list product) (ctx : context_info) (out : list product)
    (s : pystr) :
  _post_process_products rt products ctx = Some (out, s) ->
  NoDup (map material_code out).
Proof.
  intros E.
  destruct (output_material_codes _ _ _ E) as (st & P & Perm).
  apply Permutation_NoDup with (l := map material_code (processed_products st));
    [symmetry; assumption|].
  destruct (@process_seen rt products [] initial_state st eq_refl
              (NoDup_nil _)) as (M & N & _).
  - intros m. simpl. split; [intros [] | intros (p & [] & _)].
  - exact P.
  - rewrite M. apply NoDup_map_Some. assumption.
Qed.

(** The material codes of the output are exactly those of the input
    products that have a material code and a colour with sizes: no such
    product is lost, and no material code is invented. *)
Theorem output_material_codes_complete (rt : Runtime)
    (products : list product) (ctx : context_info) (out : list product)
    (s : pystr) (m : pystr) :
  _post_process_products rt products ctx = Some (out, s) ->
  (In (Some m) (map material_code out) <->
   exists p, In p products /\ contributes p = true
             /\ material_code p = Some m).
Proof.
  intros E.
  destruct (output_material_codes _ _ _ E) as (st & P & Perm).
  destruct (@process_seen rt products [] initial_state st eq_refl
              (NoDup_nil _)) as (M & _ & S).
  - intros m'. simpl. split; [intros [] | intros (p & [] & _)].
  - exact P.
  - simpl in S. rewrite <- S. rewrite M in Perm. split.
    + intros I. apply (Permutation_in _ Perm) in I.
      apply in_map_iff in I. destruct I as (x & Hx & Ix).
      inversion Hx; subst. assumption.
    + intros I. apply (Permutation_in _ (Permutation_sym Perm)).
      apply in_map. assumption.
Qed.

Lemma output_material_codes_distinct_witness :
  exists out,
    _post_process_products Sample.runtime [polo_product; polo_second_page]
      gant_context = Some (out, u "GANT")
    /\ map material_code out = [Some (u "M1")]
    /\ NoDup (map material_code out).
Proof.
  destruct (_post_process_products Sample.runtime
              [polo_product; polo_second_page] gant_context)
    as [[out s]|] eqn:E; [|vm_compute in E; discriminate E].
  assert (Es : s = u "GANT" /\ map material_code out = [Some (u "M1")])
    by (vm_compute in E; inversion E; split; reflexivity).
  destruct Es as [-> Ec]. exists out. split; [reflexivity|].
  split; [exact Ec|].
  exact (@output_material_codes_distinct _ _ _ _ _ E).
Defined.

Lemma output_material_codes_complete_witness :
  exists out,
    _post_process_products Sample.runtime [nameless_product; polo_product]
      gant_context = Some (out, u "GANT")
    /\ (In (Some (u "M1")) (map material_code out) <->
        exists p, In p [nameless_product; polo_product]
                  /\ contributes p = true /\ material_code p = Some (u "M1")).
Proof.
  destruct (_post_process_products Sample.runtime
              [nameless_product; polo_product] gant_context)
    as [[out s]|] eqn:E; [|vm_compute in E; discriminate E].
  assert (Es : s = u "GANT") by (vm_compute in E; inversion E; reflexivity).
  subst s. exists out. split; [reflexivity|].
  exact (@output_material_codes_complete _ _ _ _ _ (u "M1") E).
Defined.

(** *** The order of the output *)

Lemma py_ltb_irrefl (a : pystr) : Py.ltb a a = false.
Proof.
  induction a as [|x a IH]; simpl; [reflexivity|].
  rewrite N.ltb_irrefl, N.eqb_refl, IH. reflexivity.
Qed.

Lemma py_ltb_trans (a b c : pystr) :
  Py.ltb a b = true -> Py.ltb b c = true -> Py.ltb a c = true.
Proof.
  revert b c; induction a as [|x a IH]; intros [|y b] [|z c]; simpl;
    try discriminate; try reflexivity.
  rewrite !orb_true_iff, !andb_true_iff, !N.ltb_lt, !N.eqb_eq.
  intros [H1|[H1 L1]] [H2|[H2 L2]].
  - left. lia.
  - left. lia.
  - left. lia.
  - right. split; [lia|]. eapply IH; eauto.
Qed.

Lemma py_ltb_total (a b : pystr) :
  Py.ltb a b = false -> Py.ltb b a = false -> a = b.
Proof.
  revert b; induction a as [|x a IH]; intros [|y b]; simpl;
    try discriminate; try reflexivity.
  rewrite !orb_false_iff, !andb_false_iff, !N.ltb_ge, !N.eqb_neq.
  intros [H1 L1] [H2 L2].
  assert (x = y) by lia. subst y. f_equal.
  apply IH.
  - destruct L1 as [L1|L1]; [congruence | assumption].
  - destruct L2 as [L2|L2]; [congruence | assumption].
Qed.

Lemma key_le_trans (p q r : product) :
  key_le p q -> key_le q r -> key_le p r.
Proof.
  unfold key_le. intros H1 H2.
  destruct (Py.ltb (sort_key r) (sort_key p)) eqn:L; [|reflexivity].
  destruct (Py.ltb (sort_key p) (sort_key q)) eqn:L'.
  - rewrite (py_ltb_trans _ _ _ L L') in H2. discriminate.
  - rewrite (py_ltb_total _ _ L' H1) in L. congruence.
Qed.

Lemma insert_sorted_Sorted (p : product) (l : list product) :
  Sorted key_le l -> Sorted key_le (insert_sorted p l).
Proof.
  induction 1 as [|a l Hl IH Ha]; simpl.
  - repeat constructor.
  - destruct (Py.ltb (sort_key a) (sort_key p)) eqn:L.
    + constructor; [assumption|].
      destruct l as [|b l]; simpl.
      * constructor. unfold key_le.
        destruct (Py.ltb (sort_key p) (sort_key a)) eqn:L'; [|reflexivity].
        pose proof (py_ltb_trans _ _ _ L L') as C.
        rewrite py_ltb_irrefl in C. discriminate.
      * destruct (Py.ltb (sort_key b) (sort_key p)).
        -- constructor. inversion Ha; subst. assumption.
        -- constructor. unfold key_le.
           destruct (Py.ltb (sort_key p) (sort_key a)) eqn:L'; [|reflexivity].
           pose proof (py_ltb_trans _ _ _ L L') as C.
           rewrite py_ltb_irrefl in C. discriminate.
    + constructor; [constructor; assumption|].
      constructor. exact L.
Qed.

Lemma sort_Sorted (l : list product) :
  StronglySorted key_le (sort_by_material_code l).
Proof.
  apply Sorted_StronglySorted.
  - intros p q r. apply key_le_trans.
  - unfold sort_by_material_code.
    induction l as [|a l IH]; simpl; [constructor|].
    apply insert_sorted_Sorted. assumption.
Qed.

Lemma StronglySorted_map_key (f : product -> product) (l : list product) :
  (forall p, sort_key (f p) = sort_key p) ->
  StronglySorted key_le l -> StronglySorted key_le (map f l).
Proof.
  intros K. induction 1 as [|a l Hl IH Ha]; simpl; constructor;
    [assumption|].
  apply Forall_map_iff. unfold key_le in *. rewrite K.
  eapply Forall_impl; [|exact Ha]. intros b Hb. simpl in Hb.
  rewrite K. assumption.
Qed.

(** The output is sorted by material code: no product comes after a
    product whose material code is greater in the order of Python
    strings. *)
Theorem output_sorted (rt : Runtime) (products : list product)
    (ctx : context_info) (out : list product) (s : pystr) :
  _post_process_products rt products ctx = Some (out, s) ->
  StronglySorted key_le out.
Proof.
  unfold _post_process_products, before_barcodes.
  destruct (determine_best_supplier rt ctx) as [[s0 code] markup].
  destruct (process rt initial_state products) as [st|]; [|discriminate].
  destruct (assign_supplier_to_products _ _ _ _) as [assigned|];
    [|discriminate].
  intros E. inversion E; subst; clear E.
  unfold add_barcodes_to_products.
  apply StronglySorted_map_key; [reflexivity|]. apply sort_Sorted.
Qed.

Lemma output_sorted_witness :
  exists out,
    _post_process_products Sample.runtime [polo_product; shirt_product]
      gant_context = Some (out, u "GANT")
    /\ map material_code out = [Some (u "A7"); Some (u "M1")]
    /\ StronglySorted key_le out.
Proof.
  destruct (_post_process_products Sample.runtime
              [polo_product; shirt_product] gant_context)
    as [[out s]|] eqn:E; [|vm_compute in E; discriminate E].
  assert (Es : s = u "GANT"
               /\ map material_code out = [Some (u "A7"); Some (u "M1")])
    by (vm_compute in E; inversion E; split; reflexivity).
  destruct Es as [-> Ec]. exists out. split; [reflexivity|].
  split; [exact Ec|].
  exact (@output_sorted _ _ _ _ _ E).
Defined.

(** *** The markup of the document *)

Lemma catalogue_markups_positive :
  forallb (fun kv => match marcacao (snd kv) with
                     | Some m => PrimFloat.ltb 0 m
                     | None => true
                     end) SUPPLIER_DATA = true.
Proof. vm_compute. reflexivity. Qed.

Lemma get_markup_positive (code : pystr) (m : float) :
  get_markup code = Some m -> PrimFloat.ltb 0 m = true.
Proof.
  unfold get_markup.
  destruct (Dict.get _ SUPPLIER_DATA) as [e|] eqn:G; [|discriminate].
  intros M. apply dict_get_In in G.
  pose proof catalogue_markups_positive as P.
  rewrite forallb_forall in P. specialize (P _ G). simpl in P.
  rewrite M in P. exact P.
Qed.

(** [determine_best_supplier] returns the markup [None] exactly when the
    context gives no candidate (then with the placeholder supplier and
    no code); with a candidate the markup is a positive number: the
    catalogue markup of the returned supplier code, or 2.73. *)
Theorem determined_markup (rt : Runtime) (ctx : context_info) :
  (candidates ctx = [] ->
   determine_best_supplier rt ctx = (UNIDENTIFIED_SUPPLIER, None, None))
  /\ (candidates ctx <> [] ->
      exists m,
        snd (determine_best_supplier rt ctx) = Some m
        /\ PrimFloat.ltb 0 m = true
        /\ (m = DEFAULT_MARKUP
            \/ exists code,
                 snd (fst (determine_best_supplier rt ctx)) = Some code
                 /\ get_markup code = Some m)).
Proof.
  unfold determine_best_supplier. split.
  - intros ->. reflexivity.
  - destruct (candidates ctx) as [|first rest]; [congruence|]. intros _.
    set (b := fold_left (evaluate rt) (first :: rest) _).
    destruct (Py.truthy (best_match b)).
    + destruct (best_supplier_code b) as [code|].
      * destruct (Py.truthy (Some code)).
        -- destruct (get_markup code) as [m|] eqn:G.
           ++ destruct (PrimFloat.eqb m 0) eqn:Z.
              ** exists DEFAULT_MARKUP. simpl.
                 split; [reflexivity|]. split; [reflexivity | now left].
              ** exists m. simpl. split; [reflexivity|].
                 split; [exact (get_markup_positive _ G)|].
                 right. exists code. auto.
           ++ exists DEFAULT_MARKUP. simpl.
              split; [reflexivity|]. split; [reflexivity | now left].
        -- exists DEFAULT_MARKUP. simpl.
           split; [reflexivity|]. split; [reflexivity | now left].
      * exists DEFAULT_MARKUP. simpl.
        split; [reflexivity|]. split; [reflexivity | now left].
    + exists DEFAULT_MARKUP. simpl.
      split; [reflexivity|]. split; [reflexivity | now left].
Qed.

Lemma all_some_None (A B : Type) (f : A -> option B) (l : list A) (x : A) :
  In x l -> f x = None -> all_some (map f l) = None.
Proof.
  induction l as [|a l IH]; simpl; intros I N; [destruct I|].
  destruct I as [->|I].
  - rewrite N. reflexivity.
  - destruct (f a); [|reflexivity]. rewrite (IH I N). reflexivity.
Qed.

(** With no candidate in the context the markup is [None], and the
    post-processor raises as soon as one of the collected products has a
    colour with a unit price and no sales price: the sales price would be
    [unit_price * None]. *)
Theorem no_candidate_no_sales_price (rt : Runtime) (products : list product)
    (ctx : context_info) (st : state) (p : product) (c : color) :
  candidates ctx = [] ->
  process rt initial_state products = Some st ->
  In p (processed_products st) ->
  In c (colors p) ->
  needs_sales_price c = true ->
  _post_process_products rt products ctx = None.
Proof.
  intros C P Ip Ic N.
  unfold _post_process_products, before_barcodes, determine_best_supplier.
  rewrite C, P. unfold assign_supplier_to_products.
  rewrite (@all_some_None _ _ _ _ p Ip); [reflexivity|].
  unfold assign_product.
  rewrite (@all_some_None _ _ _ _ c Ic); [reflexivity|].
  unfold assign_color, needs_sales_price in *. simpl.
  rewrite N. destruct (unit_price c); reflexivity.
Qed.

Lemma no_candidate_no_sales_price_witness :
  candidates image_context = []
  /\ _post_process_products Sample.runtime [polo_product] image_context
     = None.
Proof.
  split; [reflexivity|].
  destruct (process Sample.runtime initial_state [polo_product])
    as [st|] eqn:P; [|vm_compute in P; discriminate P].
  assert (Es : exists p c, In p (processed_products st) /\ In c (colors p)
                           /\ needs_sales_price c = true).
  { vm_compute in P. inversion P; subst; clear P.
    eexists. eexists. split; [left; reflexivity|].
    split; [left; reflexivity|]. vm_compute. reflexivity. }
  destruct Es as (p & c & Ip & Ic & N).
  exact (@no_candidate_no_sales_price Sample.runtime [polo_product]
           image_context st p c eq_refl P Ip Ic N).
Defined.

End PipelineFacts.

(** ** Barcodes inside one product *)

Module BarcodeReadingFacts.
Import ReferenceData SupplierUtils BarcodeGenerator BarcodeSpec.
Import PostProcess BarcodeReading Examples.
Import BarcodeFacts PostProcessFacts.

Lemma counters_read_back : forallb reads_back (seq 0 900) = true.
Proof. vm_compute. reflexivity. Qed.

Lemma decimal_value_str_of_Z (z : Z) :
  100 <= z <= 999 -> decimal_value (Py.str_of_Z z) = z.
Proof.
  intros H. pose proof counters_read_back as A.
  rewrite forallb_forall in A.
  specialize (A (Z.to_nat (z - 100))). unfold reads_back in A.
  replace (100 + Z.of_nat (Z.to_nat (z - 100))) with z in A by lia.
  apply Z.eqb_eq. apply A. apply in_seq. lia.
Qed.

Lemma segment_4_7 (A : Type) (a b c : list A) :
  List.length a = 4%nat -> List.length b = 3%nat ->
  firstn 3 (skipn 4 (a ++ b ++ c)) = b.
Proof.
  intros La Lb.
  do 5 (destruct a as [|? a]; try discriminate La).
  do 4 (destruct b as [|? b]; try discriminate Lb).
  reflexivity.
Qed.

Lemma counter_segment_of_barcode (rt : Runtime) (supplier : option pystr)
    (n : Z) (color_code : option pystr) (size season_code : pystr) :
  0 <= n -> List.length season_code = 2%nat ->
  counter_segment
    (generate_barcode rt supplier (CounterInt n) color_code size season_code)
  = Py.str_of_Z (100 + Z.min n 899).
Proof.
  intros Hn Ls. rewrite generate_barcode_segments.
  destruct (supplier_segment_digits rt supplier) as [L2 _].
  assert (D : digits 3 (Py.str_of_Z (100 + Z.min n 899)))
    by (apply str_of_Z_3_digits; lia).
  rewrite (zfill_exact D). destruct D as [L3 _].
  unfold counter_segment. rewrite app_assoc.
  apply segment_4_7; [|assumption].
  rewrite length_app, Ls, L2. reflexivity.
Qed.

Lemma barcode_counter_value (rt : Runtime) (supplier : option pystr)
    (n : Z) (color_code : option pystr) (size season_code : pystr) :
  0 <= n -> List.length season_code = 2%nat ->
  decimal_value
    (counter_segment
       (generate_barcode rt supplier (CounterInt n) color_code size
          season_code))
  = 100 + Z.min n 899.
Proof.
  intros Hn Ls. rewrite counter_segment_of_barcode by assumption.
  apply decimal_value_str_of_Z. lia.
Qed.

(** The counter can be read back from a barcode: for a counter that is
    not negative and a season code of two characters, the characters 4
    to 6 of the barcode are the decimal digits of [100 + counter], up to
    the counter 899; from 899 on they are 999. *)
Theorem barcode_counter_read_back (rt : Runtime) (supplier : option pystr)
    (n : Z) (color_code : option pystr) (size season_code : pystr) :
  0 <= n -> List.length season_code = 2%nat ->
  decimal_value
    (counter_segment
       (generate_barcode rt supplier (CounterInt n) color_code size
          season_code))
  = 100 + Z.min n 899.
Proof.
  intros Hn Ls. apply barcode_counter_value; assumption.
Qed.

Lemma barcode_counter_read_back_witness :
  generate_barcode Sample.runtime (Some (u "GANT")) (CounterInt 7)
    (Some (u "008")) (u "M") (u "00") = u "0001107008003"
  /\ decimal_value
       (counter_segment
          (generate_barcode Sample.runtime (Some (u "GANT")) (CounterInt 7)
             (Some (u "008")) (u "M") (u "00"))) = 107.
Proof.
  split; [vm_compute; reflexivity|].
  apply (@barcode_counter_read_back Sample.runtime (Some (u "GANT")) 7
           (Some (u "008")) (u "M") (u "00")); [lia | reflexivity].
Defined.

Lemma barcode_reference_form (rt : Runtime) (mc brand : option pystr)
    (c : color) (n : Z) (s : size_info) :
  exists supplier,
    ref_barcode (barcode_reference rt mc brand c n s)
    = Some (generate_barcode rt supplier
              (CounterInt (ref_counter (barcode_reference rt mc brand c n s)))
              (ref_color_code (barcode_reference rt mc brand c n s))
              (ref_size (barcode_reference rt mc brand c n s)) (u "00")).
Proof. eexists. reflexivity. Qed.

(** The barcodes of the reference lines [add_barcodes_to_products] gives
    one product are pairwise different, as long as the product has at
    most 899 lines. *)
Theorem product_barcodes_distinct (rt : Runtime) (p : product) :
  (List.length (references (add_barcodes_to_product rt p)) <= 899)%nat ->
  NoDup (map ref_barcode (references (add_barcodes_to_product rt p))).
Proof.
  unfold add_barcodes_to_product. cbn [references].
  destruct (number_colors (barcode_reference rt (material_code p) (brand p))
              (colors p) 0) as [refs final] eqn:E.
  cbn [fst]. intros L.
  destruct (@number_colors_counters
              (barcode_reference rt (material_code p) (brand p))
              (fun c n s => eq_refl) _ _ _ _ E) as [_ Cn].
  pose proof (@number_colors_all
                (fun r => exists supplier,
                     ref_barcode r
                     = Some (generate_barcode rt supplier
                               (CounterInt (ref_counter r)) (ref_color_code r)
                               (ref_size r) (u "00")))
                (barcode_reference rt (material_code p) (brand p))
                (colors p) 0
                (barcode_reference_form rt (material_code p) (brand p))) as F.
  rewrite E in F. cbn [fst] in F. rewrite Forall_forall in F.
  apply NoDup_nth_error. intros i j Li Eij.
  rewrite length_map in Li. rewrite !nth_error_map in Eij.
  destruct (nth_error refs i) as [ri|] eqn:Ni;
    [|apply nth_error_None in Ni; lia].
  destruct (nth_error refs j) as [rj|] eqn:Nj; [|discriminate Eij].
  simpl in Eij. inversion Eij as [B]; clear Eij.
  assert (Lj : (j < List.length refs)%nat)
    by (apply nth_error_Some; congruence).
  destruct (F ri (nth_error_In _ _ Ni)) as (si & Bi).
  destruct (F rj (nth_error_In _ _ Nj)) as (sj & Bj).
  rewrite Bi, Bj in B. inversion B as [B']; clear B.
  apply (f_equal (fun b => decimal_value (counter_segment b))) in B'.
  rewrite (Cn _ _ Ni), (Cn _ _ Nj) in B'.
  rewrite !barcode_counter_value in B' by (try lia; reflexivity).
  lia.
Qed.

Lemma product_barcodes_distinct_witness :
  map ref_barcode (references (add_barcodes_to_product Sample.runtime
                                 polo_product))
  = [Some (u "0000101008003"); Some (u "0000102008005")]
  /\ NoDup (map ref_barcode
              (references (add_barcodes_to_product Sample.runtime
                             polo_product))).
Proof.
  split; [vm_compute; reflexivity|].
  apply (@product_barcodes_distinct Sample.runtime polo_product).
  apply Nat.leb_le. vm_compute. reflexivity.
Defined.

End BarcodeReadingFacts.

(** ** What the page cleaner leaves *)

Module CleanerCascade.
Import Cleaner CleanerSpec.

Lemma get_set_same (V : Type) (k : pystr) (v : V) (d : list (pystr * V)) :
  Dict.get k (Dict.set k v d) = Some v.
Proof.
  induction d as [|[k0 v0] d IH]; simpl.
  - rewrite py_eqb_refl. reflexivity.
  - destruct (Py.eqb k k0) eqn:E; simpl.
    + rewrite py_eqb_refl. reflexivity.
    + rewrite E. assumption.
Qed.

Lemma get_set_other (V : Type) (k k' : pystr) (v : V)
    (d : list (pystr * V)) :
  Py.eqb k k' = false -> Dict.get k (Dict.set k' v d) = Dict.get k d.
Proof.
  intros N. induction d as [|[k0 v0] d IH]; simpl.
  - rewrite N. reflexivity.
  - destruct (Py.eqb k' k0) eqn:E; simpl.
    + rewrite N. apply py_eqb_eq in E. subst k0. rewrite N. reflexivity.
    + rewrite IH. reflexivity.
Qed.

Lemma has_key_set_default (k k' : pystr) (v : pyval)
    (d : list (pystr * pyval)) :
  has_key k (set_default k' v d) = has_key k d || Py.eqb k k'.
Proof.
  unfold set_default.
  destruct (Py.eqb k k') eqn:E.
  - apply py_eqb_eq in E. subst k'.
    destruct (has_key k d) eqn:H; [rewrite H; reflexivity|].
    unfold has_key. rewrite get_set_same. reflexivity.
  - rewrite orb_false_r.
    destruct (has_key k' d); [reflexivity|].
    unfold has_key. rewrite get_set_other by assumption. reflexivity.
Qed.

Lemma get_set_default_other (k k' : pystr) (v : pyval)
    (d : list (pystr * pyval)) :
  Py.eqb k k' = false -> Dict.get k (set_default k' v d) = Dict.get k d.
Proof.
  intros N. unfold set_default.
  destruct (has_key k' d); [reflexivity|]. now apply get_set_other.
Qed.

(** A float for which [q <= 0] is false and that is a whole number is a
    positive whole number. *)
Lemma positive_integral (q : float) (z : Z) :
  PrimFloat.leb q 0 = false -> Num.integral_value q = Some z -> 0 < z.
Proof.
  rewrite leb_spec. unfold Num.integral_value, SFleb, SFcompare.
  change (Prim2SF 0) with (S754_zero false).
  destruct (Prim2SF q) as [s| | |s m e]; try discriminate.
  destruct s; [discriminate|]. intros _.
  destruct (0 <=? e) eqn:Pe.
  - assert (H : 0 < Z.pos m * 2 ^ e).
    { apply Z.leb_le in Pe. apply Z.mul_pos_pos; [lia|].
      apply Z.pow_pos_nonneg; lia. }
    cbn [option_map]. intros [= <-]. exact H.
  - destruct (Z.pos m mod 2 ^ (- e) =? 0) eqn:Md; cbn [option_map];
      [|discriminate].
    assert (H : 0 < Z.pos m / 2 ^ (- e)).
    { apply Z.eqb_eq in Md. apply Z.leb_gt in Pe.
      assert (P : 0 < 2 ^ (- e)) by (apply Z.pow_pos_nonneg; lia).
      pose proof (Z.div_mod (Z.pos m) (2 ^ (- e))) as D.
      rewrite Md in D. nia. }
    intros [= <-]. exact H.
Qed.

Lemma clean_size_keeps (rt : Runtime) (size kept : pyval) :
  clean_size rt size = Kept kept -> kept_size kept = true.
Proof.
  unfold clean_size.
  destruct size as [ | | | | | d | | | ]; try discriminate.
  destruct (has_key (u "size") d) eqn:Hs; cbn [negb orb]; [|discriminate].
  destruct (has_key (u "quantity") d); cbn [negb]; [|discriminate].
  destruct (Dict.get (u "quantity") d) as [v|]; [|discriminate].
  destruct (to_float rt v) as [q| |]; try discriminate.
  destruct (PrimFloat.leb q 0) eqn:Hle; [discriminate|].
  intros E. inversion E; subst; clear E. unfold kept_size.
  unfold has_key. rewrite get_set_other by reflexivity.
  fold (has_key (u "size") d). rewrite Hs, get_set_same.
  destruct (Num.integral_value q) as [z|] eqn:I; simpl.
  - apply Z.ltb_lt. eapply positive_integral; eauto.
  - rewrite Hle, I. reflexivity.
Qed.

Lemma clean_sizes_keep (rt : Runtime) (sizes out : list pyval) :
  clean_sizes rt sizes = Some out -> forallb kept_size out = true.
Proof.
  revert out; induction sizes as [|s sizes IH]; simpl; intros out E.
  - inversion E. reflexivity.
  - destruct (clean_size rt s) as [s'| |] eqn:C; [| auto | discriminate].
    destruct (clean_sizes rt sizes) as [out'|]; [|discriminate].
    inversion E; subst; clear E. simpl.
    rewrite (@clean_size_keeps rt _ _ C), (IH _ eq_refl). reflexivity.
Qed.

Lemma clean_color_keeps (rt : Runtime) (color kept : pyval) :
  clean_color rt color = Some (Some kept) -> kept_color kept = true.
Proof.
  unfold clean_color.
  destruct color as [ | | | | | d | | | ]; try discriminate.
  set (d1 := set_default (u "color_code") VNone d).
  set (d2 := set_default (u "sizes") (VList []) d1).
  destruct (Dict.get (u "sizes") d2) as [[ | | | | | |sizes| | ]|];
    try discriminate.
  destruct (clean_sizes rt sizes) as [[|s clean]|] eqn:C; try discriminate.
  intros E. inversion E; subst; clear E. unfold kept_color.
  unfold has_key. rewrite get_set_other by reflexivity.
  fold (has_key (u "color_code") d2). subst d2 d1.
  rewrite !has_key_set_default, get_set_same.
  rewrite orb_true_r. apply (@clean_sizes_keep rt _ _ C).
Qed.

Lemma clean_colors_keep (rt : Runtime) (colors out : list pyval) :
  clean_colors rt colors = Some out -> forallb kept_color out = true.
Proof.
  revert out; induction colors as [|c colors IH]; simpl; intros out E.
  - inversion E. reflexivity.
  - destruct (clean_color rt c) as [[c'|]|] eqn:C; [| auto | discriminate].
    destruct (clean_colors rt colors) as [out'|]; [|discriminate].
    inversion E; subst; clear E. simpl.
    rewrite (@clean_color_keeps rt _ _ C), (IH _ eq_refl). reflexivity.
Qed.

(** Coercing one price touches that key only, and leaves a float or
    [None] in it. *)
Lemma coerce_field_spec (rt : Runtime) (field : pystr)
    (d d' : list (pystr * pyval)) :
  coerce_field rt field d = Some d' ->
  float_or_none field d' = true
  /\ forall k, Py.eqb k field = false -> Dict.get k d' = Dict.get k d.
Proof.
  unfold coerce_field, float_or_none.
  destruct (Dict.get field d) as [v|] eqn:G.
  2:{ intros E. inversion E; subst. rewrite G. auto. }
  assert (S : forall w, (w = VNone \/ exists f, w = VFloat f) ->
              match Dict.get field (Dict.set field w d) with
              | None | Some VNone | Some (VFloat _) => true
              | Some _ => false
              end = true
              /\ forall k, Py.eqb k field = false ->
                   Dict.get k (Dict.set field w d) = Dict.get k d).
  { intros w Hw. rewrite get_set_same. split.
    - destruct Hw as [->|[f ->]]; reflexivity.
    - intros k N. now apply get_set_other. }
  destruct v; try (intros E; inversion E; subst; rewrite G; auto; fail);
    simpl; intros E;
    repeat match type of E with
           | context [match ?x with _ => _ end] => destruct x
           end;
    inversion E; subst; apply S; eauto.
Qed.

Lemma coerce_prices_spec (rt : Runtime) (color color' : pyval) :
  kept_color color = true ->
  coerce_prices rt color = Some color' ->
  kept_color color' = true /\ priced_color color' = true.
Proof.
  unfold coerce_prices.
  destruct color as [ | | | | | d | | | ]; try discriminate.
  intros K.
  destruct (coerce_field rt (u "unit_price") d) as [d1|] eqn:C1;
    [|discriminate].
  destruct (coerce_field rt (u "sales_price") d1) as [d2|] eqn:C2;
    [|discriminate].
  destruct (coerce_field rt (u "subtotal") d2) as [d3|] eqn:C3;
    [|discriminate].
  simpl. intros E. inversion E; subst; clear E.
  destruct (@coerce_field_spec rt _ _ _ C1) as [F1 O1].
  destruct (@coerce_field_spec rt _ _ _ C2) as [F2 O2].
  destruct (@coerce_field_spec rt _ _ _ C3) as [F3 O3].
  split.
  - unfold kept_color, has_key in *.
    rewrite !O3, !O2, !O1 by reflexivity. exact K.
  - unfold priced_color, float_or_none in *.
    rewrite F3. rewrite (O3 (u "sales_price")) by reflexivity. rewrite F2.
    rewrite (O3 (u "unit_price")), (O2 (u "unit_price")) by reflexivity.
    rewrite F1. reflexivity.
Qed.

Lemma coerce_all_spec (rt : Runtime) (colors out : list pyval) :
  forallb kept_color colors = true ->
  coerce_all rt colors = Some out ->
  forallb kept_color out = true /\ forallb priced_color out = true
  /\ (colors <> [] -> out <> []).
Proof.
  revert out; induction colors as [|c colors IH]; simpl; intros out K E.
  - inversion E. auto.
  - apply andb_true_iff in K. destruct K as [Kc K].
    destruct (coerce_prices rt c) as [c'|] eqn:C; [|discriminate].
    destruct (coerce_all rt colors) as [out'|]; [|discriminate].
    inversion E; subst; clear E. simpl.
    destruct (@coerce_prices_spec rt _ _ Kc C) as [K1 P1].
    destruct (IH _ K eq_refl) as (K2 & P2 & _).
    rewrite K1, K2, P1, P2. repeat split. discriminate.
Qed.

Lemma clean_total_price_spec (rt : Runtime) (d d' : list (pystr * pyval))
    (colors : list pyval) :
  clean_total_price rt d colors = Some d' ->
  has_key (u "total_price") d' = true
  /\ float_or_none (u "total_price") d' = true
  /\ forall k, Py.eqb k (u "total_price") = false ->
               Dict.get k d' = Dict.get k d.
Proof.
  assert (S : forall w, (w = VNone \/ exists f, w = VFloat f) ->
              has_key (u "total_price") (Dict.set (u "total_price") w d) = true
              /\ float_or_none (u "total_price")
                   (Dict.set (u "total_price") w d) = true
              /\ forall k, Py.eqb k (u "total_price") = false ->
                   Dict.get k (Dict.set (u "total_price") w d) = Dict.get k d).
  { intros w Hw. unfold has_key, float_or_none. rewrite get_set_same.
    split; [reflexivity|]. split.
    - destruct Hw as [->|[f ->]]; reflexivity.
    - intros k N. now apply get_set_other. }
  unfold clean_total_price. intros E.
  repeat match type of E with
         | context [match ?x with _ => _ end] => destruct x
         end;
    inversion E; subst; apply S; eauto.
Qed.

Lemma clean_product_spec (rt : Runtime) (product kept : pyval) :
  clean_product rt product = Some (Some kept) ->
  kept_product kept = true /\ priced_product kept = true.
Proof.
  unfold clean_product.
  destruct product as [ | | | | | d | | | ]; try discriminate.
  set (d1 := set_default (u "name") VNone d).
  set (d2 := set_default (u "material_code") VNone d1).
  set (d3 := set_default (u "colors") (VList []) d2).
  destruct (Dict.get (u "colors") d3) as [[ | | | | | |colors| | ]|];
    try discriminate.
  destruct (clean_colors rt colors) as [[|c clean]|] eqn:C; try discriminate.
  destruct (coerce_all rt (c :: clean)) as [priced|] eqn:P; [|discriminate].
  destruct (clean_total_price rt _ priced) as [d'|] eqn:T; [|discriminate].
  simpl. intros E. inversion E; subst; clear E.
  destruct (@coerce_all_spec rt _ _ (@clean_colors_keep rt _ _ C) P)
    as (K & Pr & NE).
  destruct (@clean_total_price_spec rt _ _ _ T) as (HT & FT & O).
  assert (G : Dict.get (u "colors") d' = Some (VList priced)).
  { rewrite O by reflexivity. apply get_set_same. }
  split.
  - unfold kept_product. rewrite G.
    unfold has_key. rewrite !O by reflexivity.
    rewrite !get_set_other by reflexivity.
    fold (has_key (u "name") d3) (has_key (u "material_code") d3).
    subst d3 d2 d1. rewrite !has_key_set_default.
    change (Py.eqb (u "name") (u "name")) with true.
    change (Py.eqb (u "material_code") (u "material_code")) with true.
    rewrite !orb_true_r. simpl.
    destruct priced as [|c' priced]; [exfalso; apply NE; congruence|].
    exact K.
  - unfold priced_product. rewrite G, HT, FT, Pr. reflexivity.
Qed.

Lemma clean_products_spec (rt : Runtime) (products out : list pyval) :
  clean_products rt products = Some out ->
  forallb kept_product out = true /\ forallb priced_product out = true.
Proof.
  revert out; induction products as [|p products IH]; simpl; intros out E.
  - inversion E. auto.
  - destruct (clean_product rt p) as [[p'|]|] eqn:C; [| auto | discriminate].
    destruct (clean_products rt products) as [out'|]; [|discriminate].
    inversion E; subst; clear E. simpl.
    destruct (@clean_product_spec rt _ _ C) as [K P].
    destruct (IH _ eq_refl) as [K' P'].
    rewrite K, K', P, P'. auto.
Qed.

(** The drop cascade of the cleaner: every product it returns is an
    object with the keys [name] and [material_code] and a list of
    colours that is not empty; every such colour has the key
    [color_code] and a list of sizes that is not empty; every such size
    has the key [size] and a quantity that is a positive [int], or a
    float that is no whole number and for which [q <= 0] is false. *)
Theorem cleaner_cascade (rt : Runtime) (products out : list pyval) :
  clean_products rt products = Some out ->
  forallb kept_product out = true.
Proof. intros E. apply (@clean_products_spec rt _ _ E). Qed.

Lemma cleaner_cascade_witness :
  exists out,
    clean_products Sample.runtime sample_page = Some out
    /\ List.length out = 1%nat
    /\ forallb kept_product out = true.
Proof.
  destruct (clean_products Sample.runtime sample_page) as [out|] eqn:E;
    [|vm_compute in E; discriminate E].
  exists out. split; [reflexivity|]. split.
  - vm_compute in E. inversion E. reflexivity.
  - exact (@cleaner_cascade _ _ _ E).
Defined.

(** In every product the cleaner returns, [unit_price], [sales_price]
    and [subtotal] of every colour are missing, [None] or a float, and
    [total_price] is present and is [None] or a float. *)
Theorem cleaner_prices (rt : Runtime) (products out : list pyval) :
  clean_products rt products = Some out ->
  forallb priced_product out = true.
Proof. intros E. apply (@clean_products_spec rt _ _ E). Qed.

Lemma cleaner_prices_witness :
  clean_products Sample.runtime sample_page
  = Some [ VDict [ (u "material_code", VStr (u "M2"));
                   (u "colors",
                    VList [ VDict [ (u "unit_price", VFloat 12);
                                    (u "sales_price", VNone);
                                    (u "sizes",
                                     VList [ VDict [ (u "size", VStr (u "L"));
                                                     (u "quantity", VInt 3) ]
                                           ]);
                                    (u "color_code", VNone) ] ]);
                   (u "name", VNone);
                   (u "total_price", VNone) ] ]
  /\ forallb priced_product
       [ VDict [ (u "material_code", VStr (u "M2"));
                 (u "colors",
                  VList [ VDict [ (u "unit_price", VFloat 12);
                                  (u "sales_price", VNone);
                                  (u "sizes",
                                   VList [ VDict [ (u "size", VStr (u "L"));
                                                   (u "quantity", VInt 3) ]
                                         ]);
                                  (u "color_code", VNone) ] ]);
                 (u "name", VNone);
                 (u "total_price", VNone) ] ] = true.
Proof.
  assert (E : clean_products Sample.runtime sample_page
              = Some [ VDict [ (u "material_code", VStr (u "M2"));
                   (u "colors",
                    VList [ VDict [ (u "unit_price", VFloat 12);
                                    (u "sales_price", VNone);
                                    (u "sizes",
                                     VList [ VDict [ (u "size", VStr (u "L"));
                                                     (u "quantity", VInt 3) ]
                                           ]);
                                    (u "color_code", VNone) ] ]);
                   (u "name", VNone);
                   (u "total_price", VNone) ] ])
    by (vm_compute; reflexivity).
  split; [exact E|]. exact (@cleaner_prices _ _ _ E).
Defined.

End CleanerCascade.

(** ** The accessors of the catalogue *)

Module AccessorFacts.
Import ReferenceData SupplierUtils Accessors.

(** In a table with distinct keys every entry is found under its key. *)
Lemma get_of_In (V : Type) (k : pystr) (v : V) (d : list (pystr * V)) :
  distinct (map fst d) = true -> In (k, v) d -> Dict.get k d = Some v.
Proof.
  induction d as [|[k0 v0] d IH]; simpl; intros D I; [destruct I|].
  apply andb_true_iff in D. destruct D as [N D].
  destruct I as [E|I].
  - inversion E; subst. rewrite py_eqb_refl. reflexivity.
  - destruct (Py.eqb k k0) eqn:K; [|auto].
    apply py_eqb_eq in K. subst k0.
    assert (M : Py.mem k (map fst d) = true).
    { apply py_mem_In. apply in_map_iff. exists (k, v). auto. }
    rewrite M in N. discriminate N.
Qed.

Lemma supplier_names_invert :
  forallb (fun kv => match Dict.get (snd kv) SUPPLIER_CODE_MAP with
                     | Some code => Py.eqb code (fst kv)
                     | None => false
                     end
                     && match Dict.get (fst kv) SUPPLIER_MAP with
                        | Some name => Py.eqb name (snd kv)
                        | None => false
                        end
                     && two_characters (fst kv)) SUPPLIER_MAP = true.
Proof. vm_compute. reflexivity. Qed.

(** The names and codes of the supplier catalogue determine each other:
    a code [get_supplier_by_code] knows (a code of one character is first
    padded with a zero) gives a name for which [get_supplier_code]
    returns the two-character code, and that code gives the name back. *)
Theorem supplier_code_round_trip (rt : Runtime) (code name : pystr) :
  get_supplier_by_code code = Some name ->
  exists code2,
    code2 = (if Py.len code =? 1 then Py.zfill 2 code else code)
    /\ get_supplier_code rt name = Some code2
    /\ get_supplier_by_code code2 = Some name.
Proof.
  unfold get_supplier_by_code.
  set (code2 := if Py.len code =? 1 then Py.zfill 2 code else code).
  intros G. exists code2. split; [reflexivity|].
  pose proof (dict_get_In _ _ G) as I.
  pose proof supplier_names_invert as A. rewrite forallb_forall in A.
  specialize (A _ I). cbn [fst snd] in A.
  apply andb_true_iff in A. destruct A as [A L].
  apply andb_true_iff in A. destruct A as [A _].
  split.
  - unfold get_supplier_code.
    destruct (Dict.get name SUPPLIER_CODE_MAP) as [c|]; [|discriminate].
    apply py_eqb_eq in A. subst c. reflexivity.
  - unfold two_characters in L. apply Z.eqb_eq in L.
    replace (Py.len code2 =? 1) with false
      by (symmetry; apply Z.eqb_neq; lia).
    exact G.
Qed.

Lemma supplier_code_round_trip_witness :
  get_supplier_by_code (u "1") = Some (u "GANT")
  /\ exists code2,
       code2 = u "01"
       /\ get_supplier_code Sample.runtime (u "GANT") = Some code2
       /\ get_supplier_by_code code2 = Some (u "GANT").
Proof.
  split; [reflexivity|].
  exact (@supplier_code_round_trip Sample.runtime (u "1") (u "GANT") eq_refl).
Defined.

Lemma color_names_invert :
  forallb (fun kv => match Dict.get (snd kv) COLOR_CODE_MAP with
                     | Some code => Py.eqb code (fst kv)
                     | None => false
                     end) COLOR_MAP = true.
Proof. vm_compute. reflexivity. Qed.

Lemma color_codes_known :
  forallb (fun code => match Dict.get code COLOR_MAP with
                       | Some name => Py.mem name (Dict.values COLOR_MAP)
                       | None => false
                       end) (Dict.values COLOR_CODE_MAP) = true.
Proof. vm_compute. reflexivity. Qed.

Lemma get_color_code_catalogue (rt : Runtime) (name code : pystr) :
  get_color_code rt name = Some code ->
  In code (Dict.values COLOR_CODE_MAP).
Proof.
  unfold get_color_code.
  destruct (Dict.get name COLOR_CODE_MAP) as [c|] eqn:G.
  - intros E. inversion E; subst.
    apply dict_get_In in G. unfold Dict.values.
    apply in_map_iff. exists (name, code). auto.
  - apply BarcodeFacts.first_value_In.
Qed.

Lemma get_color_code_entry (rt : Runtime) (code name : pystr) :
  In (code, name) COLOR_MAP -> get_color_code rt name = Some code.
Proof.
  intros I.
  pose proof color_names_invert as A. rewrite forallb_forall in A.
  specialize (A _ I). cbn [fst snd] in A.
  unfold get_color_code.
  destruct (Dict.get name COLOR_CODE_MAP) as [c|]; [|discriminate A].
  apply py_eqb_eq in A. subst c. reflexivity.
Qed.

(** Colour codes and names of the catalogue determine each other: the
    name stored under a code is looked up to that code, whatever the
    runtime, and the code is looked up to the name. *)
Theorem color_code_round_trip (rt : Runtime) (code name : pystr) :
  Dict.get code COLOR_MAP = Some name ->
  get_color_name code = name /\ get_color_code rt name = Some code.
Proof.
  intros G. split.
  - unfold get_color_name. rewrite G. reflexivity.
  - apply get_color_code_entry. apply dict_get_In. exact G.
Qed.

Lemma color_code_round_trip_witness :
  get_color_name (u "008") = u "Azul"
  /\ get_color_code Sample.runtime (u "Azul") = Some (u "008").
Proof.
  exact (@color_code_round_trip Sample.runtime (u "008") (u "Azul") eq_refl).
Defined.

(** [normalize_color_name] returns a name of the colour catalogue or
    its argument unchanged, and it leaves every name of the catalogue as
    it is. *)
Theorem normalize_color_name_catalogue (rt : Runtime) (color_name : pystr) :
  (normalize_color_name rt color_name = color_name
   \/ In (normalize_color_name rt color_name) (Dict.values COLOR_MAP))
  /\ (In color_name (Dict.values COLOR_MAP) ->
      normalize_color_name rt color_name = color_name).
Proof.
  unfold normalize_color_name. split.
  - destruct (get_color_code rt color_name) as [code|] eqn:G; [|now left].
    destruct (Py.truthy (Some code)); [|now left]. right.
    apply get_color_code_catalogue in G.
    pose proof color_codes_known as A. rewrite forallb_forall in A.
    specialize (A _ G). unfold get_color_name.
    destruct (Dict.get code COLOR_MAP) as [name|]; [|discriminate A].
    apply py_mem_In. exact A.
  - intros I. unfold Dict.values in I. apply in_map_iff in I.
    destruct I as ([code name] & <- & I). cbn [snd].
    assert (G : Dict.get code COLOR_MAP = Some name)
      by (apply get_of_In; [vm_compute; reflexivity | exact I]).
    assert (N : get_color_name code = name)
      by (unfold get_color_name; rewrite G; reflexivity).
    rewrite (@get_color_code_entry rt code name I).
    assert (T : Py.truthy (Some code) = true).
    { exact (proj1 (forallb_forall _ _)
               (eq_refl : forallb (fun kv => Py.truthy (Some (fst kv)))
                            COLOR_MAP = true) _ I). }
    rewrite T. exact N.
Qed.

Lemma size_labels_known :
  forallb (fun s => match Dict.get s SIZE_MAP with
                    | Some _ => true
                    | None => false
                    end)
          [u "XS"; u "S"; u "M"; u "L"; u "XL"; u "XXL"; u "XXXL"] = true.
Proof. vm_compute. reflexivity. Qed.

(** [normalize_size] returns a label of the size catalogue or its
    argument unchanged. *)
Theorem normalize_size_catalogue (rt : Runtime) (size : pystr) :
  normalize_size rt size = size
  \/ exists code, Dict.get (normalize_size rt size) SIZE_MAP = Some code.
Proof.
  unfold normalize_size.
  destruct (Dict.get (Py.strip (upper rt size)) SIZE_MAP) as [code|] eqn:G.
  { right. exists code. assumption. }
  repeat match goal with
         | |- context [if ?b then _ else _] =>
             destruct b;
             [right; eexists; vm_compute; reflexivity|]
         end.
  now left.
Qed.

Lemma supplier_data_codes :
  forallb (fun kv => two_characters (fst kv)
                     && match Dict.get (fst kv) SUPPLIER_MAP with
                        | Some n => Py.eqb n (nome (snd kv))
                        | None => false
                        end) SUPPLIER_DATA = true.
Proof. vm_compute. reflexivity. Qed.

Lemma supplier_entry_consistent (code : pystr) (e : supplier_entry) :
  In (code, e) SUPPLIER_DATA ->
  get_supplier_by_code code = Some (nome e)
  /\ get_markup code = marcacao e
  /\ In (nome e) (Dict.values SUPPLIER_MAP).
Proof.
  intros I.
  pose proof (proj1 (forallb_forall _ _) supplier_data_codes _ I) as A.
  cbn [fst snd] in A. apply andb_true_iff in A. destruct A as [L A].
  unfold two_characters in L. apply Z.eqb_eq in L.
  assert (N : (Py.len code =? 1) = false) by (apply Z.eqb_neq; lia).
  destruct (Dict.get code SUPPLIER_MAP) as [n|] eqn:G; [|discriminate A].
  apply py_eqb_eq in A. subst n.
  unfold get_supplier_by_code, get_markup. rewrite N, G.
  rewrite (@get_of_In _ code e SUPPLIER_DATA);
    [|vm_compute; reflexivity | exact I].
  repeat split. apply dict_get_In in G.
  unfold Dict.values. apply in_map_iff. exists (code, nome e). auto.
Qed.

(** Whatever [get_supplier_info] returns is consistent with the other
    accessors: its code is a code of the catalogue under which
    [get_supplier_by_code] finds the returned name and [get_markup] the
    returned markup. *)
Theorem supplier_info_consistent (rt : Runtime) (x : pystr)
    (info : supplier_info) :
  get_supplier_info rt x = Some info ->
  get_supplier_by_code (info_code info) = Some (info_name info)
  /\ get_markup (info_code info) = info_markup info
  /\ In (info_name info) (Dict.values SUPPLIER_MAP).
Proof.
  unfold get_supplier_info.
  destruct (Dict.get x SUPPLIER_DATA) as [data|] eqn:G.
  - intros E. inversion E; subst; clear E. cbn [info_code info_name info_markup].
    apply supplier_entry_consistent. apply dict_get_In. exact G.
  - destruct (find _ SUPPLIER_DATA) as [[code e]|] eqn:F; [|discriminate].
    intros E. inversion E; subst; clear E.
    cbn [info_code info_name info_markup fst snd].
    apply supplier_entry_consistent. apply (find_In _ _ F).
Qed.

Lemma supplier_info_consistent_witness :
  exists info,
    get_supplier_info Sample.runtime (u "Hugo Boss S.p.A.") = Some info
    /\ info_code info = u "02"
    /\ get_supplier_by_code (info_code info) = Some (info_name info)
    /\ get_markup (info_code info) = info_markup info
    /\ In (info_name info) (Dict.values SUPPLIER_MAP).
Proof.
  destruct (get_supplier_info Sample.runtime (u "Hugo Boss S.p.A."))
    as [info|] eqn:E; [|vm_compute in E; discriminate E].
  exists info. split; [reflexivity|]. split.
  - vm_compute in E. inversion E. reflexivity.
  - exact (@supplier_info_consistent _ _ _ E).
Defined.

End AccessorFacts.

(** ** Supplier matching and assignment as a whole *)

Module SupplierFacts2.
Import ReferenceData SupplierUtils SupplierAssignment Assign.
Import SupplierSpec SupplierSpec2 Examples PipelineSpec.
Import SupplierFacts PostProcessFacts.

Lemma catalogue_names_plain :
  forallb (fun e => not_blank e
                    && negb (Py.mem e [u ""; UNIDENTIFIED_SUPPLIER])
                    && match Dict.get e SUPPLIER_CODE_MAP with
                       | Some code => Py.truthy (Some code)
                       | None => false
                       end) catalogue_names = true.
Proof. vm_compute. reflexivity. Qed.

Lemma match_catalogue_name (rt : Runtime) (e : pystr) :
  In e catalogue_names -> match_supplier_name rt (Some e) = e.
Proof.
  intros I. unfold match_supplier_name.
  pose proof (proj1 (forallb_forall _ _) catalogue_names_plain _ I) as A.
  apply andb_true_iff in A. destruct A as [A _].
  apply andb_true_iff in A. destruct A as [A _].
  unfold not_blank in A. destruct (Py.strip e) as [|c0 s0]; [discriminate A|].
  fold catalogue_names. rewrite (proj2 (py_mem_In _ _) I). reflexivity.
Qed.

Lemma find_most_similar_catalogue (rt : Runtime) (n e : pystr) (s : float) :
  find_most_similar_supplier rt n = (Some e, s) -> In e catalogue_names.
Proof.
  unfold find_most_similar_supplier. destruct n as [|c n']; [discriminate|].
  fold catalogue_names.
  destruct (find _ catalogue_names) as [k|] eqn:F.
  - intros E. inversion E; subst. apply (find_In _ _ F).
  - intros E. pose proof (scoring_loop_best rt (c :: n')) as B.
    rewrite E in B. apply (best_of_In B).
Qed.

(** For a candidate that is not blank, [match_supplier_name] returns the
    candidate itself or a name of the catalogue, and matching the result
    again returns it unchanged. *)
Theorem match_supplier_name_closed (rt : Runtime) (s : pystr) :
  not_blank s = true ->
  (match_supplier_name rt (Some s) = s
   \/ In (match_supplier_name rt (Some s)) catalogue_names)
  /\ match_supplier_name rt (Some (match_supplier_name rt (Some s)))
     = match_supplier_name rt (Some s).
Proof.
  intros NB.
  assert (C : match_supplier_name rt (Some s) = s
              \/ In (match_supplier_name rt (Some s)) catalogue_names).
  { unfold match_supplier_name. unfold not_blank in NB.
    destruct (Py.strip s) as [|c0 s0]; [discriminate NB|].
    destruct (Py.mem s _); [left; reflexivity|].
    destruct (normalize_supplier_name rt s) as [|c1 s1]; [left; reflexivity|].
    destruct (find_most_similar_supplier rt (c1 :: s1)) as [best sim] eqn:F.
    destruct best as [e|]; [|left; reflexivity].
    destruct (Py.truthy (Some e) && PrimFloat.ltb 0.3 sim);
      [|left; reflexivity].
    right. simpl. apply (@find_most_similar_catalogue rt _ _ _ F). }
  split; [exact C|].
  destruct C as [E|I].
  - rewrite E. exact E.
  - apply match_catalogue_name. exact I.
Qed.

Lemma match_supplier_name_closed_witness :
  match_supplier_name Sample.runtime (Some (u "Hugo Boss S.p.A."))
  = u "HUGO BOSS"
  /\ match_supplier_name Sample.runtime
       (Some (match_supplier_name Sample.runtime
                (Some (u "Hugo Boss S.p.A."))))
     = match_supplier_name Sample.runtime (Some (u "Hugo Boss S.p.A.")).
Proof.
  split; [vm_compute; reflexivity|].
  apply (@match_supplier_name_closed Sample.runtime (u "Hugo Boss S.p.A.")).
  vm_compute. reflexivity.
Defined.

Lemma evaluate_score_bound (rt : Runtime) (b : best) (c : source * pystr) :
  PrimFloat.ltb (best_score b) 0.8 = false ->
  PrimFloat.ltb (best_score b) 1.0 = false ->
  fst c = brand_context ->
  evaluate rt b c = b.
Proof.
  intros L8 L10 S. destruct c as [src cand]. simpl in S. subst src.
  unfold evaluate.
  destruct (Py.truthy _ && Py.mem _ _); [|reflexivity].
  destruct (Py.eqb _ cand); [rewrite L10 | rewrite L8]; reflexivity.
Qed.

Lemma brand_candidates_keep (rt : Runtime) (b : best)
    (rest : list (source * pystr)) :
  best_score b = (1.0 + 0.1)%float ->
  Forall (fun c => fst c = brand_context) rest ->
  fold_left (evaluate rt) rest b = b.
Proof.
  intros Hb. induction 1 as [|c rest Hc Hrest IH]; simpl; [reflexivity|].
  rewrite evaluate_score_bound; [exact IH| | |exact Hc];
    rewrite Hb; reflexivity.
Qed.

Lemma candidates_of_supplier (ctx : context_info) (s : pystr) :
  ctx_supplier ctx = Some s ->
  Py.truthy (Some s) = true ->
  Py.mem s [u ""; UNIDENTIFIED_SUPPLIER] = false ->
  exists rest,
    candidates ctx = (supplier_context, s) :: rest
    /\ Forall (fun c => fst c = brand_context) rest.
Proof.
  intros Cs T Hp. unfold candidates. rewrite Cs, T, Hp. cbn [andb negb app].
  eexists. split; [reflexivity|].
  destruct (ctx_brand ctx) as [b|]; [|constructor].
  destruct (Py.truthy (Some b) && _ && _); repeat constructor.
Qed.

(** A supplier of the context that is a catalogue name, letter for
    letter, is the supplier of the document, with its catalogue code,
    whatever the brand of the context is. *)
Theorem catalogue_supplier_wins (rt : Runtime) (ctx : context_info)
    (s : pystr) :
  ctx_supplier ctx = Some s ->
  In s catalogue_names ->
  exists code,
    Dict.get s SUPPLIER_CODE_MAP = Some code
    /\ fst (determine_best_supplier rt ctx) = (s, Some code).
Proof.
  intros Cs I.
  pose proof (proj1 (forallb_forall _ _) catalogue_names_plain _ I) as A.
  apply andb_true_iff in A. destruct A as [A Hc].
  apply andb_true_iff in A. destruct A as [_ Hp].
  apply negb_true_iff in Hp.
  destruct (Dict.get s SUPPLIER_CODE_MAP) as [code|] eqn:G; [|discriminate Hc].
  exists code. split; [reflexivity|].
  pose proof (@catalogue_names_truthy s I) as T.
  destruct (candidates_of_supplier ctx Cs T Hp) as (rest & Hcand & Hrest).
  unfold determine_best_supplier. rewrite Hcand. cbn [fold_left].
  assert (E1 : evaluate rt
                 {| best_match := None; best_supplier_code := None;
                    best_score := 0%float |} (supplier_context, s)
               = {| best_match := Some s; best_supplier_code := Some code;
                    best_score := (1.0 + 0.1)%float |}).
  { unfold evaluate. rewrite (match_catalogue_name rt I).
    unfold get_supplier_code. rewrite G, Hc.
    fold catalogue_names. rewrite (proj2 (py_mem_In _ _) I).
    rewrite py_eqb_refl. reflexivity. }
  rewrite E1. rewrite brand_candidates_keep by (reflexivity || assumption).
  cbn [best_match best_supplier_code]. rewrite T.
  destruct (match (if Py.truthy (Some code) then get_markup code else None)
            with Some m => _ | None => _ end); reflexivity.
Qed.

Lemma catalogue_supplier_wins_witness :
  exists code,
    Dict.get (u "GANT") SUPPLIER_CODE_MAP = Some code
    /\ fst (determine_best_supplier Sample.runtime
              {| ctx_supplier := Some (u "GANT");
                 ctx_brand := Some (u "HUGO BOSS") |})
       = (u "GANT", Some code).
Proof.
  apply (@catalogue_supplier_wins Sample.runtime
           {| ctx_supplier := Some (u "GANT");
              ctx_brand := Some (u "HUGO BOSS") |} (u "GANT")).
  - reflexivity.
  - apply py_mem_In. vm_compute. reflexivity.
Defined.

(** *** What the assignment changes *)

Lemma all_some_Forall2 (A B : Type) (f : A -> option B) (l : list A)
    (out : list B) :
  all_some (map f l) = Some out -> Forall2 (fun x y => f x = Some y) l out.
Proof.
  revert out; induction l as [|a l IH]; simpl; intros out E.
  - inversion E. constructor.
  - destruct (f a) as [b|] eqn:Fa; [|discriminate].
    destruct (all_some (map f l)) as [out'|]; [|discriminate].
    simpl in E. inversion E; subst. constructor; auto.
Qed.

Ltac use_truth_values :=
  repeat match goal with
         | T : price_truthy ?x = ?v, Hx : context [price_truthy ?x] |- _ =>
             lazymatch type of Hx with
             | price_truthy x = v => fail
             | _ => rewrite T in Hx; simpl in Hx
             end
         end.

Lemma assign_color_fills (rt : Runtime) (s : pystr) (m : option float)
    (c c' : color) :
  assign_color rt s m c = Some c' -> color_filled s c c'.
Proof.
  unfold assign_color, color_filled. intros E. simpl in E.
  destruct (price_truthy (sales_price c)) eqn:Ts;
    destruct (price_truthy (unit_price c)) eqn:Tu;
    destruct (price_truthy (subtotal c)) eqn:Tb;
    simpl in E; break_matches; simpl in *; use_truth_values;
    try discriminate;
    try match goal with
        | T : ?a = false, Hx : ?a && _ = true |- _ =>
            rewrite T in Hx; discriminate Hx
        end;
    repeat split; auto; try (intros [H|H]; congruence).
Qed.

(** [assign_supplier_to_products] keeps the products one for one and
    only fills in: every product and colour gets the supplier, every
    reference line too; a sales price or subtotal is computed only for a
    colour whose unit price is true and whose own value is not; names,
    codes, categories, brands, sizes, unit prices and total prices stay
    as they are. *)
Theorem assignment_fills_only (rt : Runtime) (s : pystr) (m : option float)
    (products out : list product) :
  assign_supplier_to_products rt s m products = Some out ->
  Forall2 (product_filled s) products out.
Proof.
  unfold assign_supplier_to_products. intros E.
  apply all_some_Forall2 in E.
  eapply Forall2_impl; [|exact E].
  intros p p' Ep. unfold assign_product in Ep.
  destruct (all_some (map (assign_color rt s m) (colors p))) as [cols|] eqn:C;
    [|discriminate].
  inversion Ep; subst; clear Ep. unfold product_filled. cbn.
  repeat split.
  apply all_some_Forall2 in C.
  eapply Forall2_impl; [|exact C].
  intros c c' Ec. exact (@assign_color_fills rt s m c c' Ec).
Qed.

Lemma assignment_fills_only_witness :
  exists out,
    assign_supplier_to_products Sample.runtime (u "GANT") (Some 1.65%float)
      [polo_product; shirt_product] = Some out
    /\ map (fun p => map sales_price (colors p)) out
       = [[Some 82.5%float]; [Some 49%float]]
    /\ Forall2 (product_filled (u "GANT")) [polo_product; shirt_product] out.
Proof.
  destruct (assign_supplier_to_products Sample.runtime (u "GANT")
              (Some 1.65%float) [polo_product; shirt_product])
    as [out|] eqn:E; [|vm_compute in E; discriminate E].
  exists out. split; [reflexivity|]. split.
  - vm_compute in E. inversion E. reflexivity.
  - exact (@assignment_fills_only _ _ _ _ _ E).
Defined.

End SupplierFacts2.

(** ** The sanitizers and the numeric recovery as a whole *)

Module JsonFacts2.
Import JsonUtils Recovery JsonSpec.
Import JsonFacts.

(** The result of [sanitize_for_json] is made of [None], booleans,
    numbers, strings, dicts and lists only, whatever the input and the
    parameters: tuples become lists and objects of other types become
    their [str()] or [None]. *)
Theorem sanitize_json_shaped (dn : option float) (ds : pystr) (md : Z)
    (obj : pyval) (d : Z) :
  json_shaped (sanitize_for_json dn ds md obj d) = true.
Proof.
  revert d.
  induction obj as [ | b | z | f | s | items IH | items IH | items IH | text]
    using pyval_induction; intros d; simpl;
    destruct (md <? d); simpl; try reflexivity.
  - destruct (Num.non_finite f); [destruct dn|]; reflexivity.
  - destruct s; reflexivity.
  - rewrite forallb_map_comp.
    induction IH as [|[k v] l Hv Hl IHl]; simpl; [reflexivity|].
    rewrite Hv, IHl. reflexivity.
  - rewrite forallb_map_comp.
    induction IH as [|v l Hv Hl IHl]; simpl; [reflexivity|].
    rewrite Hv, IHl. reflexivity.
  - rewrite forallb_map_comp.
    induction IH as [|v l Hv Hl IHl]; simpl; [reflexivity|].
    rewrite Hv, IHl. reflexivity.
  - destruct text; reflexivity.
Qed.

Lemma Forall_map_iff_local (A B : Type) (P : B -> Prop) (f : A -> B)
    (l : list A) :
  Forall (fun x => P (f x)) l -> Forall P (map f l).
Proof. induction 1; simpl; constructor; assumption. Qed.

Lemma max_nesting_bound (A : Type) (f : A -> Z) (l : list A) (b : Z) :
  0 <= b -> Forall (fun x => f x <= b) l ->
  fold_right (fun x m => Z.max (f x) m) 0 l <= b.
Proof.
  intros Hb. induction 1 as [|x l Hx Hl IH]; simpl; lia.
Qed.

(** [sanitize_for_json] cuts the nesting: called at the depth [d], it
    returns a value whose containers are nested at most
    [max_depth - d + 1] deep (what lies deeper has become [None]), and
    [None] itself when [d] exceeds [max_depth]. *)
Theorem sanitize_nesting (dn : option float) (ds : pystr) (md : Z)
    (obj : pyval) (d : Z) :
  nesting (sanitize_for_json dn ds md obj d) <= Z.max 0 (md - d + 1)
  /\ (md < d -> sanitize_for_json dn ds md obj d = VNone).
Proof.
  split.
  - revert d.
    induction obj as [ | b | z | f | s | items IH | items IH | items IH | text]
      using pyval_induction; intros d; cbn [sanitize_for_json];
      destruct (md <? d) eqn:Depth; cbn [nesting]; try lia.
    + destruct (Num.non_finite f); [destruct dn|]; cbn [nesting number_default];
        lia.
    + destruct s; cbn [nesting]; lia.
    + apply Z.ltb_ge in Depth.
      match goal with
      | |- 1 + ?x <= _ => assert (B : x <= md - d); [|lia]
      end.
      apply max_nesting_bound; [lia|].
      apply Forall_map_iff_local.
      eapply Forall_impl; [|exact IH].
      intros [k v] H. cbn [snd] in *. specialize (H (d + 1)). lia.
    + apply Z.ltb_ge in Depth.
      match goal with
      | |- 1 + ?x <= _ => assert (B : x <= md - d); [|lia]
      end.
      apply max_nesting_bound; [lia|].
      apply Forall_map_iff_local.
      eapply Forall_impl; [|exact IH].
      intros v H. cbn beta in *. specialize (H (d + 1)). lia.
    + apply Z.ltb_ge in Depth.
      match goal with
      | |- 1 + ?x <= _ => assert (B : x <= md - d); [|lia]
      end.
      apply max_nesting_bound; [lia|].
      apply Forall_map_iff_local.
      eapply Forall_impl; [|exact IH].
      intros v H. cbn beta in *. specialize (H (d + 1)). lia.
    + destruct text; cbn [nesting]; lia.
  - intros L. apply Z.ltb_lt in L.
    destruct obj; simpl; rewrite L; reflexivity.
Qed.

(** *** The sanitizer of the recovery system *)

(** [sanitize_json_data] is idempotent on every value: sanitizing its
    result again returns that result unchanged. *)
Theorem sanitize_json_data_idempotent (data : pyval) :
  sanitize_json_data (sanitize_json_data data) = sanitize_json_data data.
Proof.
  induction data as [ | b | z | f | s | items IH | items IH | items IH | text]
    using pyval_induction; simpl; try reflexivity.
  - destruct (Num.non_finite f) eqn:NF; simpl; [reflexivity|].
    rewrite NF. reflexivity.
  - f_equal. rewrite map_map.
    induction IH as [|[k v] l Hv Hl IHl]; simpl; [reflexivity|].
    simpl in Hv. rewrite Hv, IHl. reflexivity.
  - f_equal. rewrite map_map.
    induction IH as [|v l Hv Hl IHl]; simpl; [reflexivity|].
    rewrite Hv, IHl. reflexivity.
Qed.

(** On a value made of [None], booleans, numbers, strings, dicts and
    lists, [sanitize_json_data] leaves no NaN and no infinite float; a
    tuple is returned as it is, with whatever it holds. *)
Theorem sanitize_json_data_finite (data : pyval) :
  (json_shaped data = true ->
   finite_leaves (sanitize_json_data data) = true)
  /\ (forall items, sanitize_json_data (VTuple items) = VTuple items).
Proof.
  split; [|reflexivity].
  induction data as [ | b | z | f | s | items IH | items IH | items IH | text]
    using pyval_induction; simpl; intros J; try reflexivity;
    try discriminate J.
  - destruct (Num.non_finite f) eqn:NF; simpl; [reflexivity|].
    now apply non_finite_false.
  - rewrite forallb_map_comp.
    induction IH as [|[k v] l Hv Hl IHl]; simpl in *; [reflexivity|].
    apply andb_true_iff in J. destruct J as [Jv Jl].
    rewrite (Hv Jv), (IHl Jl). reflexivity.
  - rewrite forallb_map_comp.
    induction IH as [|v l Hv Hl IHl]; simpl in *; [reflexivity|].
    apply andb_true_iff in J. destruct J as [Jv Jl].
    rewrite (Hv Jv), (IHl Jl). reflexivity.
Qed.

Lemma max_nesting_le (A : Type) (f : A -> Z) (l : list A) (x : A) :
  Forall (fun y => 0 <= f y) l -> In x l ->
  f x <= fold_right (fun y m => Z.max (f y) m) 0 l.
Proof.
  induction 1 as [|y l Hy Hl IH]; simpl; intros I; [destruct I|].
  destruct I as [->|I]; [lia|]. specialize (IH I). lia.
Qed.

Lemma nesting_nonneg (v : pyval) : 0 <= nesting v.
Proof.
  destruct v; cbn [nesting]; try lia.
  - assert (0 <= fold_right
                   (fun (kv : pystr * pyval) m => Z.max (nesting (snd kv)) m)
                   0 items); [|lia].
    induction items; simpl; lia.
  - assert (0 <= fold_right (fun x m => Z.max (nesting x) m) 0 items); [|lia].
    induction items; simpl; lia.
  - assert (0 <= fold_right (fun x m => Z.max (nesting x) m) 0 items); [|lia].
    induction items; simpl; lia.
Qed.

(** The two sanitizers agree on JSON-shaped data that is not nested too
    deep: with the default number [None] and the empty default string,
    [sanitize_for_json] called at the depth [d] returns what
    [sanitize_json_data] returns, for every value made of [None],
    booleans, numbers, strings, dicts and lists whose nesting, added to
    [d], does not exceed [max_depth]. *)
Theorem sanitizers_agree (md : Z) (data : pyval) (d : Z) :
  json_shaped data = true ->
  d + nesting data <= md ->
  sanitize_for_json None [] md data d = sanitize_json_data data.
Proof.
  revert d.
  induction data as [ | b | z | f | s | items IH | items IH | items IH | text]
    using pyval_induction; intros d J N; cbn [sanitize_for_json];
    try discriminate J;
    (assert (D : (md <? d) = false)
       by (apply Z.ltb_ge;
           match type of N with
           | _ + nesting ?v <= _ => pose proof (nesting_nonneg v); lia
           end));
    rewrite D; cbn [sanitize_json_data]; try reflexivity.
  - destruct s; reflexivity.
  - f_equal. cbn [nesting json_shaped] in *.
    assert (B : forall kv, In kv items -> d + 1 + nesting (snd kv) <= md).
    { intros kv I.
      pose proof (@max_nesting_le _ (fun kv => nesting (snd kv)) items kv) as M.
      cbn beta in M.
      assert (F : Forall (fun y : pystr * pyval => 0 <= nesting (snd y)) items)
        by (apply Forall_forall; intros; apply nesting_nonneg).
      specialize (M F I). lia. }
    clear N D. rewrite forallb_forall in J.
    induction IH as [|[k v] l Hv Hl IHl]; simpl; [reflexivity|].
    f_equal.
    + f_equal. apply Hv.
      * apply (J (k, v)). now left.
      * apply (B (k, v)). now left.
    + apply IHl.
      * intros x Ix. apply J. now right.
      * intros x Ix. apply B. now right.
  - f_equal. cbn [nesting json_shaped] in *.
    assert (B : forall x, In x items -> d + 1 + nesting x <= md).
    { intros x I.
      pose proof (@max_nesting_le _ nesting items x) as M.
      assert (F : Forall (fun y => 0 <= nesting y) items)
        by (apply Forall_forall; intros; apply nesting_nonneg).
      specialize (M F I). lia. }
    clear N D. rewrite forallb_forall in J.
    induction IH as [|v l Hv Hl IHl]; simpl; [reflexivity|].
    f_equal.
    + apply Hv; [apply J | apply B]; now left.
    + apply IHl.
      * intros x Ix. apply J. now right.
      * intros x Ix. apply B. now right.
Qed.

Lemma sanitizers_agree_witness :
  sanitize_for_json None [] 100 sample_flat 0
  = VDict [ (u "price", VNone); (u "name", VStr []);
            (u "tags", VList [VStr (u "a"); VNone]) ]
  /\ sanitize_for_json None [] 100 sample_flat 0
     = sanitize_json_data sample_flat.
Proof.
  split; [vm_compute; reflexivity|].
  apply (@sanitizers_agree 100 sample_flat 0);
    [vm_compute; reflexivity | vm_compute; discriminate].
Defined.

(** *** What the numeric recovery leaves *)

Lemma fix_size_positive (s s' : size_info) :
  fix_size s = Some s' -> Num.gt0 (quantity s') = true.
Proof.
  unfold fix_size.
  destruct (Num.gt0 _) eqn:G; [|discriminate].
  intros E. inversion E; subst. exact G.
Qed.

Lemma keep_some_fix_sizes (l : list size_info) :
  Forall (fun s => Num.gt0 (quantity s) = true) (keep_some (map fix_size l)).
Proof.
  induction l as [|s l IH]; simpl; [constructor|].
  destruct (fix_size s) as [s'|] eqn:F; [|assumption].
  constructor; [exact (fix_size_positive _ F) | assumption].
Qed.

Lemma fix_color_fixed (rt : Runtime) (markup : float) (c c' : color) :
  fix_color rt markup c = Some c' ->
  sizes c' <> [] ->
  fixed_color c'.
Proof.
  unfold fix_color, fixed_color. intros E NE.
  assert (U : PrimFloat.is_nan (fixed_unit_price c) = false).
  { unfold fixed_unit_price. destruct (unit_price c) as [f|]; [|reflexivity].
    destruct (PrimFloat.is_nan f) eqn:N; [reflexivity | exact N]. }
  destruct (missing_or_nan (subtotal c)) eqn:Ms.
  - destruct (nsum rt (map quantity (sizes c))) as [total|]; [|discriminate].
    destruct (Num.to_float total) as [t|]; [|discriminate].
    inversion E; subst; clear E. cbn in *.
    split; [exact NE|]. split; [apply keep_some_fix_sizes|].
    split; [eexists; split; [reflexivity | exact U]|].
    split; [|discriminate].
    destruct (missing_or_nan (sales_price c)) eqn:M; [discriminate|].
    destruct (sales_price c); [discriminate | discriminate M].
  - inversion E; subst; clear E. cbn in *.
    split; [exact NE|]. split; [apply keep_some_fix_sizes|].
    split; [eexists; split; [reflexivity | exact U]|].
    split.
    + destruct (missing_or_nan (sales_price c)) eqn:M; [discriminate|].
      destruct (sales_price c); [discriminate | discriminate M].
    + destruct (subtotal c); [discriminate | discriminate Ms].
Qed.

(** What [fix_nan_in_products] leaves: every product it returns has a
    colour and a total price; every colour has a size, a unit price that
    is no NaN, a sales price and a subtotal; every size has a quantity
    greater than 0. *)
Theorem fix_nan_leaves (rt : Runtime) (markup : float)
    (products out : list product) :
  fix_nan_in_products rt markup products = Some out ->
  Forall fixed_product out.
Proof.
  unfold fix_nan_in_products. intros E.
  destruct (all_some (map (fix_product rt markup) products)) as [fixed|] eqn:A;
    [|discriminate].
  simpl in E. inversion E; subst; clear E.
  apply Forall_forall. intros p' Ip. apply filter_In in Ip.
  destruct Ip as [Ip NEp].
  destruct (@all_some_In _ _ _ _ _ _ A Ip) as (p & Hp & Fp).
  unfold fix_product in Fp.
  destruct (all_some (map (fix_color rt markup) (colors p))) as [cols|] eqn:C;
    [|discriminate].
  inversion Fp; subst; clear Fp. cbn in *.
  unfold fixed_product. cbn. split; [|split].
  - destruct (filter _ cols); [discriminate NEp | discriminate].
  - apply Forall_forall. intros c' Ic. apply filter_In in Ic.
    destruct Ic as [Ic NEc].
    destruct (@all_some_In _ _ _ _ _ _ C Ic) as (c & Hc & Fc).
    apply (@fix_color_fixed rt markup c c' Fc).
    destruct (sizes c'); [discriminate NEc | discriminate].
  - destruct (missing_or_nan (total_price p)) eqn:M; [discriminate|].
    destruct (total_price p); [discriminate | discriminate M].
Qed.

Lemma fix_nan_leaves_witness :
  exists out,
    fix_nan_in_products Sample.runtime 2.73%float [nan_product] = Some out
    /\ map (fun p => map (fun c => map quantity (sizes c)) (colors p)) out
       = [[[PInt 2]]]
    /\ Forall fixed_product out.
Proof.
  destruct (fix_nan_in_products Sample.runtime 2.73%float [nan_product])
    as [out|] eqn:E; [|vm_compute in E; discriminate E].
  exists out. split; [reflexivity|]. split.
  - vm_compute in E. inversion E. reflexivity.
  - exact (@fix_nan_leaves _ _ _ _ E).
Defined.

End JsonFacts2.

(** ** The category mapper *)

Module CategoryMapperFacts.
Import ReferenceData CategoryMapper.

Lemma translations_catalogue :
  forallb (fun c => Py.mem c CATEGORIES)
          (Dict.values ENGLISH_TO_PORTUGUESE ++ Dict.values KEYWORDS
           ++ [u "POLOS"; DEFAULT_CATEGORY]) = true.
Proof. vm_compute. reflexivity. Qed.

Lemma translation_catalogue (c : pystr) :
  In c (Dict.values ENGLISH_TO_PORTUGUESE ++ Dict.values KEYWORDS
        ++ [u "POLOS"; DEFAULT_CATEGORY]) ->
  In c CATEGORIES.
Proof.
  intros I. apply py_mem_In.
  exact (proj1 (forallb_forall _ _) translations_catalogue _ I).
Qed.

Lemma get_category_catalogue (rt : Runtime) (name c : pystr) :
  get_category rt name = Some c -> In c CATEGORIES.
Proof.
  unfold get_category.
  destruct (Py.mem (upper rt name) CATEGORIES) eqn:M.
  - intros E. inversion E; subst. apply py_mem_In. exact M.
  - apply find_In.
Qed.

(** [map_category] always returns a category of the list [CATEGORIES],
    for every category, product name and brand, provided
    [get_close_matches] returns members of the possibilities it is
    given. *)
Theorem map_category_catalogue (rt : Runtime) (dl : Difflib)
    (category product_name brand : option pystr) :
  (forall word possibilities m,
     In m (get_close_matches dl word possibilities) -> In m possibilities) ->
  In (map_category rt dl category product_name brand) CATEGORIES.
Proof.
  intros Hdl. unfold map_category.
  set (cat := if Py.truthy category then Py.str_of_opt category else u "").
  destruct (Py.mem (Py.strip (upper rt cat)) CATEGORIES) eqn:M.
  { apply py_mem_In. exact M. }
  destruct (get_category rt cat) as [normalized|] eqn:G.
  - destruct (Py.truthy (Some normalized)).
    + exact (@get_category_catalogue rt cat normalized G).
    + clear G. revert normalized. intros _.
      destruct (boss_polo rt product_name brand).
      { apply translation_catalogue. apply in_or_app. right.
        apply in_or_app. right. now left. }
      destruct (Dict.get _ ENGLISH_TO_PORTUGUESE) as [t|] eqn:D.
      { apply translation_catalogue. apply in_or_app. left.
        apply dict_get_In in D. unfold Dict.values.
        apply in_map_iff. eexists. split; [|exact D]. reflexivity. }
      destruct (first_value _ ENGLISH_TO_PORTUGUESE) as [pt|] eqn:F1.
      { apply translation_catalogue. apply in_or_app. left.
        exact (BarcodeFacts.first_value_In _ _ F1). }
      destruct (first_value _ KEYWORDS) as [kc|] eqn:F2.
      { apply translation_catalogue. apply in_or_app. right.
        apply in_or_app. left. exact (BarcodeFacts.first_value_In _ _ F2). }
      unfold get_best_category_match.
      destruct cat as [|c0 cat0].
      { apply translation_catalogue. apply in_or_app. right.
        apply in_or_app. right. right. now left. }
      destruct (get_close_matches dl _ CATEGORIES) as [|best rest] eqn:C.
      { apply translation_catalogue. apply in_or_app. right.
        apply in_or_app. right. right. now left. }
      apply (Hdl (upper rt (c0 :: cat0)) CATEGORIES). rewrite C. now left.
  - destruct (boss_polo rt product_name brand).
    { apply translation_catalogue. apply in_or_app. right.
      apply in_or_app. right. now left. }
    destruct (Dict.get _ ENGLISH_TO_PORTUGUESE) as [t|] eqn:D.
    { apply translation_catalogue. apply in_or_app. left.
      apply dict_get_In in D. unfold Dict.values.
      apply in_map_iff. eexists. split; [|exact D]. reflexivity. }
    destruct (first_value _ ENGLISH_TO_PORTUGUESE) as [pt|] eqn:F1.
    { apply translation_catalogue. apply in_or_app. left.
      exact (BarcodeFacts.first_value_In _ _ F1). }
    destruct (first_value _ KEYWORDS) as [kc|] eqn:F2.
    { apply translation_catalogue. apply in_or_app. right.
      apply in_or_app. left. exact (BarcodeFacts.first_value_In _ _ F2). }
    unfold get_best_category_match.
    destruct cat as [|c0 cat0].
    { apply translation_catalogue. apply in_or_app. right.
      apply in_or_app. right. right. now left. }
    destruct (get_close_matches dl _ CATEGORIES) as [|best rest] eqn:C.
    { apply translation_catalogue. apply in_or_app. right.
      apply in_or_app. right. right. now left. }
    apply (Hdl (upper rt (c0 :: cat0)) CATEGORIES). rewrite C. now left.
Qed.

Lemma sample_close_matches_members (word : pystr)
    (possibilities : list pystr) (m : pystr) :
  In m (sample_close_matches word possibilities) -> In m possibilities.
Proof.
  unfold sample_close_matches.
  set (scored := filter _ _).
  assert (S : forall sx, In sx scored -> In (snd sx) possibilities).
  { intros sx I. apply filter_In in I. destruct I as [I _].
    apply in_map_iff in I. destruct I as (x & <- & Ix). exact Ix. }
  destruct scored as [|first rest]; [intros []|].
  intros [<-|[]].
  assert (F : forall l best,
            (forall sx, In sx (best :: l) -> In (snd sx) possibilities) ->
            In (snd (fold_left
                       (fun best sx =>
                          if PrimFloat.ltb (fst best) (fst sx)
                             || (PrimFloat.eqb (fst best) (fst sx)
                                 && Py.ltb (snd best) (snd sx))
                          then sx else best) l best)) possibilities).
  { induction l as [|sx l IH]; intros best H; simpl.
    - apply H. now left.
    - apply IH. intros y [<-|Iy].
      + destruct (_ || _); apply H; [right; now left | now left].
      + apply H. right. now right. }
  apply F. exact S.
Qed.

Lemma map_category_catalogue_witness :
  map_category Sample.runtime sample_difflib (Some (u "Shirts")) None None
  = u "T-SHIRTS"
  /\ In (map_category Sample.runtime sample_difflib (Some (u "Shirts"))
           None None) CATEGORIES.
Proof.
  split; [vm_compute; reflexivity|].
  apply (@map_category_catalogue Sample.runtime sample_difflib
           (Some (u "Shirts")) None None).
  exact sample_close_matches_members.
Defined.

(** A category that is missing, [None] or empty is mapped to
    ["CAMISAS"], the first entry of the list (the empty string is
    contained in it), whatever the product name and the brand are,
    provided [upper()] of the empty string is the empty string. *)
Theorem map_category_missing (rt : Runtime) (dl : Difflib)
    (category product_name brand : option pystr) :
  upper rt [] = [] ->
  Py.truthy category = false ->
  map_category rt dl category product_name brand = u "CAMISAS".
Proof.
  intros U T. unfold map_category. rewrite T.
  change (u "") with (@nil N). rewrite U.
  unfold get_category. rewrite U. reflexivity.
Qed.

Lemma map_category_missing_witness :
  map_category Sample.runtime sample_difflib None (Some (u "Paddy"))
    (Some (u "HUGO BOSS")) = u "CAMISAS".
Proof.
  apply (@map_category_missing Sample.runtime sample_difflib None
           (Some (u "Paddy")) (Some (u "HUGO BOSS"))); reflexivity.
Defined.

End CategoryMapperFacts.

(** ** Merging the order information of the pages *)

Module OrderInfoFacts.
Import OrderInfo CleanerCascade.

Section Merge.
Variable V : Type.
Variable truthy : V -> bool.

Lemma merge_entry_get (info : list (pystr * V)) (k0 : pystr) (v0 : V)
    (k : pystr) :
  Dict.get k (merge_entry truthy info (k0, v0))
  = if Py.eqb k0 k && truthy v0 && negb (settled truthy k info)
    then Some v0 else Dict.get k info.
Proof.
  unfold merge_entry.
  destruct (Py.eqb k0 k) eqn:E.
  - apply py_eqb_eq in E. subst k0. cbn [andb].
    destruct (truthy v0 && negb (settled truthy k info));
      [apply get_set_same | reflexivity].
  - cbn [andb].
    destruct (truthy v0 && negb (settled truthy k0 info)); [|reflexivity].
    apply get_set_other. apply py_eqb_neq. apply py_eqb_neq in E. congruence.
Qed.

(** Merging the order information of a page: a key that already holds
    a true value keeps it; any other key gets the first true value the
    page gives for it, and stays as it is when the page gives none. *)
Theorem merge_order_info_first_wins (page_info info : list (pystr * V))
    (k : pystr) :
  Dict.get k (merge_order_info truthy info page_info)
  = if settled truthy k info then Dict.get k info
    else match first_truthy truthy k page_info with
         | Some v => Some v
         | None => Dict.get k info
         end.
Proof.
  unfold merge_order_info, first_truthy.
  revert info. induction page_info as [|[k0 v0] rest IH]; intros info.
  - simpl. destruct (settled truthy k info); reflexivity.
  - cbn [fold_left find fst snd]. rewrite IH. unfold settled at 1.
    rewrite merge_entry_get.
    destruct (Py.eqb k0 k && truthy v0) eqn:C; cbn [andb].
    + destruct (settled truthy k info) eqn:S; cbn [negb].
      * fold (settled truthy k info). rewrite S. reflexivity.
      * apply andb_true_iff in C. destruct C as [_ T]. rewrite T.
        reflexivity.
    + fold (settled truthy k info).
      destruct (settled truthy k info); reflexivity.
Qed.
End Merge.

End OrderInfoFacts.
